(** * Property listing backend: the cache-augmented query layer

    A shallow embedding of the listing controllers, the favourites
    controller and the cache service of the repository, together with the
    properties of the cache-aside and invalidation protocol.

    Strings are byte strings ([string]); a JavaScript object whose property
    order is observable (the parsed query string) is an association list in
    property order; the Redis key space is a finite map. *)

From Stdlib Require Import ZArith List Ascii String Bool Lia QArith.
From stdpp Require Import base option list strings gmap pretty sorting.

Local Open Scope string_scope.
Local Open Scope Z_scope.

(** ** JavaScript primitives used by the controllers *)

Module Js.

(** Numbers that the controllers compute with: [parseInt] results and what
    subtraction, multiplication, division and [Math.ceil] make of them.
    Integers are kept exact (the rounding of doubles beyond 2^53 and the
    sign of zero are outside the model). *)
Inductive num :=
| Int (z : Z)
| NaN
| Inf (negative : bool).

Definition num_eqb (a b : num) : bool :=
  match a, b with
  | Int x, Int y => x =? y
  | NaN, NaN => true
  | Inf n, Inf m => Bool.eqb n m
  | _, _ => false
  end.

Definition is_NaN (a : num) : bool :=
  match a with NaN => true | _ => false end.

(** [a - b] *)
Definition sub (a b : num) : num :=
  match a, b with
  | NaN, _ | _, NaN => NaN
  | Int x, Int y => Int (x - y)
  | Inf n, Int _ => Inf n
  | Int _, Inf n => Inf (negb n)
  | Inf n, Inf m => if Bool.eqb n m then NaN else Inf n
  end.

(** [a * b] *)
Definition mul (a b : num) : num :=
  match a, b with
  | NaN, _ | _, NaN => NaN
  | Int x, Int y => Int (x * y)
  | Inf n, Int y | Int y, Inf n =>
      if y =? 0 then NaN else Inf (xorb n (y <? 0))
  | Inf n, Inf m => Inf (xorb n m)
  end.

(** [Math.ceil(a / b)]: the quotient is rounded up at once, so that the
    result stays an integer whenever it is finite. *)
Definition ceil_div (a b : num) : num :=
  match a, b with
  | NaN, _ | _, NaN => NaN
  | Int x, Int y =>
      if y =? 0 then (if x =? 0 then NaN else Inf (x <? 0))
      else Int (- ((- x) / y))
  | Inf n, Int y => Inf (xorb n (y <? 0))
  | Int _, Inf _ => Int 0
  | Inf _, Inf _ => NaN
  end.

(** Truthiness of a string: only the empty string is falsy. *)
Definition truthy (s : string) : bool :=
  match s with EmptyString => false | _ => true end.

(** Truthiness of an optional string-valued property ([undefined] is
    falsy). *)
Definition truthy_opt (o : option string) : bool :=
  match o with Some s => truthy s | None => false end.

(** White space skipped by [parseInt] (the ASCII part of it; the white
    space beyond ASCII is outside the model). *)
Definition is_space (c : ascii) : bool :=
  let n := N_of_ascii c in
  ((9 <=? n) && (n <=? 13))%N || (n =? 32)%N.

Fixpoint skip_spaces (s : string) : string :=
  match s with
  | String c r => if is_space c then skip_spaces r else s
  | EmptyString => s
  end.

(** Value of a character as a digit: 0-9, then a-z and A-Z for 10-35. *)
Definition digit_value (c : ascii) : option Z :=
  let n := Z.of_N (N_of_ascii c) in
  if (48 <=? n) && (n <=? 57) then Some (n - 48)
  else if (97 <=? n) && (n <=? 122) then Some (n - 87)
  else if (65 <=? n) && (n <=? 90) then Some (n - 55)
  else None.

(** The longest prefix of digits of the radix, as a number; [None] when
    the prefix is empty. *)
Fixpoint digits (radix : Z) (acc : option Z) (s : string) : option Z :=
  match s with
  | String c r =>
      match digit_value c with
      | Some d =>
          if d <? radix
          then digits radix (Some (default 0 acc * radix + d)) r
          else acc
      | None => acc
      end
  | EmptyString => acc
  end.

(** [parseInt(s)] with no radix argument: leading white space, an optional
    sign, an optional [0x] prefix selecting radix 16, then the longest run
    of digits; [NaN] when there is none. Trailing text is ignored. *)
Definition parseInt (s : string) : num :=
  let s1 := skip_spaces s in
  let '(negative, s2) :=
    match s1 with
    | String c r =>
        if Ascii.eqb c "-" then (true, r)
        else if Ascii.eqb c "+" then (false, r)
        else (false, s1)
    | EmptyString => (false, s1)
    end in
  let '(radix, s3) :=
    match s2 with
    | String c (String x r) =>
        if Ascii.eqb c "0" && (Ascii.eqb x "x" || Ascii.eqb x "X")
        then (16, r) else (10, s2)
    | _ => (10, s2)
    end in
  match digits radix None s3 with
  | Some v => Int (if negative : bool then - v else v)
  | None => NaN
  end.

(** Numbers with a fractional part, as [parseFloat] reads them (kept
    exact; the rounding to a double, and the overflow to [Infinity] of a
    literal beyond the largest double, are outside the model). *)
Inductive real :=
| Fin (q : Q)
| RNaN
| RInf (negative : bool).

(** The longest prefix of decimal digits, most significant first, and the
    text after it. *)
Fixpoint decimal_run (s : string) : list Z * string :=
  match s with
  | String c r =>
      match digit_value c with
      | Some d =>
          if d <? 10 then let '(ds, rest) := decimal_run r in (d :: ds, rest)
          else ([], s)
      | None => ([], s)
      end
  | EmptyString => ([], s)
  end.

Definition decimal_value (ds : list Z) : Z :=
  fold_left (fun acc d => acc * 10 + d) ds 0.

Definition starts_with (p s : string) : bool := String.prefix p s.

(** [parseFloat(s)]: leading white space, an optional sign, then
    [Infinity] or a decimal literal (digits, an optional fraction, an
    optional exponent with at least one digit); [NaN] when no literal
    starts there. Trailing text is ignored. *)
Definition parseFloat (s : string) : real :=
  let s1 := skip_spaces s in
  let '(negative, s2) :=
    match s1 with
    | String c r =>
        if Ascii.eqb c "-" then (true, r)
        else if Ascii.eqb c "+" then (false, r)
        else (false, s1)
    | EmptyString => (false, s1)
    end in
  if starts_with "Infinity" s2 then RInf negative
  else
    let '(ip, s3) := decimal_run s2 in
    let '(fp, s4) :=
      match s3 with
      | String c r => if Ascii.eqb c "." then decimal_run r else ([], s3)
      | EmptyString => ([], s3)
      end in
    match ip, fp with
    | [], [] => RNaN
    | _, _ =>
        let exponent :=
          match s4 with
          | String c r =>
              if Ascii.eqb c "e" || Ascii.eqb c "E" then
                let '(eneg, r') :=
                  match r with
                  | String c' r'' =>
                      if Ascii.eqb c' "-" then (true, r'')
                      else if Ascii.eqb c' "+" then (false, r'')
                      else (false, r)
                  | EmptyString => (false, r)
                  end in
                match decimal_run r' with
                | ([], _) => 0
                | (ds, _) =>
                    if eneg : bool then - decimal_value ds
                    else decimal_value ds
                end
              else 0
          | EmptyString => 0
          end in
        let mantissa := decimal_value (ip ++ fp)%list in
        let mantissa := if negative : bool then - mantissa else mantissa in
        let scale := exponent - Z.of_nat (List.length fp) in
        Fin (if 0 <=? scale then inject_Z (mantissa * 10 ^ scale)
             else Qmake mantissa (Z.to_pos (10 ^ (- scale))))
    end.

(** [s.split(sep)] for a one-character separator. *)
Fixpoint split (sep : ascii) (s : string) : list string :=
  match s with
  | EmptyString => [EmptyString]
  | String c r =>
      if Ascii.eqb c sep then EmptyString :: split sep r
      else match split sep r with
           | w :: ws => String c w :: ws
           | [] => [String c EmptyString]
           end
  end.

(** [arr.includes(x)] on an array of strings. *)
Definition includes (arr : list string) (x : string) : bool :=
  existsb (String.eqb x) arr.

(** *** [JSON.stringify] on an object whose values are strings *)

Definition hex_digit (n : N) : ascii :=
  ascii_of_N (if (n <? 10)%N then 48 + n else 87 + n).

Definition dquote : ascii := ascii_of_N 34.
Definition backslash : ascii := ascii_of_N 92.

(** Escape of one character inside a JSON string literal. *)
Definition escape_char (c : ascii) : string :=
  let n := N_of_ascii c in
  if (n =? 34)%N then String backslash (String dquote EmptyString)
  else if (n =? 92)%N then String backslash (String backslash EmptyString)
  else if (n =? 8)%N then "\b"
  else if (n =? 12)%N then "\f"
  else if (n =? 10)%N then "\n"
  else if (n =? 13)%N then "\r"
  else if (n =? 9)%N then "\t"
  else if (n <? 32)%N then
    "\u00" +:+
    String (hex_digit (n / 16)) (String (hex_digit (n mod 16)) EmptyString)
  else String c EmptyString.

Fixpoint escape (s : string) : string :=
  match s with
  | EmptyString => EmptyString
  | String c r => escape_char c +:+ escape r
  end.

Definition quote (s : string) : string :=
  String dquote (escape s +:+ String dquote EmptyString).

(** One [name:value] member of the serialized object. *)
Definition member (kv : string * string) : string :=
  quote kv.1 +:+ ":" +:+ quote kv.2.

Fixpoint members (o : list (string * string)) : string :=
  match o with
  | [] => EmptyString
  | [kv] => member kv
  | kv :: rest => member kv +:+ "," +:+ members rest
  end.

(** [JSON.stringify(o)] for an object [o] given by its own enumerable
    properties in enumeration order, every value being a string. *)
Definition stringify_object (o : list (string * string)) : string :=
  "{" +:+ members o +:+ "}".

End Js.

(** ** The Redis key space *)

Module Redis.

(** *** Glob patterns of the [KEYS] command *)

Inductive token :=
| Star                                   (* [*] *)
| AnyChar                                (* [?] *)
| Lit (c : ascii)                        (* a character, possibly escaped *)
| Class (negated : bool) (ranges : list (ascii * ascii)).   (* [[...]] *)

(** Reads a pattern into tokens. [cls] holds the character class being
    read, if any. An unterminated class ends with the pattern. *)
Fixpoint tokens (cls : option (bool * list (ascii * ascii)))
    (p : string) : list token :=
  match cls, p with
  | None, EmptyString => []
  | None, String c r =>
      if Ascii.eqb c "*" then Star :: tokens None r
      else if Ascii.eqb c "?" then AnyChar :: tokens None r
      else if Ascii.eqb c "\" then
        match r with
        | String c' r' => Lit c' :: tokens None r'
        | EmptyString => [Lit c]
        end
      else if Ascii.eqb c "[" then
        match r with
        | String c' r' =>
            if Ascii.eqb c' "^" then tokens (Some (true, [])) r'
            else tokens (Some (false, [])) r
        | EmptyString => tokens (Some (false, [])) r
        end
      else Lit c :: tokens None r
  | Some (neg, acc), EmptyString => [Class neg acc]
  | Some (neg, acc), String c r =>
      let single := tokens (Some (neg, (acc ++ [(c, c)])%list)) r in
      match r with
      | String c' r' =>
          if Ascii.eqb c "\" then
            tokens (Some (neg, (acc ++ [(c', c')])%list)) r'
          else if Ascii.eqb c "]" then Class neg acc :: tokens None r
          else if Ascii.eqb c' "-" then
            match r' with
            | String b r'' =>
                let range :=
                  if (N_of_ascii b <? N_of_ascii c)%N then (b, c)
                  else (c, b) in
                tokens (Some (neg, (acc ++ [range])%list)) r''
            | EmptyString => single
            end
          else single
      | EmptyString =>
          if Ascii.eqb c "]" then Class neg acc :: tokens None r
          else single
      end
  end.

Definition in_range (c : ascii) (r : ascii * ascii) : bool :=
  ((N_of_ascii r.1 <=? N_of_ascii c) && (N_of_ascii c <=? N_of_ascii r.2))%N.

Fixpoint match_tokens (ts : list token) (s : string) : bool :=
  match ts with
  | [] => match s with EmptyString => true | _ => false end
  | Star :: ts' =>
      (fix star (s : string) : bool :=
         match_tokens ts' s ||
         match s with
         | EmptyString => false
         | String _ r => star r
         end) s
  | AnyChar :: ts' =>
      match s with
      | String _ r => match_tokens ts' r
      | EmptyString => false
      end
  | Lit c :: ts' =>
      match s with
      | String x r => Ascii.eqb c x && match_tokens ts' r
      | EmptyString => false
      end
  | Class neg ranges :: ts' =>
      match s with
      | String x r =>
          xorb neg (existsb (in_range x) ranges) && match_tokens ts' r
      | EmptyString => false
      end
  end.

(** Does [key] match the glob [pattern]? *)
Definition glob (pattern key : string) : bool :=
  match_tokens (tokens None pattern) key.

(** *** The server *)

(** An entry is the stored string with the expiry (seconds) it was given. *)
Abbreviation entry := (string * Z)%type (only parsing).

(** [faults] is the fate of the commands to come: [true] means that the
    command is rejected (connection lost, server error); when the list is
    used up every command is served. *)
Record t := mk {
  kv : gmap string entry;
  faults : list bool
}.

Definition healthy (r : t) : bool := forallb negb (faults r).

End Redis.

(** ** Computations that read and write a state and may throw *)

Inductive exn :=
| RedisError                 (* a Redis command was rejected *)
| SyntaxError                (* [JSON.parse] on malformed text *)
| TypeError                  (* [JSON.stringify] on a value it refuses *)
| StoreError (msg : string). (* the document store rejected an operation *)

Inductive outcome (A : Type) :=
| Returned (a : A)
| Thrown (e : exn).
Arguments Returned {A} a.
Arguments Thrown {A} e.

Definition M (S A : Type) : Type := S -> outcome A * S.

Definition ret {S A} (a : A) : M S A := fun s => (Returned a, s).

Definition throw {S A} (e : exn) : M S A := fun s => (Thrown e, s).

Definition bind {S A B} (m : M S A) (k : A -> M S B) : M S B :=
  fun s =>
    match m s with
    | (Returned a, s') => k a s'
    | (Thrown e, s') => (Thrown e, s')
    end.

(** [try { m } catch (e) { h e }] *)
Definition try_catch {S A} (m : M S A) (h : exn -> M S A) : M S A :=
  fun s =>
    match m s with
    | (Returned a, s') => (Returned a, s')
    | (Thrown e, s') => h e s'
    end.

Definition gets {S A} (f : S -> A) : M S A := fun s => (Returned (f s), s).

Definition modify {S} (f : S -> S) : M S unit :=
  fun s => (Returned tt, f s).

Declare Scope js_scope.
Delimit Scope js_scope with js.
Notation "x <- m ;; k" := (bind m (fun x => k))
  (at level 100, m at next level, right associativity) : js_scope.
Notation "m ;; k" := (bind m (fun _ => k))
  (at level 100, right associativity) : js_scope.
Local Open Scope js_scope.

(** *** The commands of the Redis client *)

Module Client.
Import Redis.

(** A command consumes the next fault: rejected, it throws and leaves the
    key space as it is; served, it runs on the key space. *)
Definition command {A} (run : gmap string entry -> outcome A * gmap string entry)
  : M Redis.t A :=
  fun r =>
    let '(fault, rest) :=
      match faults r with
      | b :: fs => (b, fs)
      | [] => (false, [])
      end in
    if fault : bool then (Thrown RedisError, mk (kv r) rest)
    else let '(a, m) := run (kv r) in (a, mk m rest).

(** [redisClient.get(key)]: the stored string, or [null]. *)
Definition get (key : string) : M Redis.t (option string) :=
  command (fun m => (Returned (fst <$> m !! key), m)).

(** [redisClient.set(key, value, 'EX', ttl)]: the server refuses an expiry
    that is not positive. *)
Definition set (key value : string) (ttl : Z) : M Redis.t unit :=
  command (fun m =>
    if ttl <=? 0 then (Thrown RedisError, m)
    else (Returned tt, <[key := (value, ttl)]> m)).

(** [redisClient.del(...keys)]: the server refuses an empty argument
    list. *)
Definition del (keys : list string) : M Redis.t unit :=
  command (fun m =>
    match keys with
    | [] => (Thrown RedisError, m)
    | _ => (Returned tt, foldr delete m keys)
    end).

(** [redisClient.keys(pattern)] *)
Definition keys (pattern : string) : M Redis.t (list string) :=
  command (fun m =>
    (Returned (filter (fun k => glob pattern k = true) (map_to_list m).*1), m)).

End Client.

(** ** Documents of the entity store *)

(** A listing, with the fields of the schema. Prices, areas and counts are
    integers, the rating is a fraction, the availability date is its time
    value in milliseconds. *)
Record Property := {
  propertyId : string;
  title : string;
  type : string;
  price : Z;
  state : string;
  city : string;
  areaSqFt : Z;
  bedrooms : Z;
  bathrooms : Z;
  amenities : list string;
  furnished : string;
  availableFrom : Z;
  listedBy : string;
  tags : list string;
  colorTheme : string;
  rating : Q;
  isVerified : bool;
  listingType : string;
  createdBy : option string
}.

(** A user: the identifier given by the store, the email and the
    identifiers of the favourite listings, in the order they were added. *)
Record User := {
  _id : string;
  email : string;
  favorites : list string
}.

(** ** The search request *)

(** [req.query]: the parsed query string, an object whose values are
    strings, listed in the order of its properties. *)
Definition Query : Type := list (string * string).

(** [q[name]], [None] standing for [undefined]. *)
Fixpoint prop (q : Query) (name : string) : option string :=
  match q with
  | [] => None
  | (k, v) :: rest => if String.eqb k name then Some v else prop rest name
  end.

(** A bound given to the date constructor, kept as written: [new Date(s)]. *)
Inductive JSDate := NewDate (s : string).

(** [{ $gte, $lte }] *)
Record Range := {
  gte : option Js.num;
  lte : option Js.num
}.

(** The filter object handed to the entity store; [None] is a property the
    object does not have. *)
Record Filter := {
  f_type : option string;
  f_state : option string;
  f_city : option string;
  f_bedrooms : option Js.num;
  f_bathrooms : option Js.num;
  f_furnished : option string;
  f_listedBy : option string;
  f_listingType : option string;
  f_isVerified : option bool;
  f_price : option Range;
  f_areaSqFt : option Range;
  f_rating : option Js.real;          (* [{ $gte }] *)
  f_availableFrom : option JSDate;    (* [{ $gte }] *)
  f_amenities : option (list string); (* [{ $all }] *)
  f_tags : option (list string)       (* [{ $all }] *)
}.

(** [if (v) target = f(v)]: the property is set for a non-empty string. *)
Definition when_truthy {A} (v : option string) (f : string -> A) : option A :=
  match v with
  | Some s => if Js.truthy s then Some (f s) else None
  | None => None
  end.

(** [if (lo || hi) { target = {}; if (lo) ...; if (hi) ... }] *)
Definition range_of (lo hi : option string) : option Range :=
  if Js.truthy_opt lo || Js.truthy_opt hi
  then Some {| gte := when_truthy lo Js.parseInt;
               lte := when_truthy hi Js.parseInt |}
  else None.

(** The filter that [searchProperties] builds from the query. *)
Definition searchFilter (q : Query) : Filter :=
  {| f_type := when_truthy (prop q "type") id;
     f_state := when_truthy (prop q "state") id;
     f_city := when_truthy (prop q "city") id;
     f_bedrooms := when_truthy (prop q "bedrooms") Js.parseInt;
     f_bathrooms := when_truthy (prop q "bathrooms") Js.parseInt;
     f_furnished := when_truthy (prop q "furnished") id;
     f_listedBy := when_truthy (prop q "listedBy") id;
     f_listingType := when_truthy (prop q "listingType") id;
     f_isVerified :=
       match prop q "isVerified" with
       | Some v => Some (String.eqb v "true")
       | None => None
       end;
     f_price := range_of (prop q "minPrice") (prop q "maxPrice");
     f_areaSqFt := range_of (prop q "minArea") (prop q "maxArea");
     f_rating := when_truthy (prop q "minRating") Js.parseFloat;
     f_availableFrom := when_truthy (prop q "availableFrom") NewDate;
     f_amenities := when_truthy (prop q "amenities") (Js.split "|");
     f_tags := when_truthy (prop q "tags") (Js.split "|") |}.

(** [page], [limit], [sortBy] and [sortOrder] with their defaults, which
    apply to a property that is [undefined] only. *)
Definition page_of (q : Query) : string := default "1" (prop q "page").
Definition limit_of (q : Query) : string := default "10" (prop q "limit").
Definition sortBy_of (q : Query) : string := default "price" (prop q "sortBy").
Definition sortOrder_of (q : Query) : string :=
  default "asc" (prop q "sortOrder").

Definition pageNum (q : Query) : Js.num := Js.parseInt (page_of q).
Definition limitNum (q : Query) : Js.num := Js.parseInt (limit_of q).

(** [skip = (pageNum - 1) * limitNum] *)
Definition skip (q : Query) : Js.num :=
  Js.mul (Js.sub (pageNum q) (Js.Int 1)) (limitNum q).

(** [sort[sortBy] = sortOrder === 'asc' ? 1 : -1] *)
Definition sortDirection (q : Query) : Z :=
  if String.eqb (sortOrder_of q) "asc" then 1 else -1.

(** [Math.ceil(total / limitNum)] *)
Definition pages (total : Z) (q : Query) : Js.num :=
  Js.ceil_div (Js.Int total) (limitNum q).

(** ** Values given to [res.json] and to the cache *)

Record Pagination := {
  pg_total : Z;
  pg_page : Js.num;
  pg_limit : Js.num;
  pg_pages : Js.num
}.

Record FilterOptions := {
  fo_types : list string;
  fo_states : list string;
  fo_cities : list string;
  fo_furnishedOptions : list string;
  fo_listedByOptions : list string;
  fo_listingTypes : list string;
  fo_amenities : list string;
  fo_tags : list string
}.

Record SearchData := {
  sd_properties : list Property;
  sd_pagination : Pagination;
  sd_filterOptions : FilterOptions
}.

Inductive value :=
| VNull
| VMessage (message : string)            (* [{ message }] *)
| VError (error : string)                (* [{ error }] *)
| VDoc (p : Property)
| VDocs (ps : list Property)
| VParsed (text : string)                (* [JSON.parse(text)] *)
| VSearch (data : SearchData)            (* [{ success: true, data }] *)
| VFilters (data : FilterOptions)        (* [{ success: true, data }] *)
| VFailed (message : string) (e : exn).  (* [{ success: false, message, error }] *)

Record Response := {
  status : Z;
  body : value
}.

(** What [JSON.parse] makes of a text: it throws, or yields a value that
    is falsy ([null], [false], [0], the empty string) or truthy. *)
Inductive parsed := Malformed | Falsy | Truthy.

(** ** The entity store *)

(** A date as a body holds it: the text received, or a date object with
    its time value ([NaN] for an invalid date). *)
Inductive DateInput :=
| DateText (s : string)
| DateObject (t : Js.num).

(** The fields a request body may carry for a listing; [None] is a field
    the body does not have. *)
Record PropertyData := {
  d_propertyId : option string;
  d_title : option string;
  d_type : option string;
  d_price : option Z;
  d_state : option string;
  d_city : option string;
  d_areaSqFt : option Z;
  d_bedrooms : option Z;
  d_bathrooms : option Z;
  d_amenities : option (list string);
  d_furnished : option string;
  d_availableFrom : option DateInput;
  d_listedBy : option string;
  d_tags : option (list string);
  d_colorTheme : option string;
  d_rating : option Q;
  d_isVerified : option bool;
  d_listingType : option string;
  d_createdBy : option string
}.

Module Store.

Definition has_id (id : string) (p : Property) : bool :=
  String.eqb (propertyId p) id.

(** [Property.findOne({ propertyId: id })] *)
Definition findOne (id : string) (db : list Property) : option Property :=
  List.find (has_id id) db.

(** A required string is present and not empty. *)
Definition required (o : option string) : option string :=
  match o with
  | Some s => if Js.truthy s then Some s else None
  | None => None
  end.

Definition one_of (allowed : list string) (o : option string) : option string :=
  match required o with
  | Some s => if Js.includes allowed s then Some s else None
  | None => None
  end.

Section Dates.

(** The date parser of the platform: the time value of [new Date(s)],
    [NaN] for a text it does not read as a date. *)
Variable Date_parse : string -> Js.num.

(** The time value of a date field once cast, if it is a valid date. *)
Definition valid_date (o : option DateInput) : option Z :=
  match o with
  | Some (DateText s) =>
      match Date_parse s with Js.Int t => Some t | _ => None end
  | Some (DateObject (Js.Int t)) => Some t
  | _ => None
  end.

(** The document that the schema makes of the data: the identifier
    defaults to [fresh], every required field must be there, the
    enumerated fields must hold an allowed value and the date must be a
    valid one. The identifier of the creator is kept as the text it is:
    its cast to an [ObjectId], which a text of twenty-four hexadecimal
    digits passes, is outside the model. *)
Definition validate (fresh : string) (d : PropertyData) : option Property :=
  pid ← required (Some (default fresh (d_propertyId d)));
  ti ← required (d_title d);
  ty ← required (d_type d);
  pr ← d_price d;
  st ← required (d_state d);
  ci ← required (d_city d);
  ar ← d_areaSqFt d;
  be ← d_bedrooms d;
  ba ← d_bathrooms d;
  fu ← one_of ["Furnished"; "Unfurnished"; "Semi"] (d_furnished d);
  av ← valid_date (d_availableFrom d);
  li ← one_of ["Builder"; "Owner"; "Agent"] (d_listedBy d);
  co ← required (d_colorTheme d);
  ra ← d_rating d;
  ve ← d_isVerified d;
  lt ← one_of ["rent"; "sale"] (d_listingType d);
  Some {| propertyId := pid; title := ti; type := ty; price := pr;
          state := st; city := ci; areaSqFt := ar; bedrooms := be;
          bathrooms := ba; amenities := default [] (d_amenities d);
          furnished := fu; availableFrom := av; listedBy := li;
          tags := default [] (d_tags d); colorTheme := co; rating := ra;
          isVerified := ve; listingType := lt;
          createdBy := d_createdBy d |}.

(** [Property.create(data)]: the validated document is appended unless its
    identifier is taken (unique index). *)
Definition create (fresh : string) (d : PropertyData) (db : list Property)
  : outcome Property * list Property :=
  match validate fresh d with
  | None => (Thrown (StoreError "ValidationError"), db)
  | Some p =>
      match findOne (propertyId p) db with
      | Some _ => (Thrown (StoreError "E11000 duplicate key"), db)
      | None => (Returned p, (db ++ [p])%list)
      end
  end.

(** The fields of the body written over those of the document. *)
Definition assign (d : PropertyData) (p : Property) : Property :=
  {| propertyId := default (propertyId p) (d_propertyId d);
     title := default (title p) (d_title d);
     type := default (type p) (d_type d);
     price := default (price p) (d_price d);
     state := default (state p) (d_state d);
     city := default (city p) (d_city d);
     areaSqFt := default (areaSqFt p) (d_areaSqFt d);
     bedrooms := default (bedrooms p) (d_bedrooms d);
     bathrooms := default (bathrooms p) (d_bathrooms d);
     amenities := default (amenities p) (d_amenities d);
     furnished := default (furnished p) (d_furnished d);
     availableFrom :=
       default (availableFrom p) (valid_date (d_availableFrom d));
     listedBy := default (listedBy p) (d_listedBy d);
     tags := default (tags p) (d_tags d);
     colorTheme := default (colorTheme p) (d_colorTheme d);
     rating := default (rating p) (d_rating d);
     isVerified := default (isVerified p) (d_isVerified d);
     listingType := default (listingType p) (d_listingType d);
     createdBy :=
       match d_createdBy d with Some u => Some u | None => createdBy p end |}.

(** The first document with the identifier replaced by [f] of it. *)
Fixpoint replace_first (id : string) (f : Property -> Property)
    (db : list Property) : list Property :=
  match db with
  | [] => []
  | p :: rest =>
      if has_id id p then f p :: rest else p :: replace_first id f rest
  end.

(** The first document with the identifier taken out. *)
Fixpoint remove_first (id : string) (db : list Property) : list Property :=
  match db with
  | [] => []
  | p :: rest => if has_id id p then rest else p :: remove_first id rest
  end.

(** [Property.findOneAndUpdate({ propertyId: id }, body, { new: true })]:
    the updated document, or [null] when there is none. A date that is not
    valid cannot be cast, and an identifier held by another document
    violates the unique index. *)
Definition findOneAndUpdate (id : string) (d : PropertyData)
    (db : list Property) : outcome (option Property) * list Property :=
  match d_availableFrom d, valid_date (d_availableFrom d) with
  | Some _, None => (Thrown (StoreError "CastError"), db)
  | _, _ =>
      match findOne id db with
      | None => (Returned None, db)
      | Some p =>
          let p' := assign d p in
          if negb (String.eqb (propertyId p') id)
             && bool_decide (is_Some (findOne (propertyId p') db))
          then (Thrown (StoreError "E11000 duplicate key"), db)
          else (Returned (Some p'), replace_first id (fun _ => p') db)
      end
  end.

End Dates.

(** [User.findById(id)] *)
Definition findById (id : string) (us : list User) : option User :=
  List.find (fun u => String.eqb (_id u) id) us.

(** [userDoc.save()]: the stored user with that identifier becomes [u]. *)
Fixpoint save (u : User) (us : list User) : list User :=
  match us with
  | [] => []
  | v :: rest =>
      if String.eqb (_id v) (_id u) then u :: rest else v :: save u rest
  end.

(** *** Matching a filter *)

Definition eq_str (c : option string) (v : string) : bool :=
  match c with Some s => String.eqb v s | None => true end.

Definition eq_num (c : option Js.num) (v : Z) : bool :=
  match c with
  | Some (Js.Int z) => v =? z
  | Some _ => false
  | None => true
  end.

Definition eq_bool (c : option bool) (v : bool) : bool :=
  match c with Some b => Bool.eqb v b | None => true end.

Definition ge_num (c : option Js.num) (v : Z) : bool :=
  match c with
  | Some (Js.Int z) => z <=? v
  | Some (Js.Inf neg) => neg
  | Some Js.NaN => false
  | None => true
  end.

Definition le_num (c : option Js.num) (v : Z) : bool :=
  match c with
  | Some (Js.Int z) => v <=? z
  | Some (Js.Inf neg) => negb neg
  | Some Js.NaN => false
  | None => true
  end.

Definition in_range (c : option Range) (v : Z) : bool :=
  match c with
  | Some r => ge_num (gte r) v && le_num (lte r) v
  | None => true
  end.

Definition ge_real (c : option Js.real) (v : Q) : bool :=
  match c with
  | Some (Js.Fin q) => Qle_bool q v
  | Some (Js.RInf neg) => neg
  | Some Js.RNaN => false
  | None => true
  end.

(** [{ $all: vs }]: every listed value is an element of the array. *)
Definition all_in (c : option (list string)) (arr : list string) : bool :=
  match c with
  | Some vs => forallb (Js.includes arr) vs
  | None => true
  end.

Section Search.

Variable Date_parse : string -> Js.num.

(** The ordering of the store: the documents sorted on a field in a
    direction ([1] ascending, [-1] descending). *)
Variable sort_by : string -> Z -> list Property -> list Property.

(** What the store makes of a request it is not specified for: a filter
    value that cannot be cast, a skip that is not a natural number or a
    limit that is not a positive integer. *)
Variable irregular :
  Filter -> string -> Z -> Js.num -> Js.num -> list Property ->
  outcome (list Property * Z).

Definition ge_date (c : option JSDate) (v : Z) : bool :=
  match c with
  | Some (NewDate s) =>
      match Date_parse s with
      | Js.Int t => t <=? v
      | Js.Inf neg => neg
      | Js.NaN => false
      end
  | None => true
  end.

(** Does the document satisfy every constraint of the filter? *)
Definition matches (f : Filter) (p : Property) : bool :=
  eq_str (f_type f) (type p)
  && eq_str (f_state f) (state p)
  && eq_str (f_city f) (city p)
  && eq_num (f_bedrooms f) (bedrooms p)
  && eq_num (f_bathrooms f) (bathrooms p)
  && eq_str (f_furnished f) (furnished p)
  && eq_str (f_listedBy f) (listedBy p)
  && eq_str (f_listingType f) (listingType p)
  && eq_bool (f_isVerified f) (isVerified p)
  && in_range (f_price f) (price p)
  && in_range (f_areaSqFt f) (areaSqFt p)
  && ge_real (f_rating f) (rating p)
  && ge_date (f_availableFrom f) (availableFrom p)
  && all_in (f_amenities f) (amenities p)
  && all_in (f_tags f) (tags p).

Definition castable_num (c : option Js.num) : bool :=
  match c with Some n => negb (Js.is_NaN n) | None => true end.

Definition castable_range (c : option Range) : bool :=
  match c with
  | Some r => castable_num (gte r) && castable_num (lte r)
  | None => true
  end.

(** No number of the filter is [NaN] and its date is a valid one. *)
Definition castable (f : Filter) : bool :=
  castable_num (f_bedrooms f)
  && castable_num (f_bathrooms f)
  && castable_range (f_price f)
  && castable_range (f_areaSqFt f)
  && match f_rating f with Some Js.RNaN => false | _ => true end
  && match f_availableFrom f with
     | Some (NewDate s) => negb (Js.is_NaN (Date_parse s))
     | None => true
     end.

(** [Property.find(filter).sort(sort).skip(skip).limit(limit)] together
    with [Property.countDocuments(filter)]. *)
Definition search (f : Filter) (sortBy : string) (direction : Z)
    (skip limit : Js.num) (db : list Property) : outcome (list Property * Z) :=
  match skip, limit with
  | Js.Int s, Js.Int l =>
      if castable f && (0 <=? s) && (1 <=? l) then
        let hits := List.filter (matches f) db in
        Returned (take (Z.to_nat l) (drop (Z.to_nat s) (sort_by sortBy direction hits)),
                  Z.of_nat (List.length hits))
      else irregular f sortBy direction skip limit db
  | _, _ => irregular f sortBy direction skip limit db
  end.

End Search.

(** [Property.distinct(field)] for a field holding a string, and for one
    holding an array of strings: the values present, each once. *)
Definition distinct (field : Property -> string) (db : list Property)
  : list string :=
  remove_dups (map field db).

Definition distinct_in (field : Property -> list string)
    (db : list Property) : list string :=
  remove_dups (concat (map field db)).

End Store.

(** [getFilterOptions()] *)
Definition getFilterOptions (db : list Property) : FilterOptions :=
  {| fo_types := Store.distinct type db;
     fo_states := Store.distinct state db;
     fo_cities := Store.distinct city db;
     fo_furnishedOptions := Store.distinct furnished db;
     fo_listedByOptions := Store.distinct listedBy db;
     fo_listingTypes := Store.distinct listingType db;
     fo_amenities := Store.distinct_in amenities db;
     fo_tags := Store.distinct_in tags db |}.

(** ** The cache service *)

Module CacheService.

Definition CACHE_TTL : Z := 3600.

Section Json.

(** [JSON.parse] and [JSON.stringify] of the platform. *)
Variable JSON_parse : string -> parsed.
Variable JSON_stringify : value -> option string.

(** [CacheService.get(key)] *)
Definition get (key : string) : M Redis.t (option value) :=
  try_catch
    (data <- Client.get key ;;
     match data with
     | Some text =>
         if Js.truthy text then
           match JSON_parse text with
           | Malformed => throw SyntaxError
           | _ => ret (Some (VParsed text))
           end
         else ret None
     | None => ret None
     end)
    (fun _ => ret None).

(** [CacheService.set(key, value, ttl)] *)
Definition set (key : string) (v : value) (ttl : Z) : M Redis.t unit :=
  try_catch
    (match JSON_stringify v with
     | Some stringValue => Client.set key stringValue ttl
     | None => throw TypeError
     end)
    (fun _ => ret tt).

(** [CacheService.del(key)] *)
Definition del (key : string) : M Redis.t unit :=
  try_catch (Client.del [key]) (fun _ => ret tt).

(** [CacheService.delByPattern(pattern)] *)
Definition delByPattern (pattern : string) : M Redis.t unit :=
  try_catch
    (keys <- Client.keys pattern ;;
     if (0 <? Z.of_nat (List.length keys)) then Client.del keys else ret tt)
    (fun _ => ret tt).

(** [if (cached)]: is what the cache returned a truthy value? *)
Definition hit (cached : option value) : option value :=
  match cached with
  | Some (VParsed text) =>
      match JSON_parse text with Truthy => cached | _ => None end
  | Some _ => cached
  | None => None
  end.

End Json.

End CacheService.

(** ** The controllers *)

(** The state the controllers act on: the two collections of the entity
    store and the Redis server. *)
Record World := {
  properties : list Property;
  users : list User;
  redis : Redis.t
}.

(** A cache-service call, run on the Redis server of the world. *)
Definition cache {A} (m : M Redis.t A) : M World A :=
  fun w =>
    let '(o, r) := m (redis w) in
    (o, {| properties := properties w; users := users w; redis := r |}).

(** An operation on the listings collection. *)
Definition listings {A}
    (op : list Property -> outcome A * list Property) : M World A :=
  fun w =>
    let '(o, db) := op (properties w) in
    (o, {| properties := db; users := users w; redis := redis w |}).

(** An operation on the users collection. *)
Definition accounts {A} (op : list User -> outcome A * list User) : M World A :=
  fun w =>
    let '(o, us) := op (users w) in
    (o, {| properties := properties w; users := us; redis := redis w |}).

(** [try { ... } catch (err) { res.status(500).json(...) }] around the body
    of a request handler. *)
Definition handler (m : M World Response) (failed : exn -> Response)
  : World -> Response * World :=
  fun w =>
    match m w with
    | (Returned r, w') => (r, w')
    | (Thrown e, w') => (failed e, w')
    end.

Definition respond (code : Z) (v : value) : M World Response :=
  ret {| status := code; body := v |}.

Module CACHE_KEYS.

Definition PROPERTY (id : string) : string := "property:" +:+ id.
Definition PROPERTIES : string := "properties:all".
Definition SEARCH (query : string) : string := "search:" +:+ query.
Definition FILTERS : string := "filters:all".
Definition USER_FAVORITES (userId : string) : string :=
  "user:" +:+ userId +:+ ":favorites".

End CACHE_KEYS.

(** The key under which [searchProperties] caches the result of a query. *)
Definition searchKey (q : Query) : string :=
  CACHE_KEYS.SEARCH (Js.stringify_object q).

(** The default identifier of the schema: [PROP] and a drawn number (from
    1000 to 9999). *)
Definition fresh_id (draw : N) : string := "PROP" +:+ pretty draw.

(** [`20${year}-${month}-${day}`] for [[day, month, year] = s.split('/')];
    a part that is missing reads [undefined]. *)
Definition iso_date (s : string) : string :=
  let parts := Js.split "/" s in
  "20" +:+ nth 2 parts "undefined" +:+ "-" +:+ nth 1 parts "undefined"
       +:+ "-" +:+ nth 0 parts "undefined".

Definition with_availableFrom (d : PropertyData) (a : option DateInput)
  : PropertyData :=
  {| d_propertyId := d_propertyId d; d_title := d_title d;
     d_type := d_type d; d_price := d_price d; d_state := d_state d;
     d_city := d_city d; d_areaSqFt := d_areaSqFt d;
     d_bedrooms := d_bedrooms d; d_bathrooms := d_bathrooms d;
     d_amenities := d_amenities d; d_furnished := d_furnished d;
     d_availableFrom := a; d_listedBy := d_listedBy d; d_tags := d_tags d;
     d_colorTheme := d_colorTheme d; d_rating := d_rating d;
     d_isVerified := d_isVerified d; d_listingType := d_listingType d;
     d_createdBy := d_createdBy d |}.

Definition with_createdBy (d : PropertyData) (u : option string)
  : PropertyData :=
  {| d_propertyId := d_propertyId d; d_title := d_title d;
     d_type := d_type d; d_price := d_price d; d_state := d_state d;
     d_city := d_city d; d_areaSqFt := d_areaSqFt d;
     d_bedrooms := d_bedrooms d; d_bathrooms := d_bathrooms d;
     d_amenities := d_amenities d; d_furnished := d_furnished d;
     d_availableFrom := d_availableFrom d; d_listedBy := d_listedBy d;
     d_tags := d_tags d; d_colorTheme := d_colorTheme d;
     d_rating := d_rating d; d_isVerified := d_isVerified d;
     d_listingType := d_listingType d; d_createdBy := u |}.

Section Controllers.

Variable JSON_parse : string -> parsed.
Variable JSON_stringify : value -> option string.
Variable Date_parse : string -> Js.num.
Variable sort_by : string -> Z -> list Property -> list Property.
Variable irregular :
  Filter -> string -> Z -> Js.num -> Js.num -> list Property ->
  outcome (list Property * Z).

Let cache_get := CacheService.get JSON_parse.
Let cache_set := CacheService.set JSON_stringify.
Let cache_hit := CacheService.hit JSON_parse.

(** *** Listings *)

(** [POST /properties] *)
Definition createProperty (user : option string) (body : PropertyData)
    (draw : N) : World -> Response * World :=
  handler
    (match user with
     | None => respond 401 (VMessage "User not authenticated")
     | Some uid =>
         propertyData <-
           match d_availableFrom body with
           | Some (DateText s) =>
               if Js.truthy s
               then ret (with_availableFrom body
                           (Some (DateObject (Date_parse (iso_date s)))))
               else ret body
           | Some (DateObject _) => throw TypeError
           | None => ret body
           end ;;
         property <-
           listings (Store.create Date_parse (fresh_id draw)
                       (with_createdBy propertyData (Some uid))) ;;
         cache (CacheService.delByPattern "properties:*") ;;
         cache (CacheService.delByPattern "search:*") ;;
         respond 201 (VDoc property)
     end)
    (fun _ => {| status := 500; body := VError "Failed to create property" |}).

(** [GET /properties] *)
Definition getAllProperties : World -> Response * World :=
  handler
    (cachedProperties <- cache (cache_get CACHE_KEYS.PROPERTIES) ;;
     match cache_hit cachedProperties with
     | Some v => respond 200 v
     | None =>
         found <- gets properties ;;
         cache (cache_set CACHE_KEYS.PROPERTIES (VDocs found)
                  CacheService.CACHE_TTL) ;;
         respond 200 (VDocs found)
     end)
    (fun _ => {| status := 500; body := VError "Failed to fetch properties" |}).

(** [GET /properties/:id] *)
Definition getPropertyById (id : string) : World -> Response * World :=
  let cacheKey := CACHE_KEYS.PROPERTY id in
  handler
    (cachedProperty <- cache (cache_get cacheKey) ;;
     match cache_hit cachedProperty with
     | Some v => respond 200 v
     | None =>
         property <- gets (fun w => Store.findOne id (properties w)) ;;
         match property with
         | None => respond 404 (VMessage "Property not found")
         | Some p =>
             cache (cache_set cacheKey (VDoc p) CacheService.CACHE_TTL) ;;
             respond 200 (VDoc p)
         end
     end)
    (fun _ => {| status := 500; body := VError "Failed to fetch property" |}).

(** [res.json(doc)] for a document that may be [null]. *)
Definition doc_or_null (o : option Property) : value :=
  match o with Some p => VDoc p | None => VNull end.

(** [PUT /properties/:id] *)
Definition updateProperty (user : option string) (id : string)
    (body : PropertyData) : World -> Response * World :=
  handler
    (match user with
     | None => respond 401 (VMessage "User not authenticated")
     | Some uid =>
         property <- gets (fun w => Store.findOne id (properties w)) ;;
         match property with
         | None => respond 404 (VMessage "Property not found")
         | Some p =>
             if negb (bool_decide (createdBy p = Some uid)) then
               respond 403 (VMessage "Not allowed to update this property")
             else
               updated <- listings (Store.findOneAndUpdate Date_parse id body) ;;
               cache (CacheService.del (CACHE_KEYS.PROPERTY id)) ;;
               cache (CacheService.delByPattern "properties:*") ;;
               cache (CacheService.delByPattern "search:*") ;;
               respond 200 (doc_or_null updated)
         end
     end)
    (fun _ => {| status := 500; body := VError "Failed to update property" |}).

(** [DELETE /properties/:id] *)
Definition deleteProperty (user : option string) (id : string)
  : World -> Response * World :=
  handler
    (match user with
     | None => respond 401 (VMessage "User not authenticated")
     | Some uid =>
         property <- gets (fun w => Store.findOne id (properties w)) ;;
         match property with
         | None => respond 404 (VMessage "Property not found")
         | Some p =>
             if negb (bool_decide (createdBy p = Some uid)) then
               respond 403 (VMessage "Not allowed to delete this property")
             else
               listings (fun db => (Returned tt, Store.remove_first id db)) ;;
               cache (CacheService.del (CACHE_KEYS.PROPERTY id)) ;;
               cache (CacheService.delByPattern "properties:*") ;;
               cache (CacheService.delByPattern "search:*") ;;
               respond 200 (VMessage "Property deleted")
         end
     end)
    (fun _ => {| status := 500; body := VError "Failed to delete property" |}).

(** [GET /properties/search] *)
Definition searchProperties (q : Query) : World -> Response * World :=
  let cacheKey := searchKey q in
  handler
    (cachedResult <- cache (cache_get cacheKey) ;;
     match cache_hit cachedResult with
     | Some v => respond 200 v
     | None =>
         let filter := searchFilter q in
         fetched <-
           listings (fun db =>
             (Store.search Date_parse sort_by irregular filter (sortBy_of q)
                (sortDirection q) (skip q) (limitNum q) db, db)) ;;
         let '(found, total) := fetched in
         filterOptions <- gets (fun w => getFilterOptions (properties w)) ;;
         let result :=
           VSearch
             {| sd_properties := found;
                sd_pagination :=
                  {| pg_total := total; pg_page := pageNum q;
                     pg_limit := limitNum q; pg_pages := pages total q |};
                sd_filterOptions := filterOptions |} in
         cache (cache_set cacheKey result CacheService.CACHE_TTL) ;;
         respond 200 result
     end)
    (fun e => {| status := 500;
                 body := VFailed "Error searching properties" e |}).

(** [GET /properties/filters] *)
Definition getFilterOptionsController : World -> Response * World :=
  handler
    (cachedFilters <- cache (cache_get CACHE_KEYS.FILTERS) ;;
     match cache_hit cachedFilters with
     | Some v => respond 200 v
     | None =>
         filterOptions <- gets (fun w => getFilterOptions (properties w)) ;;
         let result := VFilters filterOptions in
         cache (cache_set CACHE_KEYS.FILTERS result CacheService.CACHE_TTL) ;;
         respond 200 result
     end)
    (fun e => {| status := 500;
                 body := VFailed "Error getting filter options" e |}).

End Controllers.

(** *** Favourites *)

Definition with_favorites (u : User) (favs : list string) : User :=
  {| _id := _id u; email := email u; favorites := favs |}.

Section Favorites.

Variable JSON_parse : string -> parsed.
Variable JSON_stringify : value -> option string.

(** [GET /favorites] *)
Definition getFavorites (user : option string) : World -> Response * World :=
  handler
    (match user with
     | None => respond 401 (VMessage "User not authenticated")
     | Some uid =>
         let cacheKey := CACHE_KEYS.USER_FAVORITES uid in
         cachedFavorites <- cache (CacheService.get JSON_parse cacheKey) ;;
         match CacheService.hit JSON_parse cachedFavorites with
         | Some v => respond 200 v
         | None =>
             userDoc <- gets (fun w => Store.findById uid (users w)) ;;
             match userDoc with
             | None => respond 404 (VMessage "User not found")
             | Some u =>
                 favoriteProperties <-
                   gets (fun w =>
                     List.filter
                       (fun p => Js.includes (favorites u) (propertyId p))
                       (properties w)) ;;
                 cache (CacheService.set JSON_stringify cacheKey
                          (VDocs favoriteProperties) CacheService.CACHE_TTL) ;;
                 respond 200 (VDocs favoriteProperties)
             end
         end
     end)
    (fun _ => {| status := 500; body := VError "Failed to fetch favorites" |}).

End Favorites.

(** [POST /favorites/:propertyId] *)
Definition addFavorite (user : option string) (id : string)
  : World -> Response * World :=
  handler
    (match user with
     | None => respond 401 (VMessage "User not authenticated")
     | Some uid =>
         property <- gets (fun w => Store.findOne id (properties w)) ;;
         match property with
         | None => respond 404 (VMessage "Property not found")
         | Some p =>
             userDoc <- gets (fun w => Store.findById uid (users w)) ;;
             match userDoc with
             | None => respond 404 (VMessage "User not found")
             | Some u =>
                 if Js.includes (favorites u) (propertyId p) then
                   respond 400 (VMessage "Property already in favorites")
                 else
                   let saved :=
                     with_favorites u (favorites u ++ [propertyId p])%list in
                   accounts (fun us => (Returned tt, Store.save saved us)) ;;
                   cache (CacheService.del (CACHE_KEYS.USER_FAVORITES uid)) ;;
                   respond 200 (VMessage "Property added to favorites")
             end
         end
     end)
    (fun _ => {| status := 500; body := VError "Failed to add favorite" |}).

(** [DELETE /favorites/:propertyId] *)
Definition removeFavorite (user : option string) (id : string)
  : World -> Response * World :=
  handler
    (match user with
     | None => respond 401 (VMessage "User not authenticated")
     | Some uid =>
         property <- gets (fun w => Store.findOne id (properties w)) ;;
         match property with
         | None => respond 404 (VMessage "Property not found")
         | Some p =>
             userDoc <- gets (fun w => Store.findById uid (users w)) ;;
             match userDoc with
             | None => respond 404 (VMessage "User not found")
             | Some u =>
                 let saved :=
                   with_favorites u
                     (List.filter
                        (fun favId => negb (String.eqb favId (propertyId p)))
                        (favorites u)) in
                 accounts (fun us => (Returned tt, Store.save saved us)) ;;
                 cache (CacheService.del (CACHE_KEYS.USER_FAVORITES uid)) ;;
                 respond 200 (VMessage "Property removed from favorites")
             end
         end
     end)
    (fun _ => {| status := 500; body := VError "Failed to remove favorite" |}).

(** * Vocabulary of the properties *)

(** The keys that [KEYS pattern] lists. *)
Definition matching (pattern : string) (m : gmap string Redis.entry)
  : list string :=
  filter (fun k => Redis.glob pattern k = true) (map_to_list m).*1.

(** The key space once the keys matching a pattern are deleted. *)
Definition swept (pattern : string) (m : gmap string Redis.entry)
  : gmap string Redis.entry :=
  foldr delete m (matching pattern m).

(** The server after one command, whatever its fate. *)
Definition after (m : gmap string Redis.entry) (r : Redis.t) : Redis.t :=
  Redis.mk m (tail (Redis.faults r)).

Definition next_fault (r : Redis.t) : bool := default false (head (Redis.faults r)).

(** The single-listing key, the collection key and every search key are
    absent from the key space. *)
Definition invalidated (id : string) (r : Redis.t) : Prop :=
  Redis.kv r !! CACHE_KEYS.PROPERTY id = None /\
  Redis.kv r !! CACHE_KEYS.PROPERTIES = None /\
  forall query, Redis.kv r !! CACHE_KEYS.SEARCH query = None.

(** Nothing is cached under the keys a mutation of listing [id] must
    invalidate, and a read of any of them through the cache service yields
    nothing. *)
Definition nothing_stale (JSON_parse : string -> parsed) (id : string)
    (r : Redis.t) : Prop :=
  forall key,
    key = CACHE_KEYS.PROPERTY id \/ key = CACHE_KEYS.PROPERTIES \/
    (exists query, key = CACHE_KEYS.SEARCH query) ->
    Redis.kv r !! key = None /\
    (CacheService.get JSON_parse key r).1 = Returned None.

(** The value that [searchProperties] assembles from what the store
    returned. *)
Definition assembled (q : Query) (db found : list Property) (total : Z)
  : value :=
  VSearch
    {| sd_properties := found;
       sd_pagination :=
         {| pg_total := total; pg_page := pageNum q;
            pg_limit := limitNum q; pg_pages := pages total q |};
       sd_filterOptions := getFilterOptions db |}.

(** Two texts diverge when they differ at a position both have. *)
Fixpoint diverge (a b : string) : bool :=
  match a, b with
  | String x a', String y b' => if Ascii.eqb x y then diverge a' b' else true
  | _, _ => false
  end.

(** The escapes of two different characters diverge, and no escape starts
    with a double quote: checked on the 256 characters. *)
Definition escapes_checked : bool :=
  forallb
    (fun i =>
       diverge (Js.escape_char (ascii_of_nat i)) (String Js.dquote EmptyString)
       && forallb
            (fun j =>
               Nat.eqb i j
               || diverge (Js.escape_char (ascii_of_nat i))
                    (Js.escape_char (ascii_of_nat j)))
            (seq 0 256))
    (seq 0 256).

(** *** Sample data *)

Module Sample.

Definition villa : Property :=
  {| propertyId := "PROP1001"; title := "Sea view villa"; type := "Villa";
     price := 100; state := "Goa"; city := "Panaji"; areaSqFt := 2400;
     bedrooms := 4; bathrooms := 3; amenities := ["pool"; "gym"; "wifi"];
     furnished := "Furnished"; availableFrom := 0; listedBy := "Owner";
     tags := ["sea-view"]; colorTheme := "#6ab04c"; rating := 9 # 2;
     isVerified := true; listingType := "rent"; createdBy := Some "u1" |}.

Definition flat : Property :=
  {| propertyId := "PROP1002"; title := "City flat"; type := "Apartment";
     price := 200; state := "Goa"; city := "Margao"; areaSqFt := 900;
     bedrooms := 2; bathrooms := 1; amenities := ["pool"];
     furnished := "Semi"; availableFrom := 0; listedBy := "Agent";
     tags := []; colorTheme := "#4834d4"; rating := 4 # 1;
     isVerified := false; listingType := "sale"; createdBy := Some "u2" |}.

Definition alice : User :=
  {| _id := "u1"; email := "alice@example.org"; favorites := ["PROP1002"] |}.

(** A body that changes the price only. *)
Definition new_price (n : Z) : PropertyData :=
  {| d_propertyId := None; d_title := None; d_type := None;
     d_price := Some n; d_state := None; d_city := None;
     d_areaSqFt := None; d_bedrooms := None; d_bathrooms := None;
     d_amenities := None; d_furnished := None; d_availableFrom := None;
     d_listedBy := None; d_tags := None; d_colorTheme := None;
     d_rating := None; d_isVerified := None; d_listingType := None;
     d_createdBy := None |}.

(** The body of a new listing. *)
Definition cottage : PropertyData :=
  {| d_propertyId := Some "PROP2000"; d_title := Some "Hill cottage";
     d_type := Some "Cottage"; d_price := Some 150; d_state := Some "Goa";
     d_city := Some "Ponda"; d_areaSqFt := Some 700; d_bedrooms := Some 1;
     d_bathrooms := Some 1; d_amenities := Some ["garden"];
     d_furnished := Some "Unfurnished";
     d_availableFrom := Some (DateText "01/02/26");
     d_listedBy := Some "Owner"; d_tags := None;
     d_colorTheme := Some "#eb4d4b"; d_rating := Some (4 # 1);
     d_isVerified := Some false; d_listingType := Some "rent";
     d_createdBy := None |}.

(** The document made of that body for user [u1], every date text being
    read as the epoch. *)
Definition cottage_doc : Property :=
  {| propertyId := "PROP2000"; title := "Hill cottage"; type := "Cottage";
     price := 150; state := "Goa"; city := "Ponda"; areaSqFt := 700;
     bedrooms := 1; bathrooms := 1; amenities := ["garden"];
     furnished := "Unfurnished"; availableFrom := 0; listedBy := "Owner";
     tags := []; colorTheme := "#eb4d4b"; rating := 4 # 1;
     isVerified := false; listingType := "rent"; createdBy := Some "u1" |}.

(** A key space holding an entry of each family, cached before a
    mutation. *)
Definition warm : gmap string (string * Z) :=
  {[ "property:PROP1001" := ("villa at 100", 3600);
     "properties:all" := ("villa at 100, flat at 200", 3600);
     "search:{}" := ("flat, villa", 3600) ]}.

(** A world whose Redis server serves every command, and one whose server
    rejects the next three. *)
Definition served : World :=
  {| properties := [villa; flat]; users := [alice];
     redis := Redis.mk warm [] |}.

Definition outage : World :=
  {| properties := [villa; flat]; users := [alice];
     redis := Redis.mk warm [true; true; true] |}.

(** Stand-ins for the platform: every cached text parses to a truthy
    value, every value serializes, every date text is the epoch, the
    store keeps the order of the collection and rejects what it is not
    specified for. *)
Definition parse_any (text : string) : parsed := Truthy.
Definition stringify_any (v : value) : option string := Some "json".
Definition epoch (s : string) : Js.num := Js.Int 0.
Definition unsorted (field : string) (direction : Z) (l : list Property)
  : list Property := l.
Definition rejects (f : Filter) (field : string) (direction : Z)
    (skip limit : Js.num) (db : list Property)
  : outcome (list Property * Z) := Thrown (StoreError "rejected").

End Sample.

(** * The remaining handlers *)

(** ** Replies *)

(** An entry of [recommendationsReceived] of a user document: the
    listing, the identifier of the sender and the time of the
    recommendation (milliseconds). *)
Record Recommendation := {
  rec_propertyId : string;
  recommendedBy : string;
  recommendedAt : Z
}.

(** An element of the answer of [getRecommendations]: the listing as the
    store has it now ([None] for [null]), the sender as [populate] gives it
    (identifier and email, [None] when no user has the identifier) and
    the time. *)
Record RecommendationView := {
  v_property : option Property;
  v_recommendedBy : option (string * string);
  v_recommendedAt : Z
}.

(** The payload of a token: [{ id, email }]. *)
Record Claims := {
  claims_id : string;
  claims_email : string
}.

(** The bodies of the favourite check, the recommendation and the
    authentication handlers, beside those of the listing controllers. *)
Inductive Body :=
| Plain (v : value)
| IsFavorite (isFavorite : bool)                      (* { isFavorite } *)
| FoundUser (user : User) (inbox : list Recommendation)
                                    (* { user }, without the password *)
| Recommendations (items : list RecommendationView)
| Token (token : string)                                   (* { token } *)
| Failure (message : string) (error : exn).       (* { message, error } *)

Record Reply := {
  reply_status : Z;
  reply_body : Body
}.

(** [try { ... } catch (err) { ... }] around the body of a handler. *)
Definition handle {S} (m : M S Reply) (failed : exn -> Reply)
  : S -> Reply * S :=
  fun s =>
    match m s with
    | (Returned r, s') => (r, s')
    | (Thrown e, s') => (failed e, s')
    end.

Definition reply {S} (code : Z) (b : Body) : M S Reply :=
  ret {| reply_status := code; reply_body := b |}.

(** ** Favourites: the check *)

(** [GET /favorites/check/:propertyId] *)
Definition checkFavorite (user : option string) (propertyId_param : string)
  : World -> Reply * World :=
  handle
    (match user with
     | None => reply 401 (Plain (VMessage "User not authenticated"))
     | Some uid =>
         property <-
           gets (fun w => Store.findOne propertyId_param (properties w)) ;;
         match property with
         | None => reply 404 (Plain (VMessage "Property not found"))
         | Some p =>
             userDoc <- gets (fun w => Store.findById uid (users w)) ;;
             match userDoc with
             | None => reply 404 (Plain (VMessage "User not found"))
             | Some u =>
                 let isFavorite :=
                   Js.includes (favorites u) (propertyId p) in
                 reply 200 (IsFavorite isFavorite)
             end
         end
     end)
    (fun _ =>
       {| reply_status := 500;
          reply_body := Plain (VError "Failed to check favorite status") |}).

(** ** The whole user documents *)

(** The state of the recommendation and authentication handlers: the
    world of the listing controllers with, by the identifier of the user,
    the [password] and the [recommendationsReceived] of the user
    documents. A user without an entry in [received] has the empty array,
    the default of the schema. *)
Record Site := {
  world : World;
  passwords : gmap string string;
  received : gmap string (list Recommendation)
}.

Definition recommendationsReceived (s : Site) (uid : string)
  : list Recommendation :=
  default [] (received s !! uid).

(** A computation of the listing controllers, run on the world of the
    site. *)
Definition in_world {A} (m : M World A) : M Site A :=
  fun s =>
    let '(o, w) := m (world s) in
    (o, {| world := w; passwords := passwords s; received := received s |}).

Module Users.

(** [User.findOne({ email })] *)
Definition findOne (e : string) (us : list User) : option User :=
  List.find (fun u => String.eqb (email u) e) us.

(** [User.create({ email, password })]: both are required, the email and
    the identifier (given by the store) are unique; the new document has
    no favourite and no recommendation. *)
Definition create (oid e hashed : string) : M Site User :=
  fun s =>
    let us := users (world s) in
    if negb (Js.truthy e) then
      (Thrown (StoreError "Path `email` is required."), s)
    else if negb (Js.truthy hashed) then
      (Thrown (StoreError "Path `password` is required."), s)
    else if existsb (fun u => String.eqb (email u) e) us then
      (Thrown (StoreError "E11000 duplicate key error: email"), s)
    else if existsb (fun u => String.eqb (_id u) oid) us then
      (Thrown (StoreError "E11000 duplicate key error: _id"), s)
    else
      let u := {| _id := oid; email := e; favorites := [] |} in
      (Returned u,
       {| world :=
            {| properties := properties (world s);
               users := (us ++ [u])%list;
               redis := redis (world s) |};
          passwords := <[oid := hashed]> (passwords s);
          received := <[oid := []]> (received s) |}).

End Users.

(** ** Recommendations *)

Module Recommendation.

Module CACHE_KEYS.

Definition USER_RECOMMENDATIONS (userId : string) : string :=
  "user:" +:+ userId +:+ ":recommendations".

End CACHE_KEYS.

(** [GET /recommendations/search?email=...]; the parameter is [None] when
    the query has no [email] or one that is not a string. *)
Definition searchUser (email_param : option string) : Site -> Reply * Site :=
  handle
    (match when_truthy email_param (fun e => e) with
     | None => reply 400 (Plain (VMessage "Email is required"))
     | Some e =>
         user <- gets (fun s => Users.findOne e (users (world s))) ;;
         match user with
         | None => reply 404 (Plain (VMessage "User not found"))
         | Some u =>
             inbox <- gets (fun s => recommendationsReceived s (_id u)) ;;
             reply 200 (FoundUser u inbox)
         end
     end)
    (fun _ =>
       {| reply_status := 500;
          reply_body := Plain (VError "Failed to search user") |}).

(** [rec => rec.propertyId === property.propertyId &&
            rec.recommendedBy.toString() === user.id] *)
Definition same_recommendation (listing uid : string)
    (r : Recommendation) : bool :=
  String.eqb (rec_propertyId r) listing && String.eqb (recommendedBy r) uid.

(** The site with the array of recommendations of a user replaced. *)
Definition with_received (s : Site) (uid : string)
    (recs : list Recommendation) : Site :=
  {| world := world s; passwords := passwords s;
     received := <[uid := recs]> (received s) |}.

(** [POST /recommendations/:propertyId] with [recipientEmail] of the body
    ([None] when the body has none), at the time [now]. *)
Definition recommendProperty (user : option string)
    (recipientEmail : option string) (propertyId_param : string) (now : Z)
  : Site -> Reply * Site :=
  handle
    (match user with
     | None => reply 401 (Plain (VMessage "User not authenticated"))
     | Some uid =>
         match when_truthy recipientEmail (fun e => e) with
         | None => reply 400 (Plain (VMessage "Recipient email is required"))
         | Some e =>
             property <-
               gets (fun s =>
                 Store.findOne propertyId_param (properties (world s))) ;;
             match property with
             | None => reply 404 (Plain (VMessage "Property not found"))
             | Some p =>
                 recipient <-
                   gets (fun s => Users.findOne e (users (world s))) ;;
                 match recipient with
                 | None => reply 404 (Plain (VMessage "Recipient not found"))
                 | Some r =>
                     inbox <-
                       gets (fun s => recommendationsReceived s (_id r)) ;;
                     let existingRecommendation :=
                       List.find (same_recommendation (propertyId p) uid)
                         inbox in
                     match existingRecommendation with
                     | Some _ =>
                         reply 400
                           (Plain (VMessage
                              "Property already recommended to this user"))
                     | None =>
                         let pushed :=
                           (inbox ++
                            [{| rec_propertyId := propertyId p;
                                recommendedBy := uid;
                                recommendedAt := now |}])%list in
                         modify (fun s => with_received s (_id r) pushed) ;;
                         in_world
                           (cache (CacheService.del
                              (CACHE_KEYS.USER_RECOMMENDATIONS (_id r)))) ;;
                         reply 200
                           (Plain (VMessage
                              "Property recommended successfully"))
                     end
                 end
             end
         end
     end)
    (fun _ =>
       {| reply_status := 500;
          reply_body := Plain (VError "Failed to recommend property") |}).

(** A received recommendation as [getRecommendations] answers it: the
    sender populated with the email, the listing looked up. *)
Definition view (w : World) (r : Recommendation) : RecommendationView :=
  {| v_property := Store.findOne (rec_propertyId r) (properties w);
     v_recommendedBy :=
       (fun u => (_id u, email u)) <$>
         Store.findById (recommendedBy r) (users w);
     v_recommendedAt := recommendedAt r |}.

Section Json.

Variable JSON_parse : string -> parsed.
Variable JSON_stringify : list RecommendationView -> option string.

(** [CacheService.set(key, value)] on the array of recommendations. *)
Definition cache_set (key : string) (v : list RecommendationView) (ttl : Z)
  : M Redis.t unit :=
  try_catch
    (match JSON_stringify v with
     | Some stringValue => Client.set key stringValue ttl
     | None => throw TypeError
     end)
    (fun _ => ret tt).

(** [GET /recommendations] *)
Definition getRecommendations (user : option string)
  : Site -> Reply * Site :=
  handle
    (match user with
     | None => reply 401 (Plain (VMessage "User not authenticated"))
     | Some uid =>
         let cacheKey := CACHE_KEYS.USER_RECOMMENDATIONS uid in
         cachedRecommendations <-
           in_world (cache (CacheService.get JSON_parse cacheKey)) ;;
         match CacheService.hit JSON_parse cachedRecommendations with
         | Some v => reply 200 (Plain v)
         | None =>
             userDoc <-
               gets (fun s => Store.findById uid (users (world s))) ;;
             match userDoc with
             | None => reply 404 (Plain (VMessage "User not found"))
             | Some u =>
                 recommendations <-
                   gets (fun s =>
                     map (view (world s))
                       (recommendationsReceived s (_id u))) ;;
                 in_world
                   (cache (cache_set cacheKey recommendations
                             CacheService.CACHE_TTL)) ;;
                 reply 200 (Recommendations recommendations)
             end
         end
     end)
    (fun _ =>
       {| reply_status := 500;
          reply_body := Plain (VError "Failed to fetch recommendations") |}).

End Json.

End Recommendation.

(** ** Authentication *)

Module Auth.

(** [s.replace(pattern, '')] with a string pattern: the first occurrence
    of the pattern is removed. *)
Fixpoint replace_with_empty (pattern s : string) : string :=
  if String.prefix pattern s then
    String.substring (String.length pattern)
      (String.length s - String.length pattern) s
  else
    match s with
    | EmptyString => EmptyString
    | String c r => String c (replace_with_empty pattern r)
    end.

(** [{ id: user._id, email: user.email }] *)
Definition claims_of (u : User) : Claims :=
  {| claims_id := _id u; claims_email := email u |}.

Section Platform.

(** [bcrypt.hash(password, 10)] with the salt it draws,
    [bcrypt.compare(password, hash)], and [jwt.sign] and [jwt.verify] with
    the secret of the application, at a time (milliseconds). *)
Variable bcrypt_hash : string -> string -> string.
Variable bcrypt_compare : string -> string -> bool.
Variable jwt_sign : Claims -> Z -> string.
Variable jwt_verify : string -> Z -> option Claims.

(** [POST /auth/register] with a body whose [email] and [password] are
    strings; [salt] is drawn by [bcrypt], [oid] is the identifier the store
    gives. *)
Definition registerUser (email password salt oid : string)
  : Site -> Reply * Site :=
  handle
    (existing <- gets (fun s => Users.findOne email (users (world s))) ;;
     match existing with
     | Some _ => reply 400 (Plain (VMessage "User already exists"))
     | None =>
         let hashedPassword := bcrypt_hash password salt in
         Users.create oid email hashedPassword ;;
         reply 201 (Plain (VMessage "User registered successfully"))
     end)
    (fun err =>
       {| reply_status := 500;
          reply_body := Failure "Registration failed" err |}).

(** [POST /auth/login] with a body whose [email] and [password] are
    strings, at the time [now]. *)
Definition loginUser (email password : string) (now : Z)
  : Site -> Reply * Site :=
  handle
    (user <- gets (fun s => Users.findOne email (users (world s))) ;;
     match user with
     | None => reply 400 (Plain (VMessage "Invalid credentials"))
     | Some u =>
         stored <- gets (fun s => passwords s !! _id u) ;;
         match stored with
         | None => throw (StoreError "Illegal arguments: string, undefined")
         | Some hash =>
             let isMatch := bcrypt_compare password hash in
             if isMatch then
               let token := jwt_sign (claims_of u) now in
               reply 200 (Token token)
             else reply 400 (Plain (VMessage "Invalid credentials"))
         end
     end)
    (fun err =>
       {| reply_status := 500; reply_body := Failure "Login failed" err |}).

(** [authMiddleware] on the [Authorization] header of the request, at the
    time [now]: the answer that ends the request, or the [req.user] with
    which the next handler runs. *)
Definition authMiddleware (authorization : option string) (now : Z)
  : Reply + Claims :=
  let token := replace_with_empty "Bearer " <$> authorization in
  match when_truthy token (fun t => t) with
  | None =>
      inl {| reply_status := 401;
             reply_body := Plain (VMessage "No token provided") |}
  | Some t =>
      match jwt_verify t now with
      | Some decoded => inr decoded
      | None =>
          inl {| reply_status := 401;
                 reply_body := Plain (VMessage "Invalid token") |}
      end
  end.

End Platform.

End Auth.

(** ** Vocabulary of the further properties *)

(** The server after the three invalidations of a mutation of listing
    [id]. *)
Definition invalidate_listing (id : string) (r : Redis.t) : Redis.t :=
  (CacheService.delByPattern "search:*"
     (CacheService.delByPattern "properties:*"
        (CacheService.del (CACHE_KEYS.PROPERTY id) r).2).2).2.

(** The server after the two invalidations of a creation. *)
Definition invalidate_collection (r : Redis.t) : Redis.t :=
  (CacheService.delByPattern "search:*"
     (CacheService.delByPattern "properties:*" r).2).2.

(** The identifiers of the listings are pairwise distinct. *)
Definition unique_ids (db : list Property) : Prop :=
  NoDup (map propertyId db).

(** The names that [searchProperties] reads from the query: the
    constraints, then the page, the limit and the sort. *)
Definition constraint_names : list string :=
  ["type"; "minPrice"; "maxPrice"; "state"; "city"; "minArea"; "maxArea";
   "bedrooms"; "bathrooms"; "amenities"; "furnished"; "availableFrom";
   "listedBy"; "tags"; "minRating"; "isVerified"; "listingType"].

Definition paging_names : list string :=
  ["page"; "limit"; "sortBy"; "sortOrder"].

Module Demo.

(** The body of the sample cottage with an owner and an identifier of the
    sender's choosing. *)
Definition claimed (id owner : string) : PropertyData :=
  with_createdBy
    {| d_propertyId := Some id; d_title := d_title Sample.cottage;
       d_type := d_type Sample.cottage; d_price := d_price Sample.cottage;
       d_state := d_state Sample.cottage; d_city := d_city Sample.cottage;
       d_areaSqFt := d_areaSqFt Sample.cottage;
       d_bedrooms := d_bedrooms Sample.cottage;
       d_bathrooms := d_bathrooms Sample.cottage;
       d_amenities := d_amenities Sample.cottage;
       d_furnished := d_furnished Sample.cottage;
       d_availableFrom := d_availableFrom Sample.cottage;
       d_listedBy := d_listedBy Sample.cottage;
       d_tags := d_tags Sample.cottage;
       d_colorTheme := d_colorTheme Sample.cottage;
       d_rating := d_rating Sample.cottage;
       d_isVerified := d_isVerified Sample.cottage;
       d_listingType := d_listingType Sample.cottage;
       d_createdBy := None |} (Some owner).

(** A body that names a new owner and nothing else. *)
Definition hand_over (owner : string) : PropertyData :=
  with_createdBy (Sample.new_price 100) (Some owner).

(** A world whose cache also holds the filter options and the favourites
    of a user. *)
Definition stocked : World :=
  {| properties := properties Sample.served; users := users Sample.served;
     redis :=
       Redis.mk
         (<[ "filters:all" := ("types: Villa, Apartment", 3600) ]>
            (<[ "user:u1:favorites" := ("flat at 200", 3600) ]> Sample.warm))
         [] |}.

(** The sample world with a Redis server that rejects every command of a
    request. *)
Definition down : World :=
  {| properties := properties Sample.served; users := users Sample.served;
     redis := Redis.mk Sample.warm [true; true] |}.

(** A serializer that writes the title of a listing, and a parser that
    takes any text. *)
Definition titles (v : value) : option string :=
  match v with
  | VDoc p => Some (title p)
  | _ => Some "json"
  end.

(** A second user, and the site of the sample world with the two users,
    no recommendation yet. *)
Definition bob : User :=
  {| _id := "u2"; email := "bob@example.org"; favorites := [] |}.

Definition site : Site :=
  {| world :=
       {| properties := properties Sample.served;
          users := [Sample.alice; bob];
          redis := Redis.mk Sample.warm [] |};
     passwords := ∅;
     received := ∅ |}.

(** A serializer of recommendations that writes how many there are. *)
Definition count_views (items : list RecommendationView) : option string :=
  Some (pretty (List.length items)).

(** Stand-ins for [bcrypt] and [jsonwebtoken]: the hash is the salt, a
    colon and the password; the token is the identifier, a bar and the
    email. *)
Definition hash (password salt : string) : string :=
  salt +:+ ":" +:+ password.

Definition compare (password hashed : string) : bool :=
  match Js.split ":" hashed with
  | [_; x] => String.eqb x password
  | _ => false
  end.

Definition sign (c : Claims) (now : Z) : string :=
  claims_id c +:+ "|" +:+ claims_email c.

Definition verify (token : string) (now : Z) : option Claims :=
  match Js.split "|" token with
  | [i; e] => Some {| claims_id := i; claims_email := e |}
  | _ => None
  end.

End Demo.

(** The text cached under a key is a truthy JSON value and the next Redis
    command is served. *)
Definition cached_as (JSON_parse : string -> parsed) (key text : string)
    (w : World) : Prop :=
  (exists expiry, Redis.kv (redis w) !! key = Some (text, expiry)) /\
  Js.truthy text = true /\ JSON_parse text = Truthy /\
  next_fault (redis w) = false.

(** The world after one Redis command that changed nothing. *)
Definition after_read (w : World) : World :=
  {| properties := properties w; users := users w;
     redis := after (Redis.kv (redis w)) (redis w) |}.

(** No user has the same listing twice among the favourites. *)
Definition favorites_distinct (us : list User) : Prop :=
  Forall (fun u => NoDup (favorites u)) us.

(** A character that stands for itself in a glob pattern. *)
Definition plain (c : ascii) : bool :=
  negb (Ascii.eqb c "*" || Ascii.eqb c "?" || Ascii.eqb c "\"
        || Ascii.eqb c "[").

Fixpoint all_plain (s : string) : bool :=
  match s with
  | EmptyString => true
  | String c r => plain c && all_plain r
  end.

(** What the duplicate check of [recommendProperty] compares: the listing
    and the sender. *)
Definition rec_key (r : Recommendation) : string * string :=
  (rec_propertyId r, recommendedBy r).

(** No user has received the same listing twice from the same sender. *)
Definition recommendations_distinct (s : Site) : Prop :=
  forall uid, NoDup (map rec_key (recommendationsReceived s uid)).

(** The site with its Redis server replaced. *)
Definition with_redis (s : Site) (r : Redis.t) : Site :=
  {| world :=
       {| properties := properties (world s); users := users (world s);
          redis := r |};
     passwords := passwords s; received := received s |}.

(** The site with its world replaced. *)
Definition with_world (s : Site) (w : World) : Site :=
  {| world := w; passwords := passwords s; received := received s |}.

(** Does the pattern occur in the string? *)
Fixpoint occurs (pattern s : string) : bool :=
  String.prefix pattern s ||
  match s with
  | EmptyString => false
  | String _ r => occurs pattern r
  end.

(** The emails, and the identifiers, of the users are pairwise
    distinct. *)
Definition unique_users (us : list User) : Prop :=
  NoDup (map email us) /\ NoDup (map _id us).

(** ** The property order of the query object *)

Module JsObject.

(** The number that a text of decimal digits writes. *)
Fixpoint decimal (acc : N) (s : string) : option N :=
  match s with
  | EmptyString => Some acc
  | String c r =>
      let n := N_of_ascii c in
      if ((48 <=? n) && (n <=? 57))%N
      then decimal (10 * acc + (n - 48))%N r
      else None
  end.

(** An array index: a name that is the canonical decimal text of an
    integer below [2^32 - 1]. *)
Definition array_index (name : string) : option N :=
  match name with
  | EmptyString => None
  | _ =>
      match decimal 0 name with
      | Some n =>
          if bool_decide (pretty n = name) && (n <? 4294967295)%N
          then Some n else None
      | None => None
      end
  end.

Definition is_index (kv : string * string) : bool :=
  match array_index kv.1 with Some _ => true | None => false end.

Definition index (kv : string * string) : N :=
  default 0%N (array_index kv.1).

(** A property put at its place among the properties in ascending order
    of their index. *)
Fixpoint place (kv : string * string) (sorted : list (string * string))
  : list (string * string) :=
  match sorted with
  | [] => [kv]
  | x :: rest =>
      if (index kv <? index x)%N then kv :: sorted else x :: place kv rest
  end.

Definition ascending (l : list (string * string)) : list (string * string) :=
  foldr place [] l.

(** The properties named by something else than an array index. *)
Definition named (ps : list (string * string)) : list (string * string) :=
  List.filter (fun kv => negb (is_index kv)) ps.

(** The properties named by an array index. *)
Definition indexed (ps : list (string * string)) : list (string * string) :=
  List.filter is_index ps.

(** The properties of an object on which the properties [ps] (distinct
    names) were created in that order, as [JSON.stringify] and
    [Object.keys] list them: the array indices in ascending order, then
    the other names in the order of their creation. This is the query
    object of a request whose parameters [ps] the parser of the query
    string turns, one by one and in the order of the request, into
    properties holding a string. *)
Definition own_entries (ps : list (string * string)) : Query :=
  (ascending (indexed ps) ++ named ps)%list.

End JsObject.

(** *** Sample data with identifiers as the store gives them *)

Module Hex.

(** Two user identifiers, as texts of twenty-four hexadecimal digits. *)
Definition owner : string := "65f1a2b3c4d5e6f708192a3b".
Definition heir : string := "65f1a2b3c4d5e6f708192a3c".

(** A listing created by [owner]. *)
Definition lodge : Property :=
  {| propertyId := "PROP3001"; title := "Old lodge"; type := "Cottage";
     price := 300; state := "Goa"; city := "Ponda"; areaSqFt := 1200;
     bedrooms := 3; bathrooms := 2; amenities := ["garden"];
     furnished := "Furnished"; availableFrom := 1769904000000;
     listedBy := "Owner"; tags := []; colorTheme := "#22a6b3";
     rating := 4 # 1; isVerified := true; listingType := "rent";
     createdBy := Some owner |}.

(** The body of a new listing with the identifier of the lodge. *)
Definition rebuilt : PropertyData :=
  {| d_propertyId := Some "PROP3001"; d_title := Some "New lodge";
     d_type := Some "Cottage"; d_price := Some 450; d_state := Some "Goa";
     d_city := Some "Ponda"; d_areaSqFt := Some 1200; d_bedrooms := Some 3;
     d_bathrooms := Some 2; d_amenities := Some ["garden"];
     d_furnished := Some "Furnished";
     d_availableFrom := Some (DateText "01/02/26");
     d_listedBy := Some "Owner"; d_tags := None;
     d_colorTheme := Some "#22a6b3"; d_rating := Some (4 # 1);
     d_isVerified := Some true; d_listingType := Some "rent";
     d_createdBy := None |}.

(** The document made of that body for [owner]. *)
Definition rebuilt_doc : Property :=
  {| propertyId := "PROP3001"; title := "New lodge"; type := "Cottage";
     price := 450; state := "Goa"; city := "Ponda"; areaSqFt := 1200;
     bedrooms := 3; bathrooms := 2; amenities := ["garden"];
     furnished := "Furnished"; availableFrom := 1769904000000;
     listedBy := "Owner"; tags := []; colorTheme := "#22a6b3";
     rating := 4 # 1; isVerified := true; listingType := "rent";
     createdBy := Some owner |}.

(** The time value of the one date text of the samples. *)
Definition clock (s : string) : Js.num :=
  if String.eqb s "2026-02-01" then Js.Int 1769904000000 else Js.NaN.

(** The text cached for the lodge: a JSON object. *)
Definition cached_lodge : string :=
  Js.stringify_object [("propertyId", "PROP3001"); ("title", "Old lodge")].

(** A world in which the lodge is stored and cached, nothing else is, and
    the Redis server rejects its next command and serves the later
    ones. *)
Definition flaky : World :=
  {| properties := [lodge]; users := [];
     redis :=
       Redis.mk {[ "property:PROP3001" := (cached_lodge, 3600) ]} [true] |}.

(** The same store with an empty cache and a server that serves every
    command. *)
Definition calm : World :=
  {| properties := [lodge]; users := []; redis := Redis.mk ∅ [] |}.

(** A store without a listing, with an empty cache and a server that
    serves every command. *)
Definition vacant : World :=
  {| properties := []; users := []; redis := Redis.mk ∅ [] |}.

End Hex.

(** * Properties *)

(** ** The Redis client and the cache service *)

Lemma lookup_foldr_delete {A} (m : gmap string A) (ks : list string) (k : string) :
  foldr delete m ks !! k = if decide (k ∈ ks) then None else m !! k.
Proof.
  induction ks as [|k' ks IH].
  - destruct (decide (k ∈ [])) as [H|H]; [by apply elem_of_nil in H | done].
  - cbn [foldr]. destruct (decide (k' = k)) as [->|Hne].
    + rewrite lookup_delete_eq. destruct (decide (k ∈ k :: ks)) as [|H]; [done |].
      exfalso. apply H. by left.
    + rewrite lookup_delete_ne by done. rewrite IH.
      destruct (decide (k ∈ ks)) as [Hin|Hnin];
        destruct (decide (k ∈ k' :: ks)) as [Hin'|Hnin']; try done.
      * exfalso. apply Hnin'. by right.
      * apply elem_of_cons in Hin' as [->|?]; done.
Qed.

Lemma elem_of_matching pattern m k :
  k ∈ matching pattern m <-> Redis.glob pattern k = true /\ is_Some (m !! k).
Proof.
  unfold matching. rewrite list_elem_of_filter, list_elem_of_fmap.
  split.
  - intros [Hg [[k' e] [-> Hin]]]. split; [done |].
    apply elem_of_map_to_list in Hin. by exists e.
  - intros [Hg [e He]]. split; [done |].
    exists (k, e). split; [done |]. by apply elem_of_map_to_list.
Qed.

Lemma lookup_swept pattern m k :
  swept pattern m !! k = if Redis.glob pattern k then None else m !! k.
Proof.
  unfold swept. rewrite lookup_foldr_delete.
  destruct (decide (k ∈ matching pattern m)) as [Hin|Hnin].
  - apply elem_of_matching in Hin as [-> _]. done.
  - destruct (Redis.glob pattern k) eqn:Hg; [|done].
    destruct (m !! k) as [e|] eqn:He; [|done].
    exfalso. apply Hnin, elem_of_matching. eauto.
Qed.

Lemma command_eq {A} (run : gmap string Redis.entry -> outcome A * gmap string Redis.entry) r :
  Client.command run r =
  if next_fault r then (Thrown RedisError, after (Redis.kv r) r)
  else ((run (Redis.kv r)).1, after (run (Redis.kv r)).2 r).
Proof.
  unfold Client.command, next_fault, after.
  destruct (Redis.faults r) as [|[] fs]; simpl; try done;
    by destruct (run (Redis.kv r)).
Qed.

Lemma healthy_next r : Redis.healthy r = true -> next_fault r = false.
Proof.
  unfold Redis.healthy, next_fault.
  destruct (Redis.faults r) as [|[] fs]; simpl; done.
Qed.

Lemma healthy_after m r : Redis.healthy r = true -> Redis.healthy (after m r) = true.
Proof.
  unfold Redis.healthy, after. simpl.
  destruct (Redis.faults r) as [|[] fs]; simpl; done.
Qed.

Lemma after_after m m' r : after m (after m' r) = Redis.mk m (tail (tail (Redis.faults r))).
Proof. done. Qed.

(** [CacheService.del] in closed form. *)
Lemma del_eq key r :
  CacheService.del key r =
  (Returned tt,
   after (if next_fault r then Redis.kv r else delete key (Redis.kv r)) r).
Proof.
  unfold CacheService.del, try_catch, Client.del. rewrite command_eq.
  destruct (next_fault r); done.
Qed.

(** [CacheService.delByPattern] in closed form: the key space is swept
    when both commands are served (or the first is and nothing matches),
    and left as it is otherwise. *)
Lemma delByPattern_eq pattern r :
  exists m fs,
    CacheService.delByPattern pattern r = (Returned tt, Redis.mk m fs) /\
    (m = Redis.kv r \/ m = swept pattern (Redis.kv r)) /\
    (Redis.healthy r = true ->
       m = swept pattern (Redis.kv r) /\ forallb negb fs = true).
Proof.
  unfold CacheService.delByPattern, try_catch, bind, Client.keys, Client.del.
  rewrite command_eq. fold (matching pattern (Redis.kv r)).
  destruct (next_fault r) eqn:Hf; simpl.
  - eexists _, _. split; [done |]. split; [by left |].
    intros H%healthy_next. congruence.
  - destruct (matching pattern (Redis.kv r)) as [|k ks] eqn:Hm; simpl.
    + eexists _, _. split; [done |]. split; [by left |].
      intros H. split; [by unfold swept; rewrite Hm |].
      by apply (healthy_after (Redis.kv r)) in H.
    + rewrite command_eq. simpl.
      destruct (next_fault (after (Redis.kv r) r)) eqn:Hf'; simpl.
      * eexists _, _. split; [done |]. split; [by left |].
        intros H%(healthy_after (Redis.kv r))%healthy_next. congruence.
      * eexists _, _. split; [done |]. split.
        { right. unfold swept. by rewrite Hm. }
        intros H. split; [by unfold swept; rewrite Hm |].
        apply (healthy_after (Redis.kv r)) in H.
        by apply (healthy_after (Redis.kv r)) in H.
Qed.

(** *** The patterns of the listing controllers *)

Lemma match_star_only s : Redis.match_tokens [Redis.Star] s = true.
Proof.
  change ((fix star (s : string) : bool :=
             Redis.match_tokens [] s ||
             match s with
             | EmptyString => false
             | String _ r => star r
             end) s = true).
  induction s as [|c r IH]; [done | exact IH].
Qed.

Lemma glob_search_key query :
  Redis.glob "search:*" (CACHE_KEYS.SEARCH query) = true.
Proof. apply (match_star_only query). Qed.

Lemma glob_collection_key :
  Redis.glob "properties:*" CACHE_KEYS.PROPERTIES = true.
Proof. reflexivity. Qed.

Lemma glob_collection_single id :
  Redis.glob "properties:*" (CACHE_KEYS.PROPERTY id) = false.
Proof. reflexivity. Qed.

Lemma glob_search_single id :
  Redis.glob "search:*" (CACHE_KEYS.PROPERTY id) = false.
Proof. reflexivity. Qed.

(** A read of an absent key yields nothing, whatever the fate of the
    command. *)
Lemma get_absent JSON_parse key r :
  Redis.kv r !! key = None ->
  (CacheService.get JSON_parse key r).1 = Returned None.
Proof.
  intros Habs. unfold CacheService.get, try_catch, bind, Client.get.
  rewrite command_eq. destruct (next_fault r); simpl; [done |].
  by rewrite Habs.
Qed.

(** The three invalidations of a listing mutation, run on a server that
    serves every command. *)
Lemma invalidate_served id code v w :
  Redis.healthy (redis w) = true ->
  exists w',
    (cache (CacheService.del (CACHE_KEYS.PROPERTY id)) ;;
     cache (CacheService.delByPattern "properties:*") ;;
     cache (CacheService.delByPattern "search:*") ;;
     respond code v) w = (Returned {| status := code; body := v |}, w') /\
    properties w' = properties w /\ users w' = users w /\
    invalidated id (redis w').
Proof.
  intros Hh. unfold bind, cache at 1. rewrite del_eq.
  rewrite (healthy_next _ Hh). cbn [redis properties users].
  set (r1 := after (delete (CACHE_KEYS.PROPERTY id) (Redis.kv (redis w))) (redis w)).
  assert (Hh1 : Redis.healthy r1 = true) by by apply healthy_after.
  unfold cache at 1. cbn [redis properties users].
  destruct (delByPattern_eq "properties:*" r1) as (m2 & fs2 & -> & _ & H2).
  destruct (H2 Hh1) as [-> Hh2]. clear H2.
  unfold cache at 1. cbn [redis properties users].
  destruct (delByPattern_eq "search:*"
              (Redis.mk (swept "properties:*" (Redis.kv r1)) fs2))
    as (m3 & fs3 & -> & _ & H3).
  destruct (H3 Hh2) as [-> Hh3]. clear H3.
  eexists. split; [reflexivity |]. unfold invalidated.
  cbn [redis properties users Redis.kv].
  repeat split.
  - rewrite !lookup_swept, glob_search_single, glob_collection_single.
    unfold r1, after. cbn [Redis.kv]. apply lookup_delete_eq.
  - rewrite !lookup_swept. rewrite glob_collection_key.
    by destruct (Redis.glob "search:*" CACHE_KEYS.PROPERTIES).
  - intros query. rewrite lookup_swept. by rewrite glob_search_key.
Qed.

(** ** Invalidation on listing mutations *)

Lemma invalidated_nothing_stale JSON_parse id r :
  invalidated id r -> nothing_stale JSON_parse id r.
Proof.
  intros (H1 & H2 & H3) key Hkey.
  assert (Redis.kv r !! key = None) as Habs.
  { destruct Hkey as [->|[->|[query ->]]]; auto. }
  split; [done | by apply get_absent].
Qed.

Lemma updateProperty_served Date_parse user id body w resp w' :
  Redis.healthy (redis w) = true ->
  updateProperty Date_parse user id body w = (resp, w') ->
  status resp = 200 ->
  invalidated id (redis w').
Proof.
  intros Hh Hrun Hst. unfold updateProperty, handler in Hrun.
  destruct user as [uid|]; [|injection Hrun as <- <-; done].
  unfold bind at 1, gets at 1 in Hrun.
  destruct (Store.findOne id (properties w)) as [p|];
    [|injection Hrun as <- <-; done].
  destruct (negb (bool_decide (createdBy p = Some uid)));
    [injection Hrun as <- <-; done|].
  unfold bind at 1, listings at 1 in Hrun.
  destruct (Store.findOneAndUpdate Date_parse id body (properties w))
    as [[updated|e] db]; [|injection Hrun as <- <-; done].
  match type of Hrun with
  | context [ _ ?w1 ] =>
      match type of w1 with
      | World =>
          destruct (invalidate_served id 200 (doc_or_null updated) w1 Hh)
            as (w2 & Heq & _ & _ & Hinv)
      end
  end.
  rewrite Heq in Hrun. by injection Hrun as <- <-.
Qed.

Lemma deleteProperty_served user id w resp w' :
  Redis.healthy (redis w) = true ->
  deleteProperty user id w = (resp, w') ->
  status resp = 200 ->
  invalidated id (redis w').
Proof.
  intros Hh Hrun Hst. unfold deleteProperty, handler in Hrun.
  destruct user as [uid|]; [|injection Hrun as <- <-; done].
  unfold bind at 1, gets at 1 in Hrun.
  destruct (Store.findOne id (properties w)) as [p|];
    [|injection Hrun as <- <-; done].
  destruct (negb (bool_decide (createdBy p = Some uid)));
    [injection Hrun as <- <-; done|].
  unfold bind at 1, listings at 1 in Hrun.
  match type of Hrun with
  | context [ _ ?w1 ] =>
      match type of w1 with
      | World =>
          destruct (invalidate_served id 200 (VMessage "Property deleted") w1 Hh)
            as (w2 & Heq & _ & _ & Hinv)
      end
  end.
  rewrite Heq in Hrun. by injection Hrun as <- <-.
Qed.

(** C1, as stated, fails when the cache transport is down: the update
    completes with status 200 while the three deletions are rejected, and
    the entry cached before the update is still served. *)
Lemma invalidation_outage_counterexample :
  let '(resp, w') :=
    updateProperty Sample.epoch (Some "u1") "PROP1001" (Sample.new_price 500)
      Sample.outage in
  status resp = 200 /\
  price <$> Store.findOne "PROP1001" (properties w') = Some 500 /\
  (CacheService.get Sample.parse_any (CACHE_KEYS.PROPERTY "PROP1001")
     (redis w')).1 = Returned (Some (VParsed "villa at 100")) /\
  ~ invalidated "PROP1001" (redis w').
Proof.
  vm_compute. repeat split. intros [H _]. vm_compute in H. discriminate.
Qed.

(** C1 (amended): when the Redis server serves the commands of the
    invalidation, a completed update or delete of a listing (status 200)
    leaves nothing cached under the listing's key, the collection key and
    any search key, and a read of any of those keys yields nothing, so no
    pre-mutation data can be returned. *)
Theorem invalidation_completeness
    (Date_parse : string -> Js.num) (JSON_parse : string -> parsed)
    (user : option string) (id : string) (body : PropertyData) (w : World) :
  Redis.healthy (redis w) = true ->
  (forall resp w',
     updateProperty Date_parse user id body w = (resp, w') ->
     status resp = 200 -> nothing_stale JSON_parse id (redis w')) /\
  (forall resp w',
     deleteProperty user id w = (resp, w') ->
     status resp = 200 -> nothing_stale JSON_parse id (redis w')).
Proof.
  intros Hh. split; intros resp w' Hrun Hst;
    apply invalidated_nothing_stale.
  - by eapply updateProperty_served.
  - by eapply deleteProperty_served.
Qed.

Lemma invalidation_completeness_witness :
  Redis.healthy (redis Sample.served) = true /\
  nothing_stale Sample.parse_any "PROP1001"
    (redis (updateProperty Sample.epoch (Some "u1") "PROP1001"
              (Sample.new_price 500) Sample.served).2) /\
  nothing_stale Sample.parse_any "PROP1001"
    (redis (deleteProperty (Some "u1") "PROP1001" Sample.served).2).
Proof.
  split; [reflexivity |].
  pose proof (invalidation_completeness Sample.epoch Sample.parse_any
                (Some "u1") "PROP1001" (Sample.new_price 500) Sample.served
                eq_refl) as [Hu Hd].
  split.
  - eapply Hu; [apply surjective_pairing | reflexivity].
  - eapply Hd; [apply surjective_pairing | reflexivity].
Defined.

(** ** The collection-wide pattern and the single-listing key *)

(** C9, as stated, fails: the collection-wide pattern does not match the
    key of a single listing, and a pattern delete of the collection family
    leaves the cached listing where it is. *)
Lemma collection_pattern_counterexample :
  Redis.glob "properties:*" (CACHE_KEYS.PROPERTY "PROP1001") = false /\
  Redis.kv (CacheService.delByPattern "properties:*"
              (redis Sample.served)).2 !! CACHE_KEYS.PROPERTY "PROP1001"
  = Some ("villa at 100", 3600).
Proof. split; reflexivity. Qed.

Lemma delByPattern_keeps pattern key r :
  Redis.glob pattern key = false ->
  Redis.kv (CacheService.delByPattern pattern r).2 !! key = Redis.kv r !! key.
Proof.
  intros Hg. destruct (delByPattern_eq pattern r) as (m & fs & -> & [->| ->] & _);
    cbn [snd Redis.kv]; [done |].
  by rewrite lookup_swept, Hg.
Qed.

(** C9 (amended): for every listing identifier, the single-listing key is
    matched neither by the collection-wide pattern nor by the search
    pattern, so a pattern delete of either family leaves a cached listing
    in place; the entry goes with the delete of its exact key, when that
    command is served. *)
Theorem single_listing_key_outside_patterns (id : string) (r : Redis.t) :
  Redis.glob "properties:*" (CACHE_KEYS.PROPERTY id) = false /\
  Redis.glob "search:*" (CACHE_KEYS.PROPERTY id) = false /\
  Redis.kv (CacheService.delByPattern "properties:*" r).2
    !! CACHE_KEYS.PROPERTY id = Redis.kv r !! CACHE_KEYS.PROPERTY id /\
  Redis.kv (CacheService.delByPattern "search:*" r).2
    !! CACHE_KEYS.PROPERTY id = Redis.kv r !! CACHE_KEYS.PROPERTY id /\
  Redis.kv (CacheService.del (CACHE_KEYS.PROPERTY id) r).2
    !! CACHE_KEYS.PROPERTY id =
  (if next_fault r then Redis.kv r !! CACHE_KEYS.PROPERTY id else None).
Proof.
  split; [apply glob_collection_single |].
  split; [apply glob_search_single |].
  split; [apply delByPattern_keeps, glob_collection_single |].
  split; [apply delByPattern_keeps, glob_search_single |].
  rewrite del_eq. cbn [snd after Redis.kv].
  destruct (next_fault r); [done | apply lookup_delete_eq].
Qed.

(** ** The cache service never throws *)

(** C4: whatever the key, the value, the expiry, the pattern and the state
    of the server, the four operations of the cache service return; [get]
    returns nothing when the Redis command is rejected or the stored text
    does not parse, and [set], [del] and [delByPattern] leave the key
    space as it is when serialization or a Redis command fails. *)
Theorem cache_service_never_throws
    (JSON_parse : string -> parsed) (JSON_stringify : value -> option string)
    (key : string) (v : value) (ttl : Z) (pattern : string) (r : Redis.t) :
  (exists res r',
     CacheService.get JSON_parse key r = (Returned res, r') /\
     Redis.kv r' = Redis.kv r /\
     (forall e, (Client.get key r).1 = Thrown e -> res = None) /\
     (forall text expiry,
        Redis.kv r !! key = Some (text, expiry) ->
        JSON_parse text = Malformed -> res = None)) /\
  (exists r',
     CacheService.set JSON_stringify key v ttl r = (Returned tt, r') /\
     (JSON_stringify v = None -> Redis.kv r' = Redis.kv r) /\
     (forall text e,
        JSON_stringify v = Some text ->
        (Client.set key text ttl r).1 = Thrown e ->
        Redis.kv r' = Redis.kv r)) /\
  (exists r',
     CacheService.del key r = (Returned tt, r') /\
     (forall e, (Client.del [key] r).1 = Thrown e ->
        Redis.kv r' = Redis.kv r)) /\
  (exists r',
     CacheService.delByPattern pattern r = (Returned tt, r') /\
     (forall e, (Client.keys pattern r).1 = Thrown e ->
        Redis.kv r' = Redis.kv r) /\
     (forall keys r1 e,
        Client.keys pattern r = (Returned keys, r1) ->
        (Client.del keys r1).1 = Thrown e ->
        Redis.kv r' = Redis.kv r)).
Proof.
  repeat apply conj.
  - unfold CacheService.get, try_catch, bind, Client.get.
    rewrite command_eq.
    destruct (next_fault r); cbn [fst snd].
    { eexists _, _. repeat split; try done. }
    destruct (Redis.kv r !! key) as [[text expiry]|] eqn:Hk; cbn [fmap option_fmap option_map fst].
    + destruct (Js.truthy text); [destruct (JSON_parse text) eqn:Hp |];
        cbn; eexists _, _; repeat split; try done;
        intros ? ? [= <- <-]; congruence.
    + cbn. eexists _, _. repeat split; done.
  - unfold CacheService.set, try_catch, Client.set.
    destruct (JSON_stringify v) as [text|]; [|by eexists; repeat split].
    rewrite command_eq.
    destruct (next_fault r) eqn:Hf; cbn [fst snd].
    { eexists. repeat split; done. }
    destruct (ttl <=? 0) eqn:Httl; cbn; eexists; repeat split; try done.
    intros ? ? [= <-]. rewrite command_eq, Hf. cbn. done.
  - rewrite del_eq. eexists. split; [done |].
    unfold Client.del. rewrite command_eq.
    destruct (next_fault r); cbn; done.
  - destruct (delByPattern_eq pattern r) as (m & fs & Heq & Hm & _).
    rewrite Heq. eexists. split; [done |]. cbn [Redis.kv].
    revert Heq.
    unfold CacheService.delByPattern, try_catch, bind, Client.keys, Client.del.
    rewrite !command_eq. fold (matching pattern (Redis.kv r)).
    destruct (next_fault r) eqn:Hf; cbn [fst snd].
    { intros [= <- <-]. split; [done |]. intros ? ? ? [=]. }
    intros Heq. split; [done |]. intros keys r1 e [= <- <-]. revert Heq.
    destruct (matching pattern (Redis.kv r)) as [|k ks].
    { by intros [= <- <-]. }
    change (0 <? Z.of_nat (length (k :: ks))) with true. cbv iota.
    rewrite !command_eq.
    destruct (next_fault (after (Redis.kv r) r)); cbn [fst snd]; [|done].
    by intros [= <- <-].
Qed.

(** ** Negative results are not cached *)

Lemma get_miss JSON_parse key r :
  Redis.kv r !! key = None ->
  CacheService.get JSON_parse key r = (Returned None, after (Redis.kv r) r).
Proof.
  intros Habs. unfold CacheService.get, try_catch, bind, Client.get.
  rewrite command_eq. destruct (next_fault r); cbn [fst snd]; [done |].
  by rewrite Habs.
Qed.

Lemma set_eq JSON_stringify key v ttl r :
  exists r', CacheService.set JSON_stringify key v ttl r = (Returned tt, r').
Proof.
  unfold CacheService.set, try_catch, Client.set.
  destruct (JSON_stringify v); [|by eexists].
  rewrite command_eq. destruct (next_fault r); cbn [fst snd]; [by eexists |].
  destruct (ttl <=? 0); by eexists.
Qed.

Lemma delByPattern_absent pattern key r :
  Redis.kv r !! key = None ->
  exists r',
    CacheService.delByPattern pattern r = (Returned tt, r') /\
    Redis.kv r' !! key = None.
Proof.
  intros Habs.
  destruct (delByPattern_eq pattern r) as (m & fs & -> & [->| ->] & _);
    eexists; (split; [done |]); cbn [Redis.kv]; [done |].
  rewrite lookup_swept. by destruct (Redis.glob pattern key).
Qed.

Lemma findOne_appended id db p :
  Store.findOne id db = None -> propertyId p = id ->
  Store.findOne id (db ++ [p]) = Some p.
Proof.
  unfold Store.findOne. intros Hnone Hid.
  induction db as [|x db IH]; simpl in *.
  - unfold Store.has_id. rewrite Hid, String.eqb_refl. done.
  - destruct (Store.has_id id x); [done | auto].
Qed.

(** A lookup that misses the cache and finds no listing answers 404 and
    issues no cache write. *)
Lemma getPropertyById_not_found JSON_parse JSON_stringify id w :
  Store.findOne id (properties w) = None ->
  Redis.kv (redis w) !! CACHE_KEYS.PROPERTY id = None ->
  getPropertyById JSON_parse JSON_stringify id w =
  ({| status := 404; body := VMessage "Property not found" |},
   {| properties := properties w; users := users w;
      redis := after (Redis.kv (redis w)) (redis w) |}).
Proof.
  intros Hnone Habs. unfold getPropertyById, handler, bind, cache at 1.
  rewrite (get_miss _ _ _ Habs). cbn [CacheService.hit gets properties].
  by rewrite Hnone.
Qed.

(** A lookup that misses the cache and finds the listing answers with
    it. *)
Lemma getPropertyById_found JSON_parse JSON_stringify id w p :
  Store.findOne id (properties w) = Some p ->
  Redis.kv (redis w) !! CACHE_KEYS.PROPERTY id = None ->
  (getPropertyById JSON_parse JSON_stringify id w).1 =
  {| status := 200; body := VDoc p |}.
Proof.
  intros Hsome Habs. unfold getPropertyById, handler, bind, cache at 1.
  rewrite (get_miss _ _ _ Habs). cbn [CacheService.hit gets properties].
  rewrite Hsome. unfold cache. cbn [redis].
  match goal with
  | |- context [CacheService.set ?s ?k ?v ?t ?r] =>
      destruct (set_eq s k v t r) as [r' ->]
  end.
  done.
Qed.

(** A creation that answers 201 has appended the listing it answers with
    and has written nothing under a key that was absent. *)
Lemma createProperty_created Date_parse user body draw w p w' key :
  createProperty Date_parse user body draw w =
    ({| status := 201; body := VDoc p |}, w') ->
  Redis.kv (redis w) !! key = None ->
  properties w' = (properties w ++ [p])%list /\
  Redis.kv (redis w') !! key = None.
Proof.
  intros Hrun Habs. unfold createProperty, handler in Hrun.
  destruct user as [uid|]; [|by injection Hrun].
  unfold bind at 1 in Hrun.
  match type of Hrun with
  | context [match ?m w with _ => _ end] => destruct (m w) as [[d|e] w0] eqn:Hd
  end; [|by injection Hrun].
  assert (w0 = w) as ->.
  { destruct (d_availableFrom body) as [[s|t]|]; try by injection Hd.
    destruct (Js.truthy s); by injection Hd. }
  unfold bind at 1, listings at 1, Store.create in Hrun.
  destruct (Store.validate _ _ _) as [q|]; [|by injection Hrun].
  destruct (Store.findOne (propertyId q) (properties w));
    [by injection Hrun|].
  unfold bind at 1, cache at 1 in Hrun. cbn [redis properties users] in Hrun.
  destruct (delByPattern_absent "properties:*" key (redis w) Habs)
    as (r1 & Heq1 & Habs1).
  rewrite Heq1 in Hrun.
  unfold bind at 1, cache at 1 in Hrun. cbn [redis properties users] in Hrun.
  destruct (delByPattern_absent "search:*" key r1 Habs1)
    as (r2 & Heq2 & Habs2).
  rewrite Heq2 in Hrun.
  by injection Hrun as <- <-.
Qed.

Lemma get_state JSON_parse key r :
  (CacheService.get JSON_parse key r).2 = after (Redis.kv r) r.
Proof.
  unfold CacheService.get, try_catch, bind, Client.get.
  rewrite command_eq. destruct (next_fault r); cbn [fst snd]; [done |].
  destruct (Redis.kv r !! key) as [[text expiry]|]; cbn; [|done].
  destruct (Js.truthy text); [|done]. by destruct (JSON_parse text).
Qed.

(** Without a listing to cache, the accessor leaves the key space as it
    is, hit or miss. *)
Lemma getPropertyById_writes_nothing JSON_parse JSON_stringify id w :
  Store.findOne id (properties w) = None ->
  Redis.kv (redis (getPropertyById JSON_parse JSON_stringify id w).2) =
  Redis.kv (redis w).
Proof.
  intros Hnone. unfold getPropertyById, handler, bind, cache at 1.
  pose proof (get_state JSON_parse (CACHE_KEYS.PROPERTY id) (redis w)) as Hst.
  destruct (CacheService.get JSON_parse (CACHE_KEYS.PROPERTY id) (redis w))
    as [[cached|e] r1]; cbn [snd] in Hst; subst r1.
  - destruct (CacheService.hit JSON_parse cached); [done |].
    unfold gets. cbn [properties]. by rewrite Hnone.
  - done.
Qed.

(** C3, as stated, fails when an entry outlives its listing: a deletion
    completes with status 200 while the deletion of the listing's key is
    rejected, so the key still holds the text cached before; the lookup
    of the identifier, which has no listing in the store, then answers
    200 with that text instead of 404, and after a listing is created
    with the identifier the very next lookup still answers with the old
    text, not with the created listing. *)
Lemma stale_entry_masks_counterexample :
  let lookup := getPropertyById Sample.parse_any Sample.stringify_any in
  let deleted := deleteProperty (Some Hex.owner) "PROP3001" Hex.flaky in
  let first := lookup "PROP3001" deleted.2 in
  let created :=
    createProperty Hex.clock (Some Hex.owner) Hex.rebuilt 4242%N first.2 in
  let next := lookup "PROP3001" created.2 in
  status deleted.1 = 200 /\
  Store.findOne "PROP3001" (properties deleted.2) = None /\
  first.1 = {| status := 200; body := VParsed Hex.cached_lodge |} /\
  created.1 = {| status := 201; body := VDoc Hex.rebuilt_doc |} /\
  Store.findOne "PROP3001" (properties created.2) = Some Hex.rebuilt_doc /\
  next.1 = {| status := 200; body := VParsed Hex.cached_lodge |}.
Proof. vm_compute. repeat split. Qed.

(** C3 (amended): a lookup of an identifier with no listing in the store
    writes nothing to the cache; when nothing is cached under the
    listing's key it answers 404, and a listing created with that
    identifier right after is what the very next lookup returns. *)
Theorem negative_results_never_cached
    (JSON_parse : string -> parsed) (JSON_stringify : value -> option string)
    (Date_parse : string -> Js.num) (id : string) (w : World) :
  Store.findOne id (properties w) = None ->
  Redis.kv (redis (getPropertyById JSON_parse JSON_stringify id w).2) =
    Redis.kv (redis w) /\
  (Redis.kv (redis w) !! CACHE_KEYS.PROPERTY id = None ->
   (getPropertyById JSON_parse JSON_stringify id w).1 =
     {| status := 404; body := VMessage "Property not found" |} /\
   forall user body draw p w2,
     createProperty Date_parse user body draw
       (getPropertyById JSON_parse JSON_stringify id w).2 =
       ({| status := 201; body := VDoc p |}, w2) ->
     propertyId p = id ->
     (getPropertyById JSON_parse JSON_stringify id w2).1 =
       {| status := 200; body := VDoc p |}).
Proof.
  intros Hnone. split; [by apply getPropertyById_writes_nothing |].
  intros Habs.
  rewrite (getPropertyById_not_found _ _ _ _ Hnone Habs). cbn [fst snd].
  split; [done |]. intros user body draw p w2 Hcreate Hid.
  eapply createProperty_created in Hcreate as [Hdb Hkey]; [|exact Habs].
  apply getPropertyById_found; [|done].
  rewrite Hdb. cbn [properties]. by apply findOne_appended.
Qed.

Lemma negative_results_never_cached_witness :
  let lookup := getPropertyById Sample.parse_any Sample.stringify_any in
  let w1 := (lookup "PROP3001" Hex.vacant).2 in
  let created :=
    createProperty Hex.clock (Some Hex.owner) Hex.rebuilt 4242%N w1 in
  Redis.kv (redis w1) = Redis.kv (redis Hex.vacant) /\
  (lookup "PROP3001" Hex.vacant).1 =
    {| status := 404; body := VMessage "Property not found" |} /\
  created.1 = {| status := 201; body := VDoc Hex.rebuilt_doc |} /\
  (lookup "PROP3001" created.2).1 =
    {| status := 200; body := VDoc Hex.rebuilt_doc |}.
Proof.
  destruct (negative_results_never_cached Sample.parse_any
              Sample.stringify_any Hex.clock "PROP3001" Hex.vacant
              eq_refl) as [Hkv Hmiss].
  destruct (Hmiss eq_refl) as [H404 Hnext].
  split; [exact Hkv |]. split; [exact H404 |]. split; [reflexivity |].
  apply (Hnext (Some Hex.owner) Hex.rebuilt 4242%N Hex.rebuilt_doc);
    [vm_compute; reflexivity | reflexivity].
Defined.

(** ** Favourites *)

(** C10: when the listing is already among the user's favourites, adding
    it answers 400 with the already-in-favourites message and changes
    nothing: the stored favourites, the cache and even the fate of the
    Redis commands to come are as before, no invalidation being issued. *)
Theorem addFavorite_already_in_favorites
    (uid id : string) (w : World) (p : Property) (u : User) :
  Store.findOne id (properties w) = Some p ->
  Store.findById uid (users w) = Some u ->
  In (propertyId p) (favorites u) ->
  addFavorite (Some uid) id w =
  ({| status := 400; body := VMessage "Property already in favorites" |}, w).
Proof.
  intros Hp Hu Hin. unfold addFavorite, handler, bind, gets.
  rewrite Hp, Hu.
  assert (Js.includes (favorites u) (propertyId p) = true) as ->.
  { unfold Js.includes. apply existsb_exists. exists (propertyId p).
    split; [done | apply String.eqb_refl]. }
  done.
Qed.

Lemma addFavorite_already_in_favorites_witness :
  addFavorite (Some "u1") "PROP1002" Sample.served =
  ({| status := 400; body := VMessage "Property already in favorites" |},
   Sample.served).
Proof.
  apply (addFavorite_already_in_favorites "u1" "PROP1002" Sample.served
           Sample.flat Sample.alice); [reflexivity | reflexivity |].
  simpl. left. reflexivity.
Defined.

(** ** The search filter *)

Lemma includes_In arr x : Js.includes arr x = true <-> In x arr.
Proof.
  unfold Js.includes. rewrite existsb_exists. split.
  - intros (y & Hin & Heq). apply String.eqb_eq in Heq. by subst.
  - intros Hin. exists x. split; [done | apply String.eqb_refl].
Qed.



Lemma when_truthy_some {A} v (f : string -> A) :
  v <> EmptyString -> when_truthy (Some v) f = Some (f v).
Proof. unfold when_truthy. by destruct v. Qed.



(** ** The search operation *)

Lemma get_returns JSON_parse key r :
  exists res,
    CacheService.get JSON_parse key r = (Returned res, after (Redis.kv r) r) /\
    (res = None \/ exists text, res = Some (VParsed text)).
Proof.
  unfold CacheService.get, try_catch, bind, Client.get.
  rewrite command_eq. destruct (next_fault r); cbn [fst snd].
  { eexists. split; [done | by left]. }
  destruct (Redis.kv r !! key) as [[text expiry]|]; cbn.
  - destruct (Js.truthy text).
    + destruct (JSON_parse text); cbn; eexists; (split; [done |]); eauto.
    + eexists. split; [done | by left].
  - eexists. split; [done | by left].
Qed.

Lemma hit_parsed JSON_parse res v :
  (res = None \/ exists text, res = Some (VParsed text)) ->
  CacheService.hit JSON_parse res = Some v ->
  exists text, v = VParsed text.
Proof.
  intros [->|[text ->]]; cbn; [done |].
  destruct (JSON_parse text); intros [= <-]; eauto.
Qed.

(** The three ways a search ends: with the cached value; with the value
    assembled from the answer of the store to the filter, the sort, the
    skip and the limit computed from the query; with status 500 when the
    store throws. *)
Lemma searchProperties_cases JSON_parse JSON_stringify Date_parse sort_by
    irregular q w resp w' :
  searchProperties JSON_parse JSON_stringify Date_parse sort_by irregular
    q w = (resp, w') ->
  let fetched :=
    Store.search Date_parse sort_by irregular (searchFilter q) (sortBy_of q)
      (sortDirection q) (skip q) (limitNum q) (properties w) in
  (exists text, resp = {| status := 200; body := VParsed text |}) \/
  (exists found total,
     fetched = Returned (found, total) /\
     resp = {| status := 200;
               body := assembled q (properties w) found total |}) \/
  (exists e,
     fetched = Thrown e /\
     resp = {| status := 500;
               body := VFailed "Error searching properties" e |}).
Proof.
  intros Hrun. cbv zeta.
  unfold searchProperties, handler, bind, cache at 1 in Hrun.
  cbv zeta in Hrun.
  destruct (get_returns JSON_parse (searchKey q) (redis w))
    as (res & Hget & Hres).
  rewrite Hget in Hrun.
  destruct (CacheService.hit JSON_parse res) as [v|] eqn:Hhit.
  { left. destruct (hit_parsed _ _ _ Hres Hhit) as [text ->].
    injection Hrun as <- <-. by exists text. }
  right. unfold listings, gets in Hrun. cbn [properties users redis] in Hrun.
  destruct (Store.search _ _ _ _ _ _ _ _ _) as [[found total]|e].
  - left. exists found, total. split; [done |].
    unfold cache in Hrun. cbn [redis properties users] in Hrun.
    match type of Hrun with
    | context [CacheService.set ?s ?k ?v ?t ?r] =>
        destruct (set_eq s k v t r) as [r' Hset]; rewrite Hset in Hrun
    end.
    by injection Hrun as <- <-.
  - right. exists e. by injection Hrun as <- <-.
Qed.

(** ** Pagination *)

(** For a positive divisor, [Math.ceil(t / l)] is the least [n] with
    [t <= n * l]. *)
Lemma ceil_div_spec t l :
  1 <= l ->
  exists n, Js.ceil_div (Js.Int t) (Js.Int l) = Js.Int n /\
            (n - 1) * l < t <= n * l.
Proof.
  intros Hl. exists (- (- t / l)). split.
  - unfold Js.ceil_div. destruct (l =? 0) eqn:E; [lia | done].
  - pose proof (Z.div_mod (- t) l ltac:(lia)) as Hdm.
    pose proof (Z.mod_pos_bound (- t) l ltac:(lia)) as Hm.
    nia.
Qed.

Lemma skip_of_numbers q page limit :
  pageNum q = Js.Int page -> limitNum q = Js.Int limit ->
  skip q = Js.Int ((page - 1) * limit).
Proof. unfold skip. by intros -> ->. Qed.

(** C6, as stated, fails for a limit or a page that is not positive: a
    limit of zero makes the number of pages infinite (not a number when
    there is no match), a negative limit makes it negative, and a page of
    zero makes the skip negative. *)
Lemma pagination_not_positive_counterexample :
  limitNum [("limit", "0")] = Js.Int 0 /\
  pages 25 [("limit", "0")] = Js.Inf false /\
  pages 0 [("limit", "0")] = Js.NaN /\
  pages 25 [("limit", "-10")] = Js.Int (-2) /\
  skip [("page", "0"); ("limit", "10")] = Js.Int (-10).
Proof. repeat split. Qed.

(** C6 (amended): when [page] and [limit] read as positive integers, a
    search that is answered from the store skips [(page - 1) * limit] of
    the sorted matches and returns at most [limit] of them, reports the
    number of matches as the total, and its [pages] is the ceiling of
    [total / limit]: the least [n] with [total <= n * limit], hence 0 for
    no match and 1 when the limit is at least the number of matches. *)
Theorem pagination_arithmetic
    (JSON_parse : string -> parsed) (JSON_stringify : value -> option string)
    (Date_parse : string -> Js.num)
    (sort_by : string -> Z -> list Property -> list Property)
    (irregular : Filter -> string -> Z -> Js.num -> Js.num ->
                 list Property -> outcome (list Property * Z))
    (q : Query) (w w' : World) (resp : Response) (data : SearchData)
    (page limit : Z) :
  searchProperties JSON_parse JSON_stringify Date_parse sort_by irregular
    q w = (resp, w') ->
  body resp = VSearch data ->
  pageNum q = Js.Int page -> limitNum q = Js.Int limit ->
  1 <= page -> 1 <= limit ->
  Store.castable Date_parse (searchFilter q) = true ->
  let hits :=
    List.filter (Store.matches Date_parse (searchFilter q)) (properties w) in
  let total := Z.of_nat (List.length hits) in
  skip q = Js.Int ((page - 1) * limit) /\
  sd_properties data =
    take (Z.to_nat limit)
      (drop (Z.to_nat ((page - 1) * limit))
         (sort_by (sortBy_of q) (sortDirection q) hits)) /\
  Z.of_nat (List.length (sd_properties data)) <= limit /\
  pg_total (sd_pagination data) = total /\
  exists n,
    pg_pages (sd_pagination data) = Js.Int n /\
    (n - 1) * limit < total <= n * limit /\
    (total = 0 -> n = 0) /\
    (0 < total <= limit -> n = 1).
Proof.
  intros Hrun Hbody Hpage Hlimit Hp Hl Hcast hits total.
  pose proof (skip_of_numbers q page limit Hpage Hlimit) as Hskip.
  split; [done |].
  apply searchProperties_cases in Hrun as
    [[text ->]|[(found & tot & Hfetch & ->)|(e & _ & ->)]];
    cbn [body] in Hbody; try discriminate.
  injection Hbody as <-. cbn [assembled sd_properties sd_pagination pg_total pg_pages].
  unfold Store.search in Hfetch. rewrite Hskip, Hlimit, Hcast in Hfetch.
  assert ((0 <=? (page - 1) * limit) = true) as Hs by (apply Z.leb_le; nia).
  assert ((1 <=? limit) = true) as Hl' by (by apply Z.leb_le).
  rewrite Hs, Hl' in Hfetch. cbn [andb] in Hfetch.
  injection Hfetch as <- <-. fold hits. fold total.
  split; [done |]. split.
  { rewrite length_take. lia. }
  split; [done |].
  unfold pages. rewrite Hlimit.
  destruct (ceil_div_spec total limit Hl) as (n & -> & Hn).
  exists n. split; [done |]. split; [done |]. split; nia.
Qed.

(** The second page of one listing per page, over the two sample
    listings. *)
Lemma pagination_arithmetic_witness :
  let q : Query := [("page", "2"); ("limit", "1")] in
  let out :=
    searchProperties Sample.parse_any Sample.stringify_any Sample.epoch
      Sample.unsorted Sample.rejects q Sample.served in
  exists data,
    body out.1 = VSearch data /\
    skip q = Js.Int 1 /\
    sd_properties data = [Sample.flat] /\
    pg_total (sd_pagination data) = 2 /\
    exists n, pg_pages (sd_pagination data) = Js.Int n /\
              (n - 1) * 1 < 2 <= n * 1.
Proof.
  intros q out.
  assert (exists data, body out.1 = VSearch data) as [data Hbody].
  { eexists. vm_compute. reflexivity. }
  exists data. split; [exact Hbody |].
  destruct (pagination_arithmetic Sample.parse_any Sample.stringify_any
              Sample.epoch Sample.unsorted Sample.rejects q Sample.served
              out.2 out.1 data 2 1)
    as (Hskip & Hprops & _ & Htotal & n & Hpages & Hceil & _);
    [apply surjective_pairing | exact Hbody | reflexivity | reflexivity
    | lia | lia | reflexivity |].
  split; [exact Hskip |]. split; [exact Hprops |]. split; [exact Htotal |].
  exists n. split; [exact Hpages | exact Hceil].
Defined.

(** The figures of the specification: 25 matches at 10 per page make 3
    pages, no match makes none, and a limit above the number of matches
    makes one. *)
Example pages_examples :
  pages 25 [] = Js.Int 3 /\ pages 25 [("limit", "10")] = Js.Int 3 /\
  pages 0 [] = Js.Int 0 /\ pages 7 [("limit", "50")] = Js.Int 1.
Proof. repeat split. Qed.

(** C7, as stated, fails: a page of zero makes the skip negative, a limit
    of zero or below is handed on as it is, and a value that is not a
    number makes both [NaN]; the defaults do not replace them. *)
Lemma pagination_unclamped_counterexample :
  skip [("page", "0")] = Js.Int (-10) /\
  limitNum [("limit", "0")] = Js.Int 0 /\
  limitNum [("limit", "-5")] = Js.Int (-5) /\
  skip [("page", "3"); ("limit", "-5")] = Js.Int (-10) /\
  pageNum [("page", "abc")] = Js.NaN /\
  skip [("page", "abc")] = Js.NaN /\
  limitNum [("limit", "ten")] = Js.NaN.
Proof. repeat split. Qed.

(** C7 (amended): the defaults 1 and 10 stand in for [page] and [limit]
    only when the property is unspecified; a supplied value is read with
    [parseInt] and used as it is, without clamping or rejection, so the
    skip [(page - 1) * limit] and the limit handed to the store are
    whatever the reading gives, and a search answered from the store is
    the store's answer to exactly these. *)
Theorem pagination_defaults_when_unspecified
    (JSON_parse : string -> parsed) (JSON_stringify : value -> option string)
    (Date_parse : string -> Js.num)
    (sort_by : string -> Z -> list Property -> list Property)
    (irregular : Filter -> string -> Z -> Js.num -> Js.num ->
                 list Property -> outcome (list Property * Z))
    (q : Query) (w : World) :
  (prop q "page" = None -> pageNum q = Js.Int 1) /\
  (prop q "limit" = None -> limitNum q = Js.Int 10) /\
  (prop q "page" = None -> prop q "limit" = None -> skip q = Js.Int 0) /\
  (forall v, prop q "page" = Some v -> pageNum q = Js.parseInt v) /\
  (forall v, prop q "limit" = Some v -> limitNum q = Js.parseInt v) /\
  (forall page limit,
     pageNum q = Js.Int page -> limitNum q = Js.Int limit ->
     skip q = Js.Int ((page - 1) * limit)) /\
  (pageNum q = Js.NaN \/ limitNum q = Js.NaN -> skip q = Js.NaN) /\
  (forall resp w' data,
     searchProperties JSON_parse JSON_stringify Date_parse sort_by irregular
       q w = (resp, w') ->
     body resp = VSearch data ->
     Store.search Date_parse sort_by irregular (searchFilter q) (sortBy_of q)
       (sortDirection q)
       (Js.mul (Js.sub (Js.parseInt (default "1" (prop q "page"))) (Js.Int 1))
               (Js.parseInt (default "10" (prop q "limit"))))
       (Js.parseInt (default "10" (prop q "limit"))) (properties w) =
     Returned (sd_properties data, pg_total (sd_pagination data))).
Proof.
  unfold skip, pageNum, limitNum, page_of, limit_of.
  repeat apply conj.
  - by intros ->.
  - by intros ->.
  - by intros -> ->.
  - by intros v ->.
  - by intros v ->.
  - by intros page limit -> ->.
  - intros [-> | ->]; [done |].
    by destruct (Js.sub _ _).
  - intros resp w' data Hrun Hbody.
    apply searchProperties_cases in Hrun as
      [[text ->]|[(found & tot & Hfetch & ->)|(e & _ & ->)]];
      cbn [body] in Hbody; try discriminate.
    injection Hbody as <-. exact Hfetch.
Qed.

Lemma pagination_defaults_when_unspecified_witness :
  pageNum [("city", "Panaji")] = Js.Int 1 /\
  limitNum [("city", "Panaji")] = Js.Int 10 /\
  skip [("city", "Panaji")] = Js.Int 0 /\
  pageNum [("page", "-2"); ("limit", "5")] = Js.parseInt "-2" /\
  skip [("page", "-2"); ("limit", "5")] = Js.Int (-15).
Proof.
  destruct (pagination_defaults_when_unspecified Sample.parse_any
              Sample.stringify_any Sample.epoch Sample.unsorted
              Sample.rejects [("city", "Panaji")] Sample.served)
    as (Hp & Hl & Hs & _).
  destruct (pagination_defaults_when_unspecified Sample.parse_any
              Sample.stringify_any Sample.epoch Sample.unsorted
              Sample.rejects [("page", "-2"); ("limit", "5")] Sample.served)
    as (_ & _ & _ & Hpv & _ & Hskip & _).
  split; [apply Hp; reflexivity |].
  split; [apply Hl; reflexivity |].
  split; [apply Hs; reflexivity |].
  split; [apply Hpv; reflexivity |].
  apply (Hskip (-2) 5); reflexivity.
Defined.

(** ** Constraint values that do not parse *)

(** C8, as stated, fails: a verification flag that is not a boolean is
    taken for [false] and the search succeeds; a number followed by other
    text is read up to that text; and a price that is no number goes into
    the filter of the store as [NaN], the only failure being the one the
    store may answer with. *)
Lemma unparseable_constraint_counterexample :
  let search :=
    searchProperties Sample.parse_any Sample.stringify_any Sample.epoch
      Sample.unsorted Sample.rejects in
  f_isVerified (searchFilter [("isVerified", "maybe")]) = Some false /\
  (search [("isVerified", "maybe")] Sample.served).1 =
    {| status := 200;
       body := assembled [("isVerified", "maybe")]
                 [Sample.villa; Sample.flat] [Sample.flat] 1 |} /\
  f_bedrooms (searchFilter [("bedrooms", "2 or so")]) = Some (Js.Int 2) /\
  status (search [("bedrooms", "2 or so")] Sample.served).1 = 200 /\
  f_price (searchFilter [("minPrice", "cheap")]) =
    Some {| gte := Some Js.NaN; lte := None |} /\
  (search [("minPrice", "cheap")] Sample.served).1 =
    {| status := 500;
       body := VFailed "Error searching properties" (StoreError "rejected") |}.
Proof. repeat split. Qed.

Lemma range_of_gte lo hi v :
  v <> EmptyString -> lo = Some v ->
  exists r, range_of lo hi = Some r /\ gte r = Some (Js.parseInt v).
Proof.
  intros Hv ->. unfold range_of. destruct v; [done |]. cbn.
  eexists. split; done.
Qed.

Lemma range_of_lte lo hi v :
  v <> EmptyString -> hi = Some v ->
  exists r, range_of lo hi = Some r /\ lte r = Some (Js.parseInt v).
Proof.
  intros Hv ->. unfold range_of. destruct v; [done |]. cbn.
  rewrite orb_true_r. eexists. split; done.
Qed.

(** C8 (amended): the search operation validates no constraint value. A
    supplied, non-empty numeric value goes into the filter as what
    [parseInt] (for the rating, [parseFloat]) reads in it, [NaN] included;
    a supplied verification flag is [true] for the text [true] and [false]
    for any other; and the operation answers 200 or, when the store
    throws, 500, never a validation failure. *)
Theorem constraints_are_not_validated
    (JSON_parse : string -> parsed) (JSON_stringify : value -> option string)
    (Date_parse : string -> Js.num)
    (sort_by : string -> Z -> list Property -> list Property)
    (irregular : Filter -> string -> Z -> Js.num -> Js.num ->
                 list Property -> outcome (list Property * Z))
    (q : Query) (w : World) :
  (forall v, v <> EmptyString ->
     (prop q "bedrooms" = Some v ->
      f_bedrooms (searchFilter q) = Some (Js.parseInt v)) /\
     (prop q "bathrooms" = Some v ->
      f_bathrooms (searchFilter q) = Some (Js.parseInt v)) /\
     (prop q "minPrice" = Some v ->
      exists r, f_price (searchFilter q) = Some r /\
                gte r = Some (Js.parseInt v)) /\
     (prop q "maxPrice" = Some v ->
      exists r, f_price (searchFilter q) = Some r /\
                lte r = Some (Js.parseInt v)) /\
     (prop q "minArea" = Some v ->
      exists r, f_areaSqFt (searchFilter q) = Some r /\
                gte r = Some (Js.parseInt v)) /\
     (prop q "maxArea" = Some v ->
      exists r, f_areaSqFt (searchFilter q) = Some r /\
                lte r = Some (Js.parseInt v)) /\
     (prop q "minRating" = Some v ->
      f_rating (searchFilter q) = Some (Js.parseFloat v))) /\
  (forall v, prop q "isVerified" = Some v ->
     f_isVerified (searchFilter q) = Some (String.eqb v "true")) /\
  (let resp :=
     (searchProperties JSON_parse JSON_stringify Date_parse sort_by
        irregular q w).1 in
   status resp = 200 \/
   status resp = 500 /\
   exists e,
     Store.search Date_parse sort_by irregular (searchFilter q) (sortBy_of q)
       (sortDirection q) (skip q) (limitNum q) (properties w) = Thrown e).
Proof.
  repeat apply conj.
  - intros v Hv. cbn [searchFilter f_bedrooms f_bathrooms f_price f_areaSqFt f_rating].
    repeat apply conj.
    + intros ->. by apply when_truthy_some.
    + intros ->. by apply when_truthy_some.
    + by apply range_of_gte.
    + by apply range_of_lte.
    + by apply range_of_gte.
    + by apply range_of_lte.
    + intros ->. by apply when_truthy_some.
  - intros v Hq. cbn [searchFilter f_isVerified]. by rewrite Hq.
  - cbv zeta.
    destruct (searchProperties JSON_parse JSON_stringify Date_parse sort_by
                irregular q w) as [resp w'] eqn:Hrun.
    apply searchProperties_cases in Hrun as
      [[text ->]|[(found & tot & _ & ->)|(e & He & ->)]]; cbn [fst status].
    + by left.
    + by left.
    + right. split; [done |]. by exists e.
Qed.

Lemma constraints_are_not_validated_witness :
  f_bedrooms (searchFilter [("bedrooms", "many")]) = Some Js.NaN /\
  (exists r, f_price (searchFilter [("maxPrice", "1e3")]) = Some r /\
             lte r = Some (Js.Int 1)) /\
  f_isVerified (searchFilter [("isVerified", "TRUE")]) = Some false.
Proof.
  destruct (constraints_are_not_validated Sample.parse_any
              Sample.stringify_any Sample.epoch Sample.unsorted
              Sample.rejects [("bedrooms", "many")] Sample.served)
    as (Hnum & _ & _).
  destruct (constraints_are_not_validated Sample.parse_any
              Sample.stringify_any Sample.epoch Sample.unsorted
              Sample.rejects [("maxPrice", "1e3")] Sample.served)
    as (Hnum' & _ & _).
  destruct (constraints_are_not_validated Sample.parse_any
              Sample.stringify_any Sample.epoch Sample.unsorted
              Sample.rejects [("isVerified", "TRUE")] Sample.served)
    as (_ & Hflag & _).
  split.
  { destruct (Hnum "many") as (Hb & _); [discriminate |].
    exact (Hb eq_refl). }
  split.
  { destruct (Hnum' "1e3") as (_ & _ & _ & Hmax & _); [discriminate |].
    exact (Hmax eq_refl). }
  exact (Hflag "TRUE" eq_refl).
Defined.

(** ** The search cache key *)

(** C2, as stated, fails: two requests with the same two constraints in
    the opposite order build the same filter and get different keys. *)
Lemma search_key_order_counterexample :
  let q1 : Query := [("city", "Panaji"); ("type", "Villa")] in
  let q2 : Query := [("type", "Villa"); ("city", "Panaji")] in
  q1 ≡ₚ q2 /\
  searchFilter q1 = searchFilter q2 /\
  searchKey q1 <> searchKey q2.
Proof.
  cbv zeta. split; [apply perm_swap |]. split; [reflexivity |].
  vm_compute. discriminate.
Qed.

Lemma append_String (x : ascii) (a b : string) :
  String x a +:+ b = String x (a +:+ b).
Proof. reflexivity. Qed.

Lemma append_Empty (b : string) : EmptyString +:+ b = b.
Proof. reflexivity. Qed.

Ltac push_append :=
  repeat (rewrite append_String || rewrite append_Empty).
Ltac push_append_in H :=
  repeat (rewrite append_String in H || rewrite append_Empty in H).

Lemma append_assoc_str (a b c : string) : (a +:+ b) +:+ c = a +:+ (b +:+ c).
Proof. induction a as [|x a IH]; push_append; [done | by rewrite IH]. Qed.

Lemma append_cancel_l (a r1 r2 : string) : a +:+ r1 = a +:+ r2 -> r1 = r2.
Proof.
  induction a as [|x a IH]; push_append; [done | intros [= H]; auto].
Qed.

Lemma diverge_append a b r1 r2 :
  diverge a b = true -> a +:+ r1 <> b +:+ r2.
Proof.
  revert b. induction a as [|x a IH]; intros [|y b]; cbn [diverge]; try done.
  push_append. destruct (Ascii.eqb_spec x y) as [->|Hne].
  - intros Hd [= H]. by eapply IH.
  - intros _ [= H _]. done.
Qed.

Lemma escapes_checked_true : escapes_checked = true.
Proof. vm_compute. reflexivity. Qed.

Lemma escape_char_checked c :
  diverge (Js.escape_char c) (String Js.dquote EmptyString) = true /\
  forall c', c <> c' -> diverge (Js.escape_char c) (Js.escape_char c') = true.
Proof.
  pose proof escapes_checked_true as H. unfold escapes_checked in H.
  rewrite forallb_forall in H.
  assert (forall a, In (nat_of_ascii a) (seq 0 256)) as Hin.
  { intros a. apply in_seq. pose proof (nat_ascii_bounded a). lia. }
  specialize (H (nat_of_ascii c) (Hin c)).
  rewrite ascii_nat_embedding in H.
  apply andb_prop in H as [H1 H2].
  split; [done |]. intros c' Hne.
  rewrite forallb_forall in H2. specialize (H2 (nat_of_ascii c') (Hin c')).
  rewrite ascii_nat_embedding in H2.
  destruct (Nat.eqb_spec (nat_of_ascii c) (nat_of_ascii c')) as [Heq|_].
  - exfalso. apply Hne.
    by rewrite <- (ascii_nat_embedding c), Heq, ascii_nat_embedding.
  - exact H2.
Qed.

(** The escaped text followed by the closing quote is a prefix code. *)
Lemma escape_closed_inj a b x y :
  Js.escape a +:+ String Js.dquote x = Js.escape b +:+ String Js.dquote y ->
  a = b /\ x = y.
Proof.
  revert b. induction a as [|c a IH]; intros [|c' b]; cbn [Js.escape].
  - push_append. by intros [= ->].
  - rewrite append_assoc_str. push_append. intros H. symmetry in H.
    exfalso. revert H.
    change (String Js.dquote x) with (String Js.dquote EmptyString +:+ x).
    apply diverge_append, escape_char_checked.
  - rewrite append_assoc_str. push_append. intros H. exfalso. revert H.
    change (String Js.dquote y) with (String Js.dquote EmptyString +:+ y).
    apply diverge_append, escape_char_checked.
  - rewrite !append_assoc_str. intros H.
    destruct (ascii_dec c c') as [<-|Hne].
    + apply append_cancel_l, IH in H as [-> ->]. done.
    + exfalso. revert H. apply diverge_append.
      by apply escape_char_checked.
Qed.

Lemma quote_inj a b x y :
  Js.quote a +:+ x = Js.quote b +:+ y -> a = b /\ x = y.
Proof.
  unfold Js.quote. push_append. rewrite !append_assoc_str. push_append.
  intros [= H]. by apply escape_closed_inj.
Qed.

Lemma member_inj kv kv' x y :
  Js.member kv +:+ x = Js.member kv' +:+ y -> kv = kv' /\ x = y.
Proof.
  destruct kv as [k v], kv' as [k' v']. unfold Js.member. cbn [fst snd].
  rewrite !append_assoc_str. intros [-> H]%quote_inj.
  apply append_cancel_l, quote_inj in H as [-> ->]. done.
Qed.

Lemma member_head kv x : exists r, Js.member kv +:+ x = String Js.dquote r.
Proof. unfold Js.member, Js.quote. push_append. eauto. Qed.

Lemma members_head kv rest x :
  exists r, Js.members (kv :: rest) +:+ x = String Js.dquote r.
Proof.
  cbn [Js.members]. destruct rest; [apply member_head |].
  rewrite append_assoc_str. apply member_head.
Qed.

Lemma members_inj o o' :
  Js.members o +:+ "}" = Js.members o' +:+ "}" -> o = o'.
Proof.
  revert o'. induction o as [|kv rest IH]; intros [|kv' rest'].
  - done.
  - destruct (members_head kv' rest' "}") as [r ->].
    cbn [Js.members]. push_append. discriminate.
  - destruct (members_head kv rest "}") as [r ->].
    cbn [Js.members]. push_append. discriminate.
  - cbn [Js.members]. destruct rest as [|kv2 rest], rest' as [|kv2' rest'].
    + by intros [-> _]%member_inj.
    + rewrite !append_assoc_str. intros [_ H]%member_inj.
      push_append_in H. discriminate.
    + rewrite !append_assoc_str. intros [_ H]%member_inj.
      push_append_in H. discriminate.
    + rewrite !append_assoc_str. intros [-> H]%member_inj.
      apply append_cancel_l in H. by rewrite (IH _ H).
Qed.

Lemma array_index_inj a b n :
  JsObject.array_index a = Some n -> JsObject.array_index b = Some n -> a = b.
Proof.
  unfold JsObject.array_index. intros Ha Hb.
  destruct a as [|ca ra]; [done |]. destruct b as [|cb rb]; [done |].
  destruct (JsObject.decimal 0 (String ca ra)) as [x|]; [|done].
  destruct (JsObject.decimal 0 (String cb rb)) as [y|]; [|done].
  destruct (bool_decide (pretty x = String ca ra)) eqn:Hx; [|done].
  destruct (bool_decide (pretty y = String cb rb)) eqn:Hy; [|done].
  apply bool_decide_eq_true in Hx, Hy. cbn [andb] in Ha, Hb.
  destruct (x <? 4294967295)%N; [|done].
  destruct (y <? 4294967295)%N; [|done].
  congruence.
Qed.

Lemma place_perm kv l : JsObject.place kv l ≡ₚ kv :: l.
Proof.
  induction l as [|x l IH]; cbn; [done |].
  destruct (JsObject.index kv <? JsObject.index x)%N; [done |].
  rewrite IH. apply perm_swap.
Qed.

Lemma ascending_perm l : JsObject.ascending l ≡ₚ l.
Proof.
  induction l as [|x l IH]; cbn; [done |].
  by rewrite place_perm, IH.
Qed.

Lemma place_sorted kv l :
  StronglySorted (fun a b => (JsObject.index a <= JsObject.index b)%N) l ->
  StronglySorted (fun a b => (JsObject.index a <= JsObject.index b)%N)
    (JsObject.place kv l).
Proof.
  induction 1 as [|x l Hl IH Hx]; cbn.
  - repeat constructor.
  - destruct (N.ltb_spec (JsObject.index kv) (JsObject.index x)) as [Hlt|Hge].
    + constructor; [by constructor |]. constructor; [lia |].
      eapply Forall_impl; [exact Hx |]. cbn. intros; lia.
    + constructor; [exact IH |].
      rewrite place_perm. by constructor.
Qed.

Lemma ascending_sorted l :
  StronglySorted (fun a b => (JsObject.index a <= JsObject.index b)%N)
    (JsObject.ascending l).
Proof.
  induction l as [|x l IH]; cbn; [constructor | by apply place_sorted].
Qed.

Lemma same_name_same_pair (l : list (string * string)) x y :
  NoDup l.*1 -> x ∈ l -> y ∈ l -> x.1 = y.1 -> x = y.
Proof.
  induction l as [|z l IH]; intros Hnd Hx Hy Hxy; [by inv Hx |].
  cbn in Hnd. apply NoDup_cons in Hnd as [Hz Hnd].
  apply elem_of_cons in Hx as [->|Hx], Hy as [->|Hy].
  - done.
  - exfalso. apply Hz. rewrite Hxy. by apply list_elem_of_fmap_2.
  - exfalso. apply Hz. rewrite <- Hxy. by apply list_elem_of_fmap_2.
  - by apply IH.
Qed.

Lemma elem_of_indexed x ps :
  x ∈ JsObject.indexed ps <-> x ∈ ps /\ JsObject.is_index x = true.
Proof.
  unfold JsObject.indexed. rewrite !list_elem_of_In, filter_In. tauto.
Qed.

Lemma index_inj x y :
  JsObject.is_index x = true -> JsObject.is_index y = true ->
  JsObject.index x = JsObject.index y -> x.1 = y.1.
Proof.
  unfold JsObject.is_index, JsObject.index.
  destruct (JsObject.array_index x.1) as [n|] eqn:Hx; [|done].
  destruct (JsObject.array_index y.1) as [m|] eqn:Hy; [|done].
  cbn. intros _ _ ->. by eapply array_index_inj.
Qed.

(** Parameters named by array indices are listed in ascending order,
    whatever the order of their creation. *)
Lemma ascending_of_perm ps ps' :
  NoDup ps.*1 ->
  JsObject.indexed ps ≡ₚ JsObject.indexed ps' ->
  JsObject.ascending (JsObject.indexed ps) =
  JsObject.ascending (JsObject.indexed ps').
Proof.
  intros Hnd Hperm.
  apply (StronglySorted_unique_strong
           (fun a b => (JsObject.index a <= JsObject.index b)%N)).
  - intros x y Hx Hy Hxy Hyx.
    rewrite ascending_perm in Hx. rewrite ascending_perm, <- Hperm in Hy.
    apply elem_of_indexed in Hx as [Hx Hix], Hy as [Hy Hiy].
    apply (same_name_same_pair ps); [done.. |].
    apply index_inj; [done.. | lia].
  - apply ascending_sorted.
  - apply ascending_sorted.
  - by rewrite !ascending_perm.
Qed.

Lemma app_split_by (P : string * string -> bool) l1 l2 l1' l2' :
  Forall (fun x => P x = true) l1 -> Forall (fun x => P x = true) l1' ->
  Forall (fun x => P x = false) l2 -> Forall (fun x => P x = false) l2' ->
  (l1 ++ l2 = l1' ++ l2')%list -> l1 = l1' /\ l2 = l2'.
Proof.
  revert l1'. induction l1 as [|x l1 IH]; intros [|y l1'] H1 H1' H2 H2' Heq;
    cbn in Heq.
  - done.
  - subst l2. apply Forall_cons in H1' as [Hy _], H2 as [Hy' _]. congruence.
  - subst l2'. apply Forall_cons in H1 as [Hx _], H2' as [Hx' _]. congruence.
  - injection Heq as -> Heq.
    apply Forall_cons in H1 as [_ H1], H1' as [_ H1'].
    destruct (IH l1' H1 H1' H2 H2' Heq) as [-> ->]. done.
Qed.

Lemma own_entries_parts ps ps' :
  JsObject.own_entries ps = JsObject.own_entries ps' ->
  JsObject.ascending (JsObject.indexed ps) =
    JsObject.ascending (JsObject.indexed ps') /\
  JsObject.named ps = JsObject.named ps'.
Proof.
  apply (app_split_by JsObject.is_index).
  - apply Forall_forall. intros x Hx.
    rewrite ascending_perm in Hx. by apply elem_of_indexed in Hx as [_ ?].
  - apply Forall_forall. intros x Hx.
    rewrite ascending_perm in Hx. by apply elem_of_indexed in Hx as [_ ?].
  - apply Forall_forall. intros x Hx. unfold JsObject.named in Hx.
    apply list_elem_of_In, filter_In in Hx as [_ Hx].
    by apply negb_true_iff in Hx.
  - apply Forall_forall. intros x Hx. unfold JsObject.named in Hx.
    apply list_elem_of_In, filter_In in Hx as [_ Hx].
    by apply negb_true_iff in Hx.
Qed.

Lemma own_entries_named ps :
  JsObject.indexed ps = [] -> JsObject.own_entries ps = ps.
Proof.
  unfold JsObject.own_entries, JsObject.named, JsObject.indexed.
  intros Hnone. rewrite Hnone. cbn.
  induction ps as [|x ps IH]; cbn in *; [done |].
  destruct (JsObject.is_index x); [done |]. cbn. by rewrite IH.
Qed.

(** C2 (amended): the search key is ['search:'] and the serialization of
    the query object, which lists the properties named by array indices
    in ascending order and then the others in the order of their
    creation, the order in which the request supplies them. Two query
    objects get the same key exactly when they list the same name/value
    pairs in the same order; so two requests whose parameters (of
    distinct names) become the properties of the query object get the
    same key exactly when they carry the same pairs and supply those not
    named by an array index in the same order, and for requests without
    such names this is the order of the whole request: nothing sorts the
    constraint names. *)
Theorem search_key_identifies_ordered_query :
  (forall q1 q2 : Query, searchKey q1 = searchKey q2 <-> q1 = q2) /\
  (forall ps ps',
     NoDup ps.*1 -> NoDup ps'.*1 ->
     searchKey (JsObject.own_entries ps) =
       searchKey (JsObject.own_entries ps') <->
     JsObject.named ps = JsObject.named ps' /\
     JsObject.indexed ps ≡ₚ JsObject.indexed ps') /\
  (forall ps ps',
     JsObject.indexed ps = [] -> JsObject.indexed ps' = [] ->
     searchKey (JsObject.own_entries ps) =
       searchKey (JsObject.own_entries ps') <-> ps = ps').
Proof.
  assert (forall q1 q2 : Query, searchKey q1 = searchKey q2 <-> q1 = q2)
    as Hinj.
  { intros q1 q2. split; [|by intros ->].
    unfold searchKey, CACHE_KEYS.SEARCH, Js.stringify_object.
    intros H. apply append_cancel_l in H. push_append_in H.
    injection H as H. by apply members_inj. }
  split; [exact Hinj |]. split.
  - intros ps ps' Hnd Hnd'. rewrite Hinj. split.
    + intros [Hasc Hnamed]%own_entries_parts. split; [done |].
      by rewrite <- (ascending_perm (JsObject.indexed ps)), Hasc,
        ascending_perm.
    + intros [Hnamed Hperm]. unfold JsObject.own_entries.
      by rewrite Hnamed, (ascending_of_perm ps ps' Hnd Hperm).
  - intros ps ps' Hps Hps'. rewrite Hinj.
    by rewrite (own_entries_named ps Hps), (own_entries_named ps' Hps').
Qed.

Lemma search_key_identifies_ordered_query_witness :
  searchKey (JsObject.own_entries [("2", "b"); ("city", "Panaji"); ("1", "a")])
  = searchKey
      (JsObject.own_entries [("1", "a"); ("2", "b"); ("city", "Panaji")]) /\
  searchKey (JsObject.own_entries [("city", "Panaji"); ("type", "Villa")]) <>
  searchKey (JsObject.own_entries [("type", "Villa"); ("city", "Panaji")]).
Proof.
  destruct search_key_identifies_ordered_query as (_ & Hreq & Hnamed).
  split.
  - apply Hreq.
    + apply (bool_decide_unpack _). reflexivity.
    + apply (bool_decide_unpack _). reflexivity.
    + split; [reflexivity |]. vm_compute. apply perm_swap.
  - intros H. apply Hnamed in H; [discriminate | reflexivity | reflexivity].
Defined.

(** * Further properties of the controllers *)

(** ** Listing mutations and the store *)

Lemma world_eta w :
  {| properties := properties w; users := users w; redis := redis w |} = w.
Proof. by destruct w. Qed.

Lemma delByPattern_returns pattern r :
  CacheService.delByPattern pattern r =
  (Returned tt, (CacheService.delByPattern pattern r).2).
Proof.
  destruct (delByPattern_eq pattern r) as (m & fs & Heq & _). by rewrite Heq.
Qed.

Lemma del_returns key r :
  CacheService.del key r = (Returned tt, (CacheService.del key r).2).
Proof. by rewrite del_eq. Qed.

Lemma validate_fields Date_parse fresh d p :
  Store.validate Date_parse fresh d = Some p ->
  createdBy p = d_createdBy d /\
  propertyId p = default fresh (d_propertyId d) /\
  propertyId p <> EmptyString.
Proof.
  unfold Store.validate. intros H. simplify_option_eq.
  split; [done |].
  match goal with
  | E : (if Js.truthy ?s then Some ?s else None) = Some ?x |- _ =>
      destruct s; cbn in E; [done | by injection E as <-]
  end.
Qed.

(** What a creation that answers 201 has done. *)
Lemma createProperty_201 Date_parse user data draw w resp w' :
  createProperty Date_parse user data draw w = (resp, w') ->
  status resp = 201 ->
  exists uid p,
    user = Some uid /\ body resp = VDoc p /\
    createdBy p = Some uid /\
    propertyId p = default (fresh_id draw) (d_propertyId data) /\
    Store.findOne (propertyId p) (properties w) = None /\
    properties w' = (properties w ++ [p])%list /\
    users w' = users w /\
    redis w' = invalidate_collection (redis w).
Proof.
  intros Hrun Hst. unfold createProperty, handler in Hrun.
  destruct user as [uid|]; [|injection Hrun as <- <-; done].
  unfold bind at 1 in Hrun.
  match type of Hrun with
  | context [match ?m w with _ => _ end] => destruct (m w) as [[d|e] w0] eqn:Hd
  end; [|injection Hrun as <- <-; done].
  assert (w0 = w /\ d_propertyId d = d_propertyId data) as [-> Hpid].
  { destruct (d_availableFrom data) as [[s|t]|]; try (by injection Hd as <- <-).
    - destruct (Js.truthy s); by injection Hd as <- <-.
    - done. }
  unfold bind at 1, listings at 1, Store.create in Hrun.
  destruct (Store.validate _ _ _) as [q|] eqn:Hv;
    [|injection Hrun as <- <-; done].
  destruct (Store.findOne (propertyId q) (properties w)) eqn:Hfree;
    [injection Hrun as <- <-; done|].
  unfold bind at 1, cache at 1 in Hrun. cbn [redis properties users] in Hrun.
  rewrite delByPattern_returns in Hrun.
  unfold bind at 1, cache at 1 in Hrun. cbn [redis properties users] in Hrun.
  rewrite delByPattern_returns in Hrun.
  injection Hrun as <- <-.
  apply validate_fields in Hv as (Hc & Hi & _).
  exists uid, q. cbn in Hc, Hi. rewrite Hpid in Hi. done.
Qed.

(** A creation that does not answer 201 has done nothing. *)
Lemma createProperty_failed Date_parse user data draw w resp w' :
  createProperty Date_parse user data draw w = (resp, w') ->
  status resp <> 201 ->
  w' = w /\ (status resp = 401 \/ status resp = 500).
Proof.
  intros Hrun Hst. unfold createProperty, handler in Hrun.
  destruct user as [uid|]; [|injection Hrun as <- <-; auto].
  unfold bind at 1 in Hrun.
  match type of Hrun with
  | context [match ?m w with _ => _ end] => destruct (m w) as [[d|e] w0] eqn:Hd
  end.
  - assert (w0 = w) as ->.
    { destruct (d_availableFrom data) as [[s|t]|]; try (by injection Hd as <- <-).
      - destruct (Js.truthy s); by injection Hd as <- <-.
      - done. }
    unfold bind at 1, listings at 1, Store.create in Hrun.
    destruct (Store.validate _ _ _) as [q|] eqn:Hv;
      [|injection Hrun as <- <-; rewrite world_eta; auto].
    destruct (Store.findOne (propertyId q) (properties w)) eqn:Hfree;
      [injection Hrun as <- <-; rewrite world_eta; auto|].
    unfold bind at 1, cache at 1 in Hrun. cbn [redis properties users] in Hrun.
    rewrite delByPattern_returns in Hrun.
    unfold bind at 1, cache at 1 in Hrun. cbn [redis properties users] in Hrun.
    rewrite delByPattern_returns in Hrun.
    injection Hrun as <- <-. done.
  - assert (w0 = w) as ->.
    { destruct (d_availableFrom data) as [[s|t]|]; try (by injection Hd as <- <-).
      - destruct (Js.truthy s); by injection Hd.
      - by injection Hd. }
    injection Hrun as <- <-. auto.
Qed.

Lemma findOne_Some id db p :
  Store.findOne id db = Some p -> propertyId p = id /\ In p db.
Proof.
  unfold Store.findOne. intros H. apply find_some in H as [Hin Hid].
  split; [by apply String.eqb_eq |done].
Qed.

Lemma has_id_spec id p : reflect (propertyId p = id) (Store.has_id id p).
Proof. unfold Store.has_id. apply String.eqb_spec. Qed.

Lemma findOne_None id db :
  Store.findOne id db = None <-> ~ In id (map propertyId db).
Proof.
  unfold Store.findOne. induction db as [|x db IH]; cbn; [tauto |].
  destruct (has_id_spec id x).
  - split; [done | tauto].
  - rewrite IH. tauto.
Qed.

Lemma findOne_remove_first_ne id id' db :
  id' <> id ->
  Store.findOne id' (Store.remove_first id db) = Store.findOne id' db.
Proof.
  intros Hne. unfold Store.findOne.
  induction db as [|x db IH]; cbn; [done |].
  destruct (has_id_spec id x) as [Hx|Hx]; cbn.
  - destruct (has_id_spec id' x); [congruence | done].
  - destruct (has_id_spec id' x); [done | exact IH].
Qed.

Lemma ids_remove_first id db :
  sublist (map propertyId (Store.remove_first id db)) (map propertyId db).
Proof.
  induction db as [|x db IH]; cbn; [done |].
  destruct (Store.has_id id x); cbn.
  - by apply sublist_cons.
  - by apply sublist_skip.
Qed.

Lemma findOne_remove_first_eq id db :
  unique_ids db -> Store.findOne id (Store.remove_first id db) = None.
Proof.
  unfold unique_ids. intros Hu. apply findOne_None.
  induction db as [|x db IH]; cbn; [tauto |].
  apply NoDup_cons in Hu as [Hx Hu].
  destruct (has_id_spec id x) as [<-|Hne].
  - by rewrite <- list_elem_of_In.
  - cbn. intros [?|?]; [done | by apply IH].
Qed.

Lemma unique_replace_first id p p' db :
  unique_ids db -> Store.findOne id db = Some p ->
  propertyId p' = id \/ Store.findOne (propertyId p') db = None ->
  unique_ids (Store.replace_first id (fun _ => p') db).
Proof.
  unfold unique_ids. intros Hu Hp Hnew.
  induction db as [|x db IH]; cbn in *; [done |].
  apply NoDup_cons in Hu as [Hx Hu]. unfold Store.findOne in Hp, Hnew.
  cbn in Hp, Hnew.
  destruct (has_id_spec id x) as [Hid|Hid]; cbn.
  - apply NoDup_cons. split; [|done].
    destruct Hnew as [->|Hnone]; [by rewrite <- Hid |].
    destruct (has_id_spec (propertyId p') x); [done |].
    apply findOne_None in Hnone. by rewrite list_elem_of_In.
  - assert (propertyId x <> propertyId p') as Hxp.
    { destruct Hnew as [->|Hnone]; [done |].
      by destruct (has_id_spec (propertyId p') x). }
    assert (propertyId p' = id \/ Store.findOne (propertyId p') db = None)
      as Hnew'.
    { destruct Hnew as [?|Hnone]; [by left | right].
      by destruct (has_id_spec (propertyId p') x). }
    apply NoDup_cons. split; [|by apply IH].
    rewrite list_elem_of_In. rewrite list_elem_of_In in Hx. clear -Hx Hxp.
    induction db as [|y db IH]; cbn; [tauto |].
    destruct (Store.has_id id y); cbn in *; intros [?|?];
      try tauto; try congruence.
Qed.

Lemma findOne_replace_first_new id p p' db :
  Store.findOne id db = Some p ->
  propertyId p' = id \/ Store.findOne (propertyId p') db = None ->
  Store.findOne (propertyId p') (Store.replace_first id (fun _ => p') db)
  = Some p'.
Proof.
  unfold Store.findOne. intros Hp Hnew.
  induction db as [|x db IH]; cbn in *; [done |].
  destruct (has_id_spec id x) as [Hid|Hid]; cbn.
  - by destruct (has_id_spec (propertyId p') p').
  - destruct (has_id_spec (propertyId p') x) as [Hx|Hx].
    + destruct Hnew as [?|?]; [congruence | done].
    + apply IH; [done |]. destruct Hnew; [by left | by right].
Qed.

Lemma findOne_replace_first_other id id' p' db :
  id' <> id -> id' <> propertyId p' ->
  Store.findOne id' (Store.replace_first id (fun _ => p') db)
  = Store.findOne id' db.
Proof.
  unfold Store.findOne. intros H1 H2.
  induction db as [|x db IH]; cbn; [done |].
  destruct (has_id_spec id x) as [Hid|Hid]; cbn.
  - destruct (has_id_spec id' p'); [congruence |].
    destruct (has_id_spec id' x); [congruence | done].
  - destruct (has_id_spec id' x); [done | exact IH].
Qed.

Lemma invalidate_run id code v w :
  (cache (CacheService.del (CACHE_KEYS.PROPERTY id)) ;;
   cache (CacheService.delByPattern "properties:*") ;;
   cache (CacheService.delByPattern "search:*") ;;
   respond code v) w =
  (Returned {| status := code; body := v |},
   {| properties := properties w; users := users w;
      redis := invalidate_listing id (redis w) |}).
Proof.
  unfold bind, cache, invalidate_listing. cbn [redis properties users].
  rewrite del_returns. cbn [snd redis properties users].
  rewrite delByPattern_returns. cbn [snd redis properties users].
  rewrite delByPattern_returns. cbn [snd]. done.
Qed.

Lemma findOneAndUpdate_found Date_parse id d db p :
  Store.findOne id db = Some p ->
  let p' := Store.assign Date_parse d p in
  (Store.findOneAndUpdate Date_parse id d db =
     (Returned (Some p'), Store.replace_first id (fun _ => p') db) /\
   (propertyId p' = id \/ Store.findOne (propertyId p') db = None)) \/
  (exists e, Store.findOneAndUpdate Date_parse id d db = (Thrown e, db)).
Proof.
  intros Hp p'. unfold Store.findOneAndUpdate. rewrite Hp. fold p'.
  clearbody p'.
  assert (propertyId p' = id \/ Store.findOne (propertyId p') db = None \/
          negb (propertyId p' =? id)%string &&
          bool_decide (is_Some (Store.findOne (propertyId p') db)) = true)
    as Hdup.
  { destruct (String.eqb_spec (propertyId p') id); [by left | right].
    destruct (Store.findOne (propertyId p') db) eqn:E; [right | by left].
    cbn [negb andb]. apply bool_decide_eq_true_2. eauto. }
  destruct (d_availableFrom d) as [a|];
    [destruct (Store.valid_date Date_parse (Some a)); [|right; eauto] |];
    (destruct Hdup as [Hd|[Hd|Hd]];
     [left; split; [|by left];
      apply String.eqb_eq in Hd; by rewrite Hd
     |left; split; [|by right]; rewrite Hd;
      rewrite (bool_decide_eq_false_2 (is_Some None));
      [by rewrite andb_false_r | by intros [? ?]]
     |right; rewrite Hd; eauto]).
Qed.

(** What an update that answers 200 has done. *)
Lemma updateProperty_200 Date_parse user id data w resp w' :
  updateProperty Date_parse user id data w = (resp, w') ->
  status resp = 200 ->
  exists uid p,
    user = Some uid /\ Store.findOne id (properties w) = Some p /\
    createdBy p = Some uid /\
    let p' := Store.assign Date_parse data p in
    body resp = VDoc p' /\
    (propertyId p' = id \/
     Store.findOne (propertyId p') (properties w) = None) /\
    properties w' = Store.replace_first id (fun _ => p') (properties w) /\
    users w' = users w /\
    redis w' = invalidate_listing id (redis w).
Proof.
  intros Hrun Hst. unfold updateProperty, handler in Hrun.
  destruct user as [uid|]; [|injection Hrun as <- <-; done].
  unfold bind at 1, gets at 1 in Hrun.
  destruct (Store.findOne id (properties w)) as [p|] eqn:Hp;
    [|injection Hrun as <- <-; done].
  destruct (bool_decide (createdBy p = Some uid)) eqn:Hown; cbn [negb] in Hrun;
    [|injection Hrun as <- <-; done].
  apply bool_decide_eq_true in Hown.
  unfold bind at 1, listings at 1 in Hrun.
  destruct (findOneAndUpdate_found Date_parse id data (properties w) p Hp)
    as [[Heq Hnew]|[e Heq]]; rewrite Heq in Hrun;
    [|injection Hrun as <- <-; done].
  rewrite invalidate_run in Hrun. injection Hrun as <- <-.
  exists uid, p. repeat split; done.
Qed.

(** An update that does not answer 200 has done nothing. *)
Lemma updateProperty_failed Date_parse user id data w resp w' :
  updateProperty Date_parse user id data w = (resp, w') ->
  status resp <> 200 ->
  w' = w /\
  (status resp = 401 \/ status resp = 404 \/ status resp = 403 \/
   status resp = 500).
Proof.
  intros Hrun Hst. unfold updateProperty, handler in Hrun.
  destruct user as [uid|]; [|injection Hrun as <- <-; auto].
  unfold bind at 1, gets at 1 in Hrun.
  destruct (Store.findOne id (properties w)) as [p|] eqn:Hp;
    [|injection Hrun as <- <-; auto].
  destruct (bool_decide (createdBy p = Some uid)) eqn:Hown; cbn [negb] in Hrun;
    [|injection Hrun as <- <-; auto].
  unfold bind at 1, listings at 1 in Hrun.
  destruct (findOneAndUpdate_found Date_parse id data (properties w) p Hp)
    as [[Heq Hnew]|[e Heq]]; rewrite Heq in Hrun.
  - rewrite invalidate_run in Hrun. injection Hrun as <- <-. done.
  - injection Hrun as <- <-. rewrite world_eta. auto 6.
Qed.

(** What a deletion that answers 200 has done. *)
Lemma deleteProperty_200 user id w resp w' :
  deleteProperty user id w = (resp, w') ->
  status resp = 200 ->
  exists uid p,
    user = Some uid /\ Store.findOne id (properties w) = Some p /\
    createdBy p = Some uid /\
    body resp = VMessage "Property deleted" /\
    properties w' = Store.remove_first id (properties w) /\
    users w' = users w /\
    redis w' = invalidate_listing id (redis w).
Proof.
  intros Hrun Hst. unfold deleteProperty, handler in Hrun.
  destruct user as [uid|]; [|injection Hrun as <- <-; done].
  unfold bind at 1, gets at 1 in Hrun.
  destruct (Store.findOne id (properties w)) as [p|] eqn:Hp;
    [|injection Hrun as <- <-; done].
  destruct (bool_decide (createdBy p = Some uid)) eqn:Hown; cbn [negb] in Hrun;
    [|injection Hrun as <- <-; done].
  apply bool_decide_eq_true in Hown.
  unfold bind at 1, listings at 1 in Hrun.
  rewrite invalidate_run in Hrun. injection Hrun as <- <-.
  exists uid, p. repeat split; done.
Qed.

(** A deletion that does not answer 200 has done nothing. *)
Lemma deleteProperty_failed user id w resp w' :
  deleteProperty user id w = (resp, w') ->
  status resp <> 200 ->
  w' = w /\
  (status resp = 401 \/ status resp = 404 \/ status resp = 403).
Proof.
  intros Hrun Hst. unfold deleteProperty, handler in Hrun.
  destruct user as [uid|]; [|injection Hrun as <- <-; auto].
  unfold bind at 1, gets at 1 in Hrun.
  destruct (Store.findOne id (properties w)) as [p|] eqn:Hp;
    [|injection Hrun as <- <-; auto].
  destruct (bool_decide (createdBy p = Some uid)) eqn:Hown; cbn [negb] in Hrun;
    [|injection Hrun as <- <-; auto].
  unfold bind at 1, listings at 1 in Hrun.
  rewrite invalidate_run in Hrun. injection Hrun as <- <-. done.
Qed.

Lemma findOne_app_other id db p :
  propertyId p <> id ->
  Store.findOne id (db ++ [p]) = Store.findOne id db.
Proof.
  intros Hne. unfold Store.findOne. induction db as [|x db IH]; cbn.
  - by destruct (has_id_spec id p).
  - by destruct (Store.has_id id x).
Qed.

Lemma invalidate_collection_served r :
  Redis.healthy r = true ->
  Redis.kv (invalidate_collection r) =
  swept "search:*" (swept "properties:*" (Redis.kv r)).
Proof.
  intros Hh. unfold invalidate_collection.
  destruct (delByPattern_eq "properties:*" r) as (m1 & f1 & E1 & _ & H1).
  rewrite E1. destruct (H1 Hh) as [-> Hh1]. cbn [snd].
  destruct (delByPattern_eq "search:*"
              (Redis.mk (swept "properties:*" (Redis.kv r)) f1))
    as (m2 & f2 & E2 & _ & H2).
  rewrite E2. by destruct (H2 Hh1) as [-> _].
Qed.

(** X1: with the Redis commands served, a creation that answers 201 leaves
    nothing cached under the collection key and under any search key, and
    leaves every cached single listing where it is. *)
Theorem creation_invalidates_collection_and_searches
    (Date_parse : string -> Js.num) (user : option string)
    (data : PropertyData) (draw : N) (w w' : World) (resp : Response) :
  Redis.healthy (redis w) = true ->
  createProperty Date_parse user data draw w = (resp, w') ->
  status resp = 201 ->
  Redis.kv (redis w') !! CACHE_KEYS.PROPERTIES = None /\
  (forall query, Redis.kv (redis w') !! CACHE_KEYS.SEARCH query = None) /\
  (forall id,
     Redis.kv (redis w') !! CACHE_KEYS.PROPERTY id =
     Redis.kv (redis w) !! CACHE_KEYS.PROPERTY id).
Proof.
  intros Hh Hrun Hst.
  destruct (createProperty_201 _ _ _ _ _ _ _ Hrun Hst)
    as (uid & p & _ & _ & _ & _ & _ & _ & _ & ->).
  rewrite (invalidate_collection_served _ Hh).
  repeat split.
  - rewrite !lookup_swept, glob_collection_key.
    by destruct (Redis.glob "search:*" CACHE_KEYS.PROPERTIES).
  - intros query. by rewrite lookup_swept, glob_search_key.
  - intros id.
    by rewrite !lookup_swept, glob_search_single, glob_collection_single.
Qed.

Lemma creation_invalidates_collection_and_searches_witness :
  let w' :=
    (createProperty Sample.epoch (Some "u1") Sample.cottage 4242%N
       Sample.served).2 in
  Redis.kv (redis w') !! CACHE_KEYS.PROPERTIES = None /\
  Redis.kv (redis w') !! CACHE_KEYS.SEARCH "{}" = None /\
  Redis.kv (redis w') !! CACHE_KEYS.PROPERTY "PROP1001" =
    Some ("villa at 100", 3600).
Proof.
  destruct (creation_invalidates_collection_and_searches Sample.epoch
              (Some "u1") Sample.cottage 4242%N Sample.served
              (createProperty Sample.epoch (Some "u1") Sample.cottage 4242%N
                 Sample.served).2
              (createProperty Sample.epoch (Some "u1") Sample.cottage 4242%N
                 Sample.served).1)
    as (Hall & Hsearch & Hone);
    [reflexivity | apply surjective_pairing | reflexivity |].
  split; [exact Hall |]. split; [apply Hsearch |].
  rewrite Hone. reflexivity.
Defined.

(** X2: a creation that answers 201 answers with the listing it stored;
    that listing belongs to the authenticated caller whatever owner the
    body names, carries the identifier of the body (the drawn default when
    the body has none), is what a lookup of that identifier now finds, and
    no other identifier finds anything else than before. *)
Theorem created_listing_belongs_to_caller
    (Date_parse : string -> Js.num) (user : option string)
    (data : PropertyData) (draw : N) (w w' : World) (resp : Response) :
  createProperty Date_parse user data draw w = (resp, w') ->
  status resp = 201 ->
  exists p,
    body resp = VDoc p /\
    createdBy p = user /\
    propertyId p = default (fresh_id draw) (d_propertyId data) /\
    Store.findOne (propertyId p) (properties w) = None /\
    Store.findOne (propertyId p) (properties w') = Some p /\
    (forall id, id <> propertyId p ->
       Store.findOne id (properties w') = Store.findOne id (properties w)) /\
    users w' = users w.
Proof.
  intros Hrun Hst.
  destruct (createProperty_201 _ _ _ _ _ _ _ Hrun Hst)
    as (uid & p & -> & Hb & Hc & Hi & Hfree & Hdb & Hu & _).
  exists p. rewrite Hdb, Hc. repeat split; try done.
  - by apply findOne_appended.
  - intros id Hne. by apply findOne_app_other.
Qed.

Lemma created_listing_belongs_to_caller_witness :
  let out :=
    createProperty Sample.epoch (Some "u1") (Demo.claimed "PROP3000" "u2")
      7%N Sample.served in
  exists p,
    body out.1 = VDoc p /\ createdBy p = Some "u1" /\
    propertyId p = "PROP3000" /\
    Store.findOne "PROP3000" (properties out.2) = Some p.
Proof.
  destruct (created_listing_belongs_to_caller Sample.epoch (Some "u1")
              (Demo.claimed "PROP3000" "u2") 7%N Sample.served
              (createProperty Sample.epoch (Some "u1")
                 (Demo.claimed "PROP3000" "u2") 7%N Sample.served).2
              (createProperty Sample.epoch (Some "u1")
                 (Demo.claimed "PROP3000" "u2") 7%N Sample.served).1)
    as (p & Hb & Hc & Hi & _ & Hf & _);
    [apply surjective_pairing | reflexivity |].
  exists p. split; [exact Hb |]. split; [exact Hc |].
  split; [exact Hi |]. rewrite Hi in Hf. exact Hf.
Defined.

(** X3: a creation that does not answer 201 (no authenticated user, a body
    the schema refuses, an identifier already taken) answers 401 or 500
    and changes nothing: the store is as before and no cache command has
    been issued. *)
Theorem failed_creation_changes_nothing
    (Date_parse : string -> Js.num) (user : option string)
    (data : PropertyData) (draw : N) (w w' : World) (resp : Response) :
  createProperty Date_parse user data draw w = (resp, w') ->
  status resp <> 201 ->
  w' = w /\ (status resp = 401 \/ status resp = 500).
Proof. apply createProperty_failed. Qed.

Lemma failed_creation_changes_nothing_witness :
  createProperty Sample.epoch (Some "u1") (Demo.claimed "PROP1001" "u1") 7%N
    Sample.served =
  ({| status := 500; body := VError "Failed to create property" |},
   Sample.served).
Proof.
  destruct (failed_creation_changes_nothing Sample.epoch (Some "u1")
              (Demo.claimed "PROP1001" "u1") 7%N Sample.served
              (createProperty Sample.epoch (Some "u1")
                 (Demo.claimed "PROP1001" "u1") 7%N Sample.served).2
              (createProperty Sample.epoch (Some "u1")
                 (Demo.claimed "PROP1001" "u1") 7%N Sample.served).1)
    as [Hw _]; [apply surjective_pairing | vm_compute; discriminate |].
  rewrite (surjective_pairing (createProperty _ _ _ _ _)), Hw.
  reflexivity.
Defined.

(** X4: nobody but the creator of a listing can change or delete it: when
    the caller is not authenticated or is not the user who created the
    listing, update and delete answer 401 or 403 and leave the store and
    the cache exactly as they were. A listing without a creator (an
    imported one) can therefore be changed by no one. *)
Theorem only_creator_mutates
    (Date_parse : string -> Js.num) (user : option string) (id : string)
    (data : PropertyData) (w : World) (p : Property) :
  Store.findOne id (properties w) = Some p ->
  (forall uid, user = Some uid -> createdBy p <> Some uid) ->
  let denied := match user with Some _ => 403 | None => 401 end in
  (exists v, updateProperty Date_parse user id data w =
             ({| status := denied; body := v |}, w)) /\
  (exists v, deleteProperty user id w =
             ({| status := denied; body := v |}, w)).
Proof.
  intros Hp Hnot. cbv zeta.
  unfold updateProperty, deleteProperty, handler, bind, gets.
  destruct user as [uid|]; [|split; eexists; reflexivity].
  rewrite Hp. rewrite bool_decide_eq_false_2 by by apply Hnot.
  split; eexists; reflexivity.
Qed.

Lemma only_creator_mutates_witness :
  (exists v, updateProperty Sample.epoch (Some "u1") "PROP1002"
               (Sample.new_price 1) Sample.served =
             ({| status := 403; body := v |}, Sample.served)) /\
  (exists v, deleteProperty (Some "u1") "PROP1002" Sample.served =
             ({| status := 403; body := v |}, Sample.served)).
Proof.
  apply (only_creator_mutates Sample.epoch (Some "u1") "PROP1002"
           (Sample.new_price 1) Sample.served Sample.flat);
    [reflexivity | intros uid [= <-]; discriminate].
Defined.

Lemma sample_unique : unique_ids (properties Sample.served).
Proof.
  unfold unique_ids. cbn. apply NoDup_cons. split; [|apply NoDup_singleton].
  apply not_elem_of_cons. split; [discriminate | apply not_elem_of_nil].
Qed.

(** X5: in a store whose identifiers are distinct, a deletion that answers
    200 removes the listing (a lookup of its identifier finds nothing),
    leaves every other lookup as it was, shortens the collection by one
    and touches no user. *)
Theorem deletion_removes_the_listing
    (user : option string) (id : string) (w w' : World) (resp : Response) :
  unique_ids (properties w) ->
  deleteProperty user id w = (resp, w') ->
  status resp = 200 ->
  Store.findOne id (properties w') = None /\
  (forall id', id' <> id ->
     Store.findOne id' (properties w') = Store.findOne id' (properties w)) /\
  S (List.length (properties w')) = List.length (properties w) /\
  users w' = users w.
Proof.
  intros Hu Hrun Hst.
  destruct (deleteProperty_200 _ _ _ _ _ Hrun Hst)
    as (uid & p & _ & Hp & _ & _ & -> & -> & _).
  split; [by apply findOne_remove_first_eq |].
  split; [intros; by apply findOne_remove_first_ne |].
  split; [|done].
  clear -Hp. unfold Store.findOne in Hp.
  induction (properties w) as [|x db IH]; cbn in *; [done |].
  destruct (Store.has_id id x); [done |]. cbn. by rewrite IH.
Qed.

Lemma deletion_removes_the_listing_witness :
  let w' := (deleteProperty (Some "u1") "PROP1001" Sample.served).2 in
  Store.findOne "PROP1001" (properties w') = None /\
  Store.findOne "PROP1002" (properties w') = Some Sample.flat /\
  users w' = users Sample.served.
Proof.
  destruct (deletion_removes_the_listing (Some "u1") "PROP1001"
              Sample.served
              (deleteProperty (Some "u1") "PROP1001" Sample.served).2
              (deleteProperty (Some "u1") "PROP1001" Sample.served).1)
    as (Hgone & Hother & _ & Husers);
    [exact sample_unique | apply surjective_pairing | reflexivity |].
  split; [exact Hgone |]. split; [|exact Husers].
  rewrite Hother; [reflexivity | discriminate].
Defined.

(** X6: an update that answers 200 answers with the stored listing, which
    is the old one with the fields of the body written over it; that
    listing is what a lookup of its identifier now finds, lookups of other
    identifiers and the size of the collection are unchanged, and a field
    the body does not carry keeps its value (shown for the price and the
    creator). *)
Theorem update_rewrites_the_listing
    (Date_parse : string -> Js.num) (user : option string) (id : string)
    (data : PropertyData) (w w' : World) (resp : Response) :
  updateProperty Date_parse user id data w = (resp, w') ->
  status resp = 200 ->
  exists p p',
    Store.findOne id (properties w) = Some p /\
    p' = Store.assign Date_parse data p /\
    body resp = VDoc p' /\
    Store.findOne (propertyId p') (properties w') = Some p' /\
    (forall id', id' <> id -> id' <> propertyId p' ->
       Store.findOne id' (properties w') = Store.findOne id' (properties w)) /\
    List.length (properties w') = List.length (properties w) /\
    users w' = users w /\
    price p' = default (price p) (d_price data) /\
    (d_createdBy data = None -> createdBy p' = createdBy p) /\
    (d_propertyId data = None -> propertyId p' = id).
Proof.
  intros Hrun Hst.
  destruct (updateProperty_200 _ _ _ _ _ _ _ Hrun Hst)
    as (uid & p & _ & Hp & _ & Hb & Hnew & -> & -> & _).
  exists p, (Store.assign Date_parse data p).
  repeat split; try done.
  - by eapply findOne_replace_first_new.
  - intros id' H1 H2. by apply findOne_replace_first_other.
  - clear. induction (properties w) as [|x db IH]; cbn; [done |].
    destruct (Store.has_id id x); cbn; [done | by rewrite IH].
  - cbn. by intros ->.
  - cbn. intros ->. cbn. by apply findOne_Some in Hp as [-> _].
Qed.

Lemma update_rewrites_the_listing_witness :
  let out :=
    updateProperty Sample.epoch (Some "u1") "PROP1001" (Sample.new_price 500)
      Sample.served in
  exists p',
    body out.1 = VDoc p' /\ price p' = 500 /\
    createdBy p' = Some "u1" /\ title p' = "Sea view villa" /\
    Store.findOne "PROP1001" (properties out.2) = Some p' /\
    Store.findOne "PROP1002" (properties out.2) = Some Sample.flat.
Proof.
  destruct (update_rewrites_the_listing Sample.epoch (Some "u1") "PROP1001"
              (Sample.new_price 500) Sample.served
              (updateProperty Sample.epoch (Some "u1") "PROP1001"
                 (Sample.new_price 500) Sample.served).2
              (updateProperty Sample.epoch (Some "u1") "PROP1001"
                 (Sample.new_price 500) Sample.served).1)
    as (p & p' & Hp & Hp' & Hb & Hf & Hother & _ & _ & Hprice & Hc & Hi);
    [apply surjective_pairing | reflexivity |].
  injection Hp as <-.
  exists p'. split; [exact Hb |]. split; [exact Hprice |].
  split; [exact (Hc eq_refl) |]. split; [by rewrite Hp' |].
  rewrite (Hi eq_refl) in Hf. split; [exact Hf |].
  rewrite Hother; [reflexivity | discriminate |].
  rewrite (Hi eq_refl). discriminate.
Defined.

(** An update by the creator that the store accepts. *)
Lemma updateProperty_by_creator Date_parse uid id data w p p' db' :
  Store.findOne id (properties w) = Some p ->
  createdBy p = Some uid ->
  Store.findOneAndUpdate Date_parse id data (properties w) =
    (Returned (Some p'), db') ->
  updateProperty Date_parse (Some uid) id data w =
  ({| status := 200; body := VDoc p' |},
   {| properties := db'; users := users w;
      redis := invalidate_listing id (redis w) |}).
Proof.
  intros Hp Hown Hupd. unfold updateProperty, handler.
  unfold bind at 1, gets at 1. rewrite Hp.
  rewrite (bool_decide_eq_true_2 _ Hown). cbn [negb].
  unfold bind at 1, listings at 1. rewrite Hupd.
  rewrite invalidate_run. reflexivity.
Qed.

(** A deletion by the creator. *)
Lemma deleteProperty_by_creator uid id w p :
  Store.findOne id (properties w) = Some p ->
  createdBy p = Some uid ->
  deleteProperty (Some uid) id w =
  ({| status := 200; body := VMessage "Property deleted" |},
   {| properties := Store.remove_first id (properties w); users := users w;
      redis := invalidate_listing id (redis w) |}).
Proof.
  intros Hp Hown. unfold deleteProperty, handler.
  unfold bind at 1, gets at 1. rewrite Hp.
  rewrite (bool_decide_eq_true_2 _ Hown). cbn [negb].
  unfold bind at 1, listings at 1. rewrite invalidate_run. reflexivity.
Qed.

(** A body without a date and without an identifier is accepted. *)
Lemma findOneAndUpdate_plain Date_parse id data db p :
  Store.findOne id db = Some p ->
  d_availableFrom data = None -> d_propertyId data = None ->
  Store.findOneAndUpdate Date_parse id data db =
  (Returned (Some (Store.assign Date_parse data p)),
   Store.replace_first id (fun _ => Store.assign Date_parse data p) db).
Proof.
  intros Hp Hd Hi. unfold Store.findOneAndUpdate. rewrite Hd, Hp.
  cbn [Store.valid_date]. cbn [Store.assign propertyId]. rewrite Hi.
  cbn [default]. apply findOne_Some in Hp as [-> _].
  by rewrite String.eqb_refl.
Qed.

(** X7: the body of an update is written to the listing as it comes, the
    creator included: the creator can hand a listing over to another
    user, after which the former owner is refused (403) and the new owner
    can change it: an update of the new owner that carries no date and no
    identifier answers 200 with the listing rewritten, and the new owner
    can delete the listing. *)
Theorem update_hands_the_listing_over
    (Date_parse : string -> Js.num) (uid other id : string)
    (data data' : PropertyData) (w w' : World) (resp : Response) :
  updateProperty Date_parse (Some uid) id data w = (resp, w') ->
  status resp = 200 ->
  d_createdBy data = Some other -> other <> uid ->
  d_propertyId data = None ->
  (exists v, updateProperty Date_parse (Some uid) id data' w' =
             ({| status := 403; body := v |}, w')) /\
  (exists v, deleteProperty (Some uid) id w' =
             ({| status := 403; body := v |}, w')) /\
  exists p', Store.findOne id (properties w') = Some p' /\
             createdBy p' = Some other /\
    (d_availableFrom data' = None -> d_propertyId data' = None ->
     let p'' := Store.assign Date_parse data' p' in
     let out := updateProperty Date_parse (Some other) id data' w' in
     out.1 = {| status := 200; body := VDoc p'' |} /\
     Store.findOne id (properties out.2) = Some p'') /\
    (let out := deleteProperty (Some other) id w' in
     out.1 = {| status := 200; body := VMessage "Property deleted" |} /\
     properties out.2 = Store.remove_first id (properties w')).
Proof.
  intros Hrun Hst Hc Hne Hid.
  destruct (updateProperty_200 _ _ _ _ _ _ _ Hrun Hst)
    as (uid' & p & _ & Hp & _ & _ & Hnew & Hdb & _ & _).
  cbv zeta in *.
  set (p' := Store.assign Date_parse data p) in *.
  assert (propertyId p' = id) as Hpid.
  { subst p'. cbn. rewrite Hid. cbn. by apply findOne_Some in Hp as [-> _]. }
  assert (createdBy p' = Some other) as Hown.
  { subst p'. cbn. by rewrite Hc. }
  pose proof (findOne_replace_first_new id p p' (properties w) Hp Hnew) as Hf.
  rewrite Hpid, <- Hdb in Hf.
  split; [|split].
  - unfold updateProperty, handler, bind, gets. rewrite Hf, Hown.
    rewrite bool_decide_eq_false_2 by (intros [= ?]; done). eauto.
  - unfold deleteProperty, handler, bind, gets. rewrite Hf, Hown.
    rewrite bool_decide_eq_false_2 by (intros [= ?]; done). eauto.
  - exists p'. split; [exact Hf |]. split; [exact Hown |]. split.
    + intros Hd' Hi'.
      pose proof (findOneAndUpdate_plain Date_parse id data' (properties w')
                    p' Hf Hd' Hi') as Hupd.
      rewrite (updateProperty_by_creator Date_parse other id data' w' p' _ _
                 Hf Hown Hupd).
      cbn [fst snd properties]. split; [done |].
      set (p'' := Store.assign Date_parse data' p').
      assert (propertyId p'' = id) as Hpid''.
      { subst p''. cbn [Store.assign propertyId]. rewrite Hi'. cbn.
        exact Hpid. }
      pose proof (findOne_replace_first_new id p' p'' (properties w') Hf
                    (or_introl Hpid'')) as Hf'.
      by rewrite Hpid'' in Hf'.
    + by rewrite (deleteProperty_by_creator other id w' p' Hf Hown).
Qed.

Lemma update_hands_the_listing_over_witness :
  let w' :=
    (updateProperty Hex.clock (Some Hex.owner) "PROP3001"
       (Demo.hand_over Hex.heir) Hex.calm).2 in
  (exists v, updateProperty Hex.clock (Some Hex.owner) "PROP3001"
               (Sample.new_price 1) w' =
             ({| status := 403; body := v |}, w')) /\
  (price <$> Store.findOne "PROP3001"
     (properties (updateProperty Hex.clock (Some Hex.heir) "PROP3001"
                    (Sample.new_price 1) w').2)) = Some 1 /\
  status (deleteProperty (Some Hex.heir) "PROP3001" w').1 = 200.
Proof.
  destruct (update_hands_the_listing_over Hex.clock Hex.owner Hex.heir
              "PROP3001" (Demo.hand_over Hex.heir) (Sample.new_price 1)
              Hex.calm
              (updateProperty Hex.clock (Some Hex.owner) "PROP3001"
                 (Demo.hand_over Hex.heir) Hex.calm).2
              (updateProperty Hex.clock (Some Hex.owner) "PROP3001"
                 (Demo.hand_over Hex.heir) Hex.calm).1)
    as (Hold & _ & p' & Hp' & _ & Hupd & Hdel);
    [apply surjective_pairing | reflexivity | reflexivity | discriminate
    | reflexivity |].
  cbv zeta. split; [exact Hold |].
  destruct (Hupd eq_refl eq_refl) as [_ Hfound]. destruct Hdel as [Hdel _].
  split; [cbv zeta in Hfound; by rewrite Hfound | cbv zeta in Hdel; by rewrite Hdel].
Defined.

(** X8: the identifiers of the store stay pairwise distinct: whatever the
    request and its outcome, a creation, an update (even one that renames
    the listing) and a deletion take a store with distinct identifiers to
    a store with distinct identifiers. *)
Theorem identifiers_stay_unique
    (Date_parse : string -> Js.num) (user : option string) (id : string)
    (data : PropertyData) (draw : N) (w : World) :
  unique_ids (properties w) ->
  unique_ids (properties (createProperty Date_parse user data draw w).2) /\
  unique_ids (properties (updateProperty Date_parse user id data w).2) /\
  unique_ids (properties (deleteProperty user id w).2).
Proof.
  intros Hu. repeat split.
  - destruct (createProperty Date_parse user data draw w) as [resp w'] eqn:Hrun.
    destruct (decide (status resp = 201)) as [Hst|Hst].
    + destruct (createProperty_201 _ _ _ _ _ _ _ Hrun Hst)
        as (uid & p & _ & _ & _ & _ & Hfree & Hdb & _).
      cbn [snd]. rewrite Hdb. unfold unique_ids. rewrite map_app.
      apply NoDup_app. split; [done |]. split; [|apply NoDup_singleton].
      intros x Hx Hx'. apply list_elem_of_singleton in Hx' as ->.
      apply findOne_None in Hfree. by apply Hfree, list_elem_of_In.
    + by destruct (createProperty_failed _ _ _ _ _ _ _ Hrun Hst) as [-> _].
  - destruct (updateProperty Date_parse user id data w) as [resp w'] eqn:Hrun.
    destruct (decide (status resp = 200)) as [Hst|Hst].
    + destruct (updateProperty_200 _ _ _ _ _ _ _ Hrun Hst)
        as (uid & p & _ & Hp & _ & _ & Hnew & Hdb & _).
      cbn [snd]. rewrite Hdb. by eapply unique_replace_first.
    + by destruct (updateProperty_failed _ _ _ _ _ _ _ Hrun Hst) as [-> _].
  - destruct (deleteProperty user id w) as [resp w'] eqn:Hrun.
    destruct (decide (status resp = 200)) as [Hst|Hst].
    + destruct (deleteProperty_200 _ _ _ _ _ Hrun Hst)
        as (uid & p & _ & _ & _ & _ & Hdb & _).
      cbn [snd]. rewrite Hdb. unfold unique_ids in *.
      eapply sublist_NoDup; [done | apply ids_remove_first].
    + by destruct (deleteProperty_failed _ _ _ _ _ Hrun Hst) as [-> _].
Qed.

Lemma identifiers_stay_unique_witness :
  unique_ids
    (properties
       (createProperty Sample.epoch (Some "u1") Sample.cottage 7%N
          Sample.served).2) /\
  unique_ids
    (properties
       (updateProperty Sample.epoch (Some "u1") "PROP1001"
          Sample.cottage Sample.served).2) /\
  unique_ids (properties (deleteProperty (Some "u1") "PROP1001"
                            Sample.served).2).
Proof.
  apply (identifiers_stay_unique Sample.epoch (Some "u1") "PROP1001"
           Sample.cottage 7%N Sample.served sample_unique).
Defined.

Lemma key_apart_filters id : CACHE_KEYS.PROPERTY id <> CACHE_KEYS.FILTERS.
Proof.
  unfold CACHE_KEYS.PROPERTY, CACHE_KEYS.FILTERS. push_append. discriminate.
Qed.

Lemma key_apart_favorites id uid :
  CACHE_KEYS.PROPERTY id <> CACHE_KEYS.USER_FAVORITES uid.
Proof.
  unfold CACHE_KEYS.PROPERTY, CACHE_KEYS.USER_FAVORITES. push_append.
  discriminate.
Qed.

(** The keys that no listing mutation touches: neither the single-listing
    key of the mutation nor a key of the two swept families. *)
Lemma invalidate_listing_keeps id key r :
  key <> CACHE_KEYS.PROPERTY id ->
  Redis.glob "properties:*" key = false ->
  Redis.glob "search:*" key = false ->
  Redis.kv (invalidate_listing id r) !! key = Redis.kv r !! key.
Proof.
  intros Hk H1 H2. unfold invalidate_listing.
  rewrite (delByPattern_keeps "search:*" key _ H2).
  rewrite (delByPattern_keeps "properties:*" key _ H1).
  rewrite del_eq. cbn [snd after Redis.kv].
  destruct (next_fault r); [done |]. by rewrite lookup_delete_ne.
Qed.

Lemma invalidate_collection_keeps key r :
  Redis.glob "properties:*" key = false ->
  Redis.glob "search:*" key = false ->
  Redis.kv (invalidate_collection r) !! key = Redis.kv r !! key.
Proof.
  intros H1 H2. unfold invalidate_collection.
  rewrite (delByPattern_keeps "search:*" key _ H2).
  by rewrite (delByPattern_keeps "properties:*" key _ H1).
Qed.

Lemma listing_mutation_keeps Date_parse user id data draw w key :
  (forall id', key <> CACHE_KEYS.PROPERTY id') ->
  Redis.glob "properties:*" key = false ->
  Redis.glob "search:*" key = false ->
  Redis.kv (redis (createProperty Date_parse user data draw w).2) !! key
    = Redis.kv (redis w) !! key /\
  Redis.kv (redis (updateProperty Date_parse user id data w).2) !! key
    = Redis.kv (redis w) !! key /\
  Redis.kv (redis (deleteProperty user id w).2) !! key
    = Redis.kv (redis w) !! key.
Proof.
  intros Hk H1 H2. repeat split.
  - destruct (createProperty Date_parse user data draw w) as [resp w'] eqn:Hrun.
    destruct (decide (status resp = 201)) as [Hst|Hst].
    + destruct (createProperty_201 _ _ _ _ _ _ _ Hrun Hst)
        as (uid & p & _ & _ & _ & _ & _ & _ & _ & Hr).
      cbn [snd]. rewrite Hr. apply invalidate_collection_keeps; assumption.
    + destruct (createProperty_failed _ _ _ _ _ _ _ Hrun Hst) as [-> _].
      reflexivity.
  - destruct (updateProperty Date_parse user id data w) as [resp w'] eqn:Hrun.
    destruct (decide (status resp = 200)) as [Hst|Hst].
    + destruct (updateProperty_200 _ _ _ _ _ _ _ Hrun Hst)
        as (uid & p & _ & _ & _ & _ & _ & _ & _ & Hr).
      cbn [snd]. rewrite Hr. apply invalidate_listing_keeps; [apply Hk | assumption | assumption].
    + destruct (updateProperty_failed _ _ _ _ _ _ _ Hrun Hst) as [-> _].
      reflexivity.
  - destruct (deleteProperty user id w) as [resp w'] eqn:Hrun.
    destruct (decide (status resp = 200)) as [Hst|Hst].
    + destruct (deleteProperty_200 _ _ _ _ _ Hrun Hst)
        as (uid & p & _ & _ & _ & _ & _ & _ & Hr).
      cbn [snd]. rewrite Hr. apply invalidate_listing_keeps; [apply Hk | assumption | assumption].
    + destruct (deleteProperty_failed _ _ _ _ _ Hrun Hst) as [-> _].
      reflexivity.
Qed.

(** X9: no listing mutation invalidates the cached filter options or the
    cached favourites of a user: after a creation, an update or a
    deletion, whatever its outcome, the entries under [filters:all] and
    under every [user:<id>:favorites] key are the ones that were there, so
    a new amenity or a changed price does not show in them before they
    expire. *)
Theorem listing_mutations_keep_filters_and_favorites
    (Date_parse : string -> Js.num) (user : option string) (id : string)
    (data : PropertyData) (draw : N) (w : World) (key : string) :
  key = CACHE_KEYS.FILTERS \/ (exists uid, key = CACHE_KEYS.USER_FAVORITES uid) ->
  Redis.kv (redis (createProperty Date_parse user data draw w).2) !! key
    = Redis.kv (redis w) !! key /\
  Redis.kv (redis (updateProperty Date_parse user id data w).2) !! key
    = Redis.kv (redis w) !! key /\
  Redis.kv (redis (deleteProperty user id w).2) !! key
    = Redis.kv (redis w) !! key.
Proof.
  intros Hkey. apply listing_mutation_keeps.
  - intros id'. destruct Hkey as [->|[uid ->]]; intros H; symmetry in H;
      [by apply key_apart_filters in H | by apply key_apart_favorites in H].
  - by destruct Hkey as [->|[uid ->]].
  - by destruct Hkey as [->|[uid ->]].
Qed.

Lemma listing_mutations_keep_filters_and_favorites_witness :
  Redis.kv (redis (updateProperty Sample.epoch (Some "u1") "PROP1001"
                     (Sample.new_price 500) Demo.stocked).2)
    !! CACHE_KEYS.USER_FAVORITES "u1" = Some ("flat at 200", 3600) /\
  Redis.kv (redis (createProperty Sample.epoch (Some "u1") Sample.cottage
                     7%N Demo.stocked).2)
    !! CACHE_KEYS.FILTERS = Some ("types: Villa, Apartment", 3600).
Proof.
  destruct (listing_mutations_keep_filters_and_favorites Sample.epoch
              (Some "u1") "PROP1001" (Sample.new_price 500) 7%N Demo.stocked
              (CACHE_KEYS.USER_FAVORITES "u1")) as (_ & Hu & _);
    [right; by exists "u1" |].
  destruct (listing_mutations_keep_filters_and_favorites Sample.epoch
              (Some "u1") "PROP1001" Sample.cottage 7%N Demo.stocked
              CACHE_KEYS.FILTERS) as (Hc & _ & _); [by left |].
  split; [rewrite Hu | rewrite Hc]; reflexivity.
Defined.

(** ** The cache-aside accessors *)

Lemma get_hit JSON_parse key text w :
  cached_as JSON_parse key text w ->
  cache (CacheService.get JSON_parse key) w =
    (Returned (Some (VParsed text)), after_read w) /\
  CacheService.hit JSON_parse (Some (VParsed text)) = Some (VParsed text).
Proof.
  intros ([expiry Hk] & Ht & Hp & Hf). split.
  - unfold cache, CacheService.get, try_catch, bind, Client.get.
    rewrite command_eq, Hf. cbn [fst snd]. rewrite Hk. cbn.
    rewrite Ht, Hp. done.
  - cbn. by rewrite Hp.
Qed.

(** X10: a cached value is served as it is, without the store being
    asked: when the key of the request holds a truthy JSON text and the
    read is served, each read endpoint answers 200 with that value and
    changes nothing, whatever the store holds by then (the listing may be
    gone, the collection or the favourites changed). *)
Theorem cached_value_is_served_unchecked
    (JSON_parse : string -> parsed) (JSON_stringify : value -> option string)
    (Date_parse : string -> Js.num)
    (sort_by : string -> Z -> list Property -> list Property)
    (irregular : Filter -> string -> Z -> Js.num -> Js.num ->
                 list Property -> outcome (list Property * Z))
    (text : string) (w : World) :
  let served := ({| status := 200; body := VParsed text |}, after_read w) in
  (forall id,
     cached_as JSON_parse (CACHE_KEYS.PROPERTY id) text w ->
     getPropertyById JSON_parse JSON_stringify id w = served) /\
  (cached_as JSON_parse CACHE_KEYS.PROPERTIES text w ->
   getAllProperties JSON_parse JSON_stringify w = served) /\
  (forall q,
     cached_as JSON_parse (searchKey q) text w ->
     searchProperties JSON_parse JSON_stringify Date_parse sort_by irregular
       q w = served) /\
  (cached_as JSON_parse CACHE_KEYS.FILTERS text w ->
   getFilterOptionsController JSON_parse JSON_stringify w = served) /\
  (forall uid,
     cached_as JSON_parse (CACHE_KEYS.USER_FAVORITES uid) text w ->
     getFavorites JSON_parse JSON_stringify (Some uid) w = served).
Proof.
  cbv zeta. repeat split; intros;
    match goal with
    | H : cached_as _ _ _ _ |- _ => destruct (get_hit _ _ _ _ H) as [Hg Hh]
    end;
    unfold getPropertyById, getAllProperties, searchProperties,
      getFilterOptionsController, getFavorites, handler; cbv zeta;
    unfold bind at 1; rewrite Hg, Hh; reflexivity.
Qed.

Lemma cached_value_is_served_unchecked_witness :
  let gone := (deleteProperty (Some "u1") "PROP1001" Demo.down).2 in
  let w :=
    {| properties := properties gone; users := users gone;
       redis := Redis.mk (Redis.kv (redis gone)) [] |} in
  Store.findOne "PROP1001" (properties w) = None /\
  (getPropertyById Sample.parse_any Sample.stringify_any "PROP1001" w).1 =
    {| status := 200; body := VParsed "villa at 100" |}.
Proof.
  cbv zeta. split; [reflexivity |].
  destruct (cached_value_is_served_unchecked Sample.parse_any
              Sample.stringify_any Sample.epoch Sample.unsorted
              Sample.rejects "villa at 100"
              {| properties := properties
                   (deleteProperty (Some "u1") "PROP1001" Demo.down).2;
                 users := users
                   (deleteProperty (Some "u1") "PROP1001" Demo.down).2;
                 redis := Redis.mk
                   (Redis.kv (redis
                      (deleteProperty (Some "u1") "PROP1001" Demo.down).2))
                   [] |}) as (Hone & _).
  rewrite (Hone "PROP1001"); [reflexivity |].
  split; [by exists 3600 |]. repeat split.
Defined.

Lemma get_rejected JSON_parse key r fs :
  Redis.faults r = true :: fs ->
  CacheService.get JSON_parse key r = (Returned None, Redis.mk (Redis.kv r) fs).
Proof.
  intros Hf. unfold CacheService.get, try_catch, bind, Client.get.
  rewrite command_eq. unfold next_fault, after. rewrite Hf. done.
Qed.

Lemma set_rejected JSON_stringify key v ttl r fs :
  Redis.faults r = true :: fs ->
  exists fs',
    CacheService.set JSON_stringify key v ttl r =
    (Returned tt, Redis.mk (Redis.kv r) fs').
Proof.
  intros Hf. unfold CacheService.set, try_catch, Client.set.
  destruct (JSON_stringify v).
  - rewrite command_eq. unfold next_fault, after. rewrite Hf. cbn. eauto.
  - cbn. exists (Redis.faults r). by destruct r.
Qed.

Lemma cache_get_down JSON_parse key w fs :
  Redis.faults (redis w) = true :: fs ->
  cache (CacheService.get JSON_parse key) w =
  (Returned None,
   {| properties := properties w; users := users w;
      redis := Redis.mk (Redis.kv (redis w)) fs |}).
Proof. intros Hf. unfold cache. by rewrite (get_rejected _ _ _ _ Hf). Qed.

Lemma cache_set_down JSON_stringify key v db us m fs :
  exists fs',
    cache (CacheService.set JSON_stringify key v CacheService.CACHE_TTL)
      {| properties := db; users := us; redis := Redis.mk m (true :: fs) |} =
    (Returned tt,
     {| properties := db; users := us; redis := Redis.mk m fs' |}).
Proof.
  unfold cache. cbn [redis properties users].
  destruct (set_rejected JSON_stringify key v CacheService.CACHE_TTL
              (Redis.mk m (true :: fs)) fs eq_refl) as [fs' ->].
  by exists fs'.
Qed.

Lemma getPropertyById_down JSON_parse JSON_stringify id w fs :
  Redis.faults (redis w) = true :: true :: fs ->
  exists fs',
    getPropertyById JSON_parse JSON_stringify id w =
    (match Store.findOne id (properties w) with
     | Some p => {| status := 200; body := VDoc p |}
     | None => {| status := 404; body := VMessage "Property not found" |}
     end,
     {| properties := properties w; users := users w;
        redis := Redis.mk (Redis.kv (redis w)) fs' |}).
Proof.
  intros Hf. unfold getPropertyById, handler. cbv zeta.
  unfold bind at 1. rewrite (cache_get_down _ _ _ _ Hf).
  cbn [CacheService.hit]. unfold bind at 1, gets at 1. cbn [properties].
  destruct (Store.findOne id (properties w)) as [p|]; [|by eexists].
  unfold bind.
  destruct (cache_set_down JSON_stringify (CACHE_KEYS.PROPERTY id) (VDoc p)
              (properties w) (users w) (Redis.kv (redis w)) fs) as [fs' ->].
  by exists fs'.
Qed.

Lemma getAllProperties_down JSON_parse JSON_stringify w fs :
  Redis.faults (redis w) = true :: true :: fs ->
  exists fs',
    getAllProperties JSON_parse JSON_stringify w =
    ({| status := 200; body := VDocs (properties w) |},
     {| properties := properties w; users := users w;
        redis := Redis.mk (Redis.kv (redis w)) fs' |}).
Proof.
  intros Hf. unfold getAllProperties, handler.
  unfold bind at 1. rewrite (cache_get_down _ _ _ _ Hf).
  cbn [CacheService.hit]. unfold bind at 1, gets at 1. cbn [properties].
  unfold bind.
  destruct (cache_set_down JSON_stringify CACHE_KEYS.PROPERTIES
              (VDocs (properties w)) (properties w) (users w)
              (Redis.kv (redis w)) fs) as [fs' ->].
  by exists fs'.
Qed.

Lemma getFilterOptionsController_down JSON_parse JSON_stringify w fs :
  Redis.faults (redis w) = true :: true :: fs ->
  exists fs',
    getFilterOptionsController JSON_parse JSON_stringify w =
    ({| status := 200; body := VFilters (getFilterOptions (properties w)) |},
     {| properties := properties w; users := users w;
        redis := Redis.mk (Redis.kv (redis w)) fs' |}).
Proof.
  intros Hf. unfold getFilterOptionsController, handler.
  unfold bind at 1. rewrite (cache_get_down _ _ _ _ Hf).
  cbn [CacheService.hit]. unfold bind at 1, gets at 1. cbn [properties].
  unfold bind.
  destruct (cache_set_down JSON_stringify CACHE_KEYS.FILTERS
              (VFilters (getFilterOptions (properties w))) (properties w)
              (users w) (Redis.kv (redis w)) fs) as [fs' ->].
  by exists fs'.
Qed.

Lemma getFavorites_down JSON_parse JSON_stringify uid w fs :
  Redis.faults (redis w) = true :: true :: fs ->
  exists fs',
    getFavorites JSON_parse JSON_stringify (Some uid) w =
    (match Store.findById uid (users w) with
     | Some u =>
         {| status := 200;
            body := VDocs
              (List.filter
                 (fun p => Js.includes (favorites u) (propertyId p))
                 (properties w)) |}
     | None => {| status := 404; body := VMessage "User not found" |}
     end,
     {| properties := properties w; users := users w;
        redis := Redis.mk (Redis.kv (redis w)) fs' |}).
Proof.
  intros Hf. unfold getFavorites, handler. cbv zeta.
  unfold bind at 1. rewrite (cache_get_down _ _ _ _ Hf).
  cbn [CacheService.hit]. unfold bind at 1, gets at 1. cbn [users].
  destruct (Store.findById uid (users w)) as [u|]; [|by eexists].
  unfold bind at 1, gets at 1. cbn [properties]. unfold bind.
  match goal with
  | |- context [cache (CacheService.set _ ?k ?v _)] =>
      destruct (cache_set_down JSON_stringify k v (properties w) (users w)
                  (Redis.kv (redis w)) fs) as [fs' ->]
  end.
  by exists fs'.
Qed.

(** X11: a cache outage degrades the read endpoints to the store: when
    Redis rejects the commands of the request, the lookup of a listing
    answers with the listing of the store (404 when there is none), the
    collection endpoint with the whole collection, the filter endpoint
    with the options of the store and the favourites endpoint with the
    user's favourite listings, and the key space is left as it was. *)
Theorem cache_outage_degrades_to_store
    (JSON_parse : string -> parsed) (JSON_stringify : value -> option string)
    (w : World) (fs : list bool) :
  Redis.faults (redis w) = true :: true :: fs ->
  (forall id,
     let out := getPropertyById JSON_parse JSON_stringify id w in
     out.1 = match Store.findOne id (properties w) with
             | Some p => {| status := 200; body := VDoc p |}
             | None => {| status := 404;
                          body := VMessage "Property not found" |}
             end /\
     Redis.kv (redis out.2) = Redis.kv (redis w)) /\
  (let out := getAllProperties JSON_parse JSON_stringify w in
   out.1 = {| status := 200; body := VDocs (properties w) |} /\
   Redis.kv (redis out.2) = Redis.kv (redis w)) /\
  (let out := getFilterOptionsController JSON_parse JSON_stringify w in
   out.1 = {| status := 200;
              body := VFilters (getFilterOptions (properties w)) |} /\
   Redis.kv (redis out.2) = Redis.kv (redis w)) /\
  (forall uid,
     let out := getFavorites JSON_parse JSON_stringify (Some uid) w in
     out.1 = match Store.findById uid (users w) with
             | Some u =>
                 {| status := 200;
                    body := VDocs
                      (List.filter
                         (fun p => Js.includes (favorites u) (propertyId p))
                         (properties w)) |}
             | None => {| status := 404; body := VMessage "User not found" |}
             end /\
     Redis.kv (redis out.2) = Redis.kv (redis w)).
Proof.
  intros Hf. cbv zeta. split; [|split; [|split]].
  - intros id.
    by destruct (getPropertyById_down JSON_parse JSON_stringify id w fs Hf)
      as [fs' ->].
  - by destruct (getAllProperties_down JSON_parse JSON_stringify w fs Hf)
      as [fs' ->].
  - by destruct (getFilterOptionsController_down JSON_parse JSON_stringify
                   w fs Hf) as [fs' ->].
  - intros uid.
    by destruct (getFavorites_down JSON_parse JSON_stringify uid w fs Hf)
      as [fs' ->].
Qed.

Lemma cache_outage_degrades_to_store_witness :
  (getPropertyById Sample.parse_any Sample.stringify_any "PROP1002"
     Demo.down).1 = {| status := 200; body := VDoc Sample.flat |} /\
  (getPropertyById Sample.parse_any Sample.stringify_any "PROP9"
     Demo.down).1 =
    {| status := 404; body := VMessage "Property not found" |} /\
  (getAllProperties Sample.parse_any Sample.stringify_any Demo.down).1 =
    {| status := 200; body := VDocs [Sample.villa; Sample.flat] |} /\
  (getFavorites Sample.parse_any Sample.stringify_any (Some "u1")
     Demo.down).1 = {| status := 200; body := VDocs [Sample.flat] |}.
Proof.
  destruct (cache_outage_degrades_to_store Sample.parse_any
              Sample.stringify_any Demo.down [] eq_refl)
    as (Hone & Hall & _ & Hfav).
  split; [exact (proj1 (Hone "PROP1002")) |].
  split; [exact (proj1 (Hone "PROP9")) |].
  split; [exact (proj1 Hall) |]. exact (proj1 (Hfav "u1")).
Defined.

(** X12: miss, populate, hit. With the Redis commands served, a lookup
    that misses the cache and finds the listing stores its serialization
    under the listing's key with the default expiry of 3600 seconds; the
    next lookup is answered with that serialization, and so is any later
    one over the same key space, whatever the store has become. *)
Theorem lookup_populates_then_hits
    (JSON_parse : string -> parsed) (JSON_stringify : value -> option string)
    (id text : string) (p : Property) (w : World) :
  Redis.healthy (redis w) = true ->
  Redis.kv (redis w) !! CACHE_KEYS.PROPERTY id = None ->
  Store.findOne id (properties w) = Some p ->
  JSON_stringify (VDoc p) = Some text ->
  Js.truthy text = true -> JSON_parse text = Truthy ->
  let first := getPropertyById JSON_parse JSON_stringify id w in
  first.1 = {| status := 200; body := VDoc p |} /\
  Redis.kv (redis first.2) =
    <[CACHE_KEYS.PROPERTY id := (text, 3600)]> (Redis.kv (redis w)) /\
  Redis.healthy (redis first.2) = true /\
  forall db us,
    (getPropertyById JSON_parse JSON_stringify id
       {| properties := db; users := us; redis := redis first.2 |}).1 =
    {| status := 200; body := VParsed text |}.
Proof.
  intros Hh Habs Hp Hs Ht Hparse. cbv zeta.
  assert (getPropertyById JSON_parse JSON_stringify id w =
          ({| status := 200; body := VDoc p |},
           {| properties := properties w; users := users w;
              redis := after (<[CACHE_KEYS.PROPERTY id := (text, 3600)]>
                                (Redis.kv (redis w)))
                         (after (Redis.kv (redis w)) (redis w)) |})) as ->.
  { unfold getPropertyById, handler. cbv zeta. unfold bind at 1, cache at 1.
    rewrite (get_miss _ _ _ Habs). cbn [CacheService.hit].
    unfold bind at 1, gets at 1. cbn [properties]. rewrite Hp.
    unfold bind, cache, CacheService.set, try_catch, Client.set.
    cbn [redis properties users]. rewrite Hs, command_eq.
    rewrite (healthy_next _ (healthy_after _ _ Hh)). done. }
  cbn [fst snd redis Redis.kv]. split; [done |]. split; [done |].
  split; [by apply healthy_after, healthy_after |].
  intros db us.
  eassert (cached_as JSON_parse (CACHE_KEYS.PROPERTY id) text _) as Hc;
    [|destruct (get_hit _ _ _ _ Hc) as [Hg Hhit];
      unfold getPropertyById, handler; cbv zeta; unfold bind at 1;
      rewrite Hg, Hhit; reflexivity].
  split; [exists 3600; cbn; apply lookup_insert_eq |].
  split; [done |]. split; [done |].
  cbn [redis]. by apply healthy_next, healthy_after, healthy_after.
Qed.

Lemma lookup_populates_then_hits_witness :
  let first :=
    getPropertyById Sample.parse_any Demo.titles "PROP1002" Sample.served in
  first.1 = {| status := 200; body := VDoc Sample.flat |} /\
  Redis.kv (redis first.2) !! CACHE_KEYS.PROPERTY "PROP1002" =
    Some ("City flat", 3600) /\
  (getPropertyById Sample.parse_any Demo.titles "PROP1002"
     {| properties := []; users := []; redis := redis first.2 |}).1 =
    {| status := 200; body := VParsed "City flat" |}.
Proof.
  destruct (lookup_populates_then_hits Sample.parse_any Demo.titles
              "PROP1002" "City flat" Sample.flat Sample.served)
    as (H1 & H2 & _ & H3); try reflexivity.
  split; [exact H1 |]. split; [rewrite H2; reflexivity | apply H3].
Defined.

(** ** More on the search operation *)

Lemma searchKey_inj q1 q2 : searchKey q1 = searchKey q2 -> q1 = q2.
Proof.
  unfold searchKey, CACHE_KEYS.SEARCH, Js.stringify_object.
  intros H. apply append_cancel_l in H. push_append_in H.
  injection H as H. by apply members_inj.
Qed.

Lemma searchFilter_ext q q' :
  (forall name, In name constraint_names -> prop q name = prop q' name) ->
  searchFilter q = searchFilter q'.
Proof.
  intros H. unfold searchFilter.
  rewrite !(H _) by (cbn; tauto). done.
Qed.

Lemma prop_cons_other k v q name :
  k <> name -> prop ((k, v) :: q) name = prop q name.
Proof. intros Hne. cbn. by destruct (String.eqb_spec k name). Qed.

(** X13: a query parameter that [searchProperties] does not read changes
    nothing of the request to the store (the filter, the page, the limit,
    the skip and the sort are the same as without it) but changes the
    cache key, so the same search with an extra parameter misses the
    entry cached for it. *)
Theorem unread_parameter_changes_only_the_key
    (q : Query) (name v : string) :
  ~ In name (constraint_names ++ paging_names) ->
  let q' := (name, v) :: q in
  searchFilter q' = searchFilter q /\
  pageNum q' = pageNum q /\ limitNum q' = limitNum q /\ skip q' = skip q /\
  sortBy_of q' = sortBy_of q /\ sortDirection q' = sortDirection q /\
  searchKey q' <> searchKey q.
Proof.
  intros Hn. cbv zeta.
  assert (forall n, In n (constraint_names ++ paging_names) ->
                    prop ((name, v) :: q) n = prop q n) as Hprop.
  { intros n Hin. apply prop_cons_other. by intros ->. }
  split.
  { apply searchFilter_ext. intros n Hin. apply Hprop, in_or_app. by left. }
  unfold skip, pageNum, limitNum, sortDirection, page_of, limit_of,
    sortBy_of, sortOrder_of.
  rewrite !(Hprop _) by (cbn; tauto).
  repeat split.
  intros H%searchKey_inj. apply (f_equal (@List.length _)) in H.
  cbn in H. lia.
Qed.

Lemma unread_parameter_changes_only_the_key_witness :
  searchFilter [("utm_source", "mail"); ("city", "Panaji")] =
    searchFilter [("city", "Panaji")] /\
  searchKey [("utm_source", "mail"); ("city", "Panaji")] <>
    searchKey [("city", "Panaji")].
Proof.
  destruct (unread_parameter_changes_only_the_key [("city", "Panaji")]
              "utm_source" "mail") as (Hf & _ & _ & _ & _ & _ & Hk).
  { cbn. intros H. repeat (destruct H as [H|H]; [discriminate |]). done. }
  split; [exact Hf | exact Hk].
Defined.

Lemma filter_all_true {A} (f : A -> bool) (l : list A) :
  (forall x, f x = true) -> List.filter f l = l.
Proof.
  intros H. induction l as [|x l IH]; cbn; [done |]. by rewrite H, IH.
Qed.

(** X14: a search without constraints lists everything: when the query
    carries none of the constraint names, every listing matches the
    filter, and with [page] and [limit] unspecified the store is asked for
    the first ten listings of the whole collection in the requested
    order, the total being the size of the collection. *)
Theorem unconstrained_search_lists_everything
    (Date_parse : string -> Js.num)
    (sort_by : string -> Z -> list Property -> list Property)
    (irregular : Filter -> string -> Z -> Js.num -> Js.num ->
                 list Property -> outcome (list Property * Z))
    (q : Query) (db : list Property) :
  (forall name, In name constraint_names -> prop q name = None) ->
  (forall p, Store.matches Date_parse (searchFilter q) p = true) /\
  (prop q "page" = None -> prop q "limit" = None ->
   Store.search Date_parse sort_by irregular (searchFilter q) (sortBy_of q)
     (sortDirection q) (skip q) (limitNum q) db =
   Returned (take 10 (sort_by (sortBy_of q) (sortDirection q) db),
             Z.of_nat (List.length db))).
Proof.
  intros Hnone.
  assert (searchFilter q = searchFilter []) as Hf.
  { apply searchFilter_ext. intros name Hin. by rewrite Hnone. }
  rewrite Hf. split; [done |].
  intros Hp Hl. unfold skip, pageNum, limitNum, page_of, limit_of.
  rewrite Hp, Hl. unfold Store.search.
  change (Js.mul (Js.sub (Js.parseInt (default "1" None)) (Js.Int 1))
            (Js.parseInt (default "10" None))) with (Js.Int 0).
  change (Js.parseInt (default "10" None)) with (Js.Int 10).
  change (Store.castable Date_parse (searchFilter []) && (0 <=? 0)
          && (1 <=? 10)) with true.
  cbv iota. by rewrite filter_all_true.
Qed.

Lemma unconstrained_search_lists_everything_witness :
  Store.matches Sample.epoch (searchFilter [("sortOrder", "desc")])
    Sample.flat = true /\
  Store.search Sample.epoch Sample.unsorted Sample.rejects
    (searchFilter [("sortOrder", "desc")]) "price" (-1) (Js.Int 0)
    (Js.Int 10) [Sample.villa; Sample.flat] =
  Returned ([Sample.villa; Sample.flat], 2).
Proof.
  destruct (unconstrained_search_lists_everything Sample.epoch
              Sample.unsorted Sample.rejects [("sortOrder", "desc")]
              [Sample.villa; Sample.flat]) as [Hm Hs].
  { intros name Hin. cbn in Hin.
    repeat (destruct Hin as [<-|Hin]; [reflexivity |]). done. }
  split; [apply Hm | exact (Hs eq_refl eq_refl)].
Defined.




(** ** The favourites of a user *)

Lemma findById_Some uid us u :
  Store.findById uid us = Some u -> _id u = uid /\ In u us.
Proof.
  unfold Store.findById. intros H. apply find_some in H as [Hin Hid].
  split; [by apply String.eqb_eq | done].
Qed.

Lemma findById_save uid us u u' :
  Store.findById uid us = Some u -> _id u' = uid ->
  Store.findById uid (Store.save u' us) = Some u' /\
  (forall uid', uid' <> uid ->
     Store.findById uid' (Store.save u' us) = Store.findById uid' us) /\
  List.length (Store.save u' us) = List.length us.
Proof.
  unfold Store.findById. intros Hu <-.
  induction us as [|x us IH]; cbn in *; [done |].
  destruct (String.eqb_spec (_id x) (_id u')) as [Hx|Hx]; cbn.
  - rewrite String.eqb_refl. split; [done |]. split; [|done].
    intros uid' Hne.
    destruct (String.eqb_spec (_id u') uid'); [congruence |].
    destruct (String.eqb_spec (_id x) uid'); [congruence | done].
  - destruct (String.eqb_spec (_id x) (_id u')); [done |].
    destruct (IH Hu) as (H1 & H2 & H3). split; [exact H1 |]. split.
    + intros uid' Hne. destruct (String.eqb_spec (_id x) uid'); [done |].
      by apply H2.
    + by rewrite H3.
Qed.

Lemma save_same uid us u :
  Store.findById uid us = Some u -> Store.save u us = us.
Proof.
  unfold Store.findById. intros Hu.
  induction us as [|x us IH]; cbn in *; [done |].
  destruct (String.eqb_spec (_id x) uid) as [Hx|Hx].
  - injection Hu as ->. by rewrite String.eqb_refl.
  - apply findById_Some in Hu as Hid. destruct Hid as [Hid _].
    destruct (String.eqb_spec (_id x) (_id u)); [congruence |].
    by rewrite IH.
Qed.

Lemma save_save u1 u2 us :
  _id u1 = _id u2 -> Store.save u2 (Store.save u1 us) = Store.save u2 us.
Proof.
  intros Hid. induction us as [|x us IH]; cbn; [done |].
  rewrite Hid. destruct (String.eqb_spec (_id x) (_id u2)); cbn.
  - by rewrite Hid, String.eqb_refl.
  - destruct (String.eqb_spec (_id x) (_id u2)); [done |]. by rewrite IH.
Qed.

Lemma includes_false arr x : Js.includes arr x = false <-> ~ In x arr.
Proof.
  rewrite <- includes_In. by destruct (Js.includes arr x).
Qed.

(** What [addFavorite] does for a listing that is not yet a favourite. *)
Lemma addFavorite_added uid id w p u :
  Store.findOne id (properties w) = Some p ->
  Store.findById uid (users w) = Some u ->
  ~ In (propertyId p) (favorites u) ->
  addFavorite (Some uid) id w =
  ({| status := 200; body := VMessage "Property added to favorites" |},
   {| properties := properties w;
      users := Store.save
                 (with_favorites u (favorites u ++ [propertyId p])%list)
                 (users w);
      redis := (CacheService.del (CACHE_KEYS.USER_FAVORITES uid)
                  (redis w)).2 |}).
Proof.
  intros Hp Hu Hnin. unfold addFavorite, handler, bind, gets.
  rewrite Hp, Hu. apply includes_false in Hnin. rewrite Hnin.
  unfold accounts, cache. cbn [redis properties users].
  by rewrite del_returns.
Qed.

(** What [removeFavorite] does when the listing and the user exist. *)
Lemma removeFavorite_removed uid id w p u :
  Store.findOne id (properties w) = Some p ->
  Store.findById uid (users w) = Some u ->
  removeFavorite (Some uid) id w =
  ({| status := 200; body := VMessage "Property removed from favorites" |},
   {| properties := properties w;
      users := Store.save
                 (with_favorites u
                    (List.filter
                       (fun favId => negb (String.eqb favId (propertyId p)))
                       (favorites u)))
                 (users w);
      redis := (CacheService.del (CACHE_KEYS.USER_FAVORITES uid)
                  (redis w)).2 |}).
Proof.
  intros Hp Hu. unfold removeFavorite, handler, bind, gets.
  rewrite Hp, Hu. unfold accounts, cache. cbn [redis properties users].
  by rewrite del_returns.
Qed.

Lemma filter_out_absent (x : string) (l : list string) :
  ~ In x l -> List.filter (fun y => negb (String.eqb y x)) l = l.
Proof.
  intros Hnin. induction l as [|y l IH]; cbn; [done |].
  destruct (String.eqb_spec y x) as [->|Hne]; cbn.
  - exfalso. apply Hnin. by left.
  - rewrite IH; [done |]. intros H. apply Hnin. by right.
Qed.

Lemma filter_out_app (x : string) (l : list string) :
  ~ In x l ->
  List.filter (fun y => negb (String.eqb y x)) (l ++ [x])%list = l.
Proof.
  intros Hnin. rewrite List.filter_app, filter_out_absent by done.
  cbn. rewrite String.eqb_refl. cbn. by rewrite app_nil_r.
Qed.

(** X16: adding a listing that exists and is not yet among the user's
    favourites answers 200, appends its identifier to that user's
    favourites, leaves every other user and every listing as they were
    and, when the Redis command is served, removes the user's cached
    favourites (and no other key). *)
Theorem favorite_is_appended
    (uid id : string) (w : World) (p : Property) (u : User) :
  Store.findOne id (properties w) = Some p ->
  Store.findById uid (users w) = Some u ->
  ~ In id (favorites u) ->
  let out := addFavorite (Some uid) id w in
  out.1 = {| status := 200;
             body := VMessage "Property added to favorites" |} /\
  Store.findById uid (users out.2) =
    Some (with_favorites u (favorites u ++ [id])%list) /\
  (forall uid', uid' <> uid ->
     Store.findById uid' (users out.2) = Store.findById uid' (users w)) /\
  properties out.2 = properties w /\
  (forall key,
     Redis.kv (redis out.2) !! key =
     if decide (key = CACHE_KEYS.USER_FAVORITES uid)
     then (if next_fault (redis w) then Redis.kv (redis w) !! key else None)
     else Redis.kv (redis w) !! key).
Proof.
  intros Hp Hu Hnin. cbv zeta.
  pose proof (findOne_Some _ _ _ Hp) as [Hpid _].
  pose proof (findById_Some _ _ _ Hu) as [Huid _].
  rewrite (addFavorite_added uid id w p u Hp Hu) by by rewrite Hpid.
  cbn [fst snd properties users redis]. rewrite Hpid.
  destruct (findById_save uid (users w) u
              (with_favorites u (favorites u ++ [id])%list) Hu Huid)
    as (H1 & H2 & _).
  repeat split; try done.
  intros key. rewrite del_eq. cbn [snd after Redis.kv].
  destruct (decide (key = CACHE_KEYS.USER_FAVORITES uid)) as [->|Hne];
    destruct (next_fault (redis w)); try done.
  - apply lookup_delete_eq.
  - by apply lookup_delete_ne.
Qed.

Lemma favorite_is_appended_witness :
  let out := addFavorite (Some "u1") "PROP1001" Demo.stocked in
  status out.1 = 200 /\
  favorites <$> Store.findById "u1" (users out.2) =
    Some ["PROP1002"; "PROP1001"] /\
  Redis.kv (redis out.2) !! CACHE_KEYS.USER_FAVORITES "u1" = None /\
  Redis.kv (redis out.2) !! CACHE_KEYS.FILTERS =
    Some ("types: Villa, Apartment", 3600).
Proof.
  destruct (favorite_is_appended "u1" "PROP1001" Demo.stocked Sample.villa
              Sample.alice) as (Hs & Hu & _ & _ & Hk);
    [reflexivity | reflexivity | |].
  { cbn. intros [H|[]]. discriminate. }
  split; [by rewrite Hs |]. split; [by rewrite Hu |].
  split; [rewrite Hk | rewrite Hk]; reflexivity.
Defined.

Lemma with_favorites_same u : with_favorites u (favorites u) = u.
Proof. by destruct u. Qed.

(** X17: removing a favourite, for a listing and a user that exist,
    answers 200 and leaves the user with the former favourites minus that
    identifier, in their order; the identifier is then no favourite, and
    when it was none before, nothing changes among the users although the
    answer is still 200. *)
Theorem favorite_is_removed
    (uid id : string) (w : World) (p : Property) (u : User) :
  Store.findOne id (properties w) = Some p ->
  Store.findById uid (users w) = Some u ->
  let out := removeFavorite (Some uid) id w in
  let kept :=
    List.filter (fun favId => negb (String.eqb favId id)) (favorites u) in
  out.1 = {| status := 200;
             body := VMessage "Property removed from favorites" |} /\
  Store.findById uid (users out.2) = Some (with_favorites u kept) /\
  ~ In id kept /\
  (forall x, x <> id -> (In x kept <-> In x (favorites u))) /\
  (~ In id (favorites u) -> users out.2 = users w) /\
  properties out.2 = properties w.
Proof.
  intros Hp Hu. cbv zeta.
  pose proof (findOne_Some _ _ _ Hp) as [Hpid _].
  pose proof (findById_Some _ _ _ Hu) as [Huid _].
  rewrite (removeFavorite_removed uid id w p u Hp Hu).
  cbn [fst snd properties users redis]. rewrite Hpid.
  split; [done |]. split.
  { by apply (findById_save uid (users w) u). }
  split.
  { rewrite filter_In. intros [_ H]. by rewrite String.eqb_refl in H. }
  split.
  { intros x Hx. rewrite filter_In.
    destruct (String.eqb_spec x id); [done |]. cbn. tauto. }
  split; [|done].
  intros Hnin. rewrite filter_out_absent by done.
  rewrite with_favorites_same. by eapply save_same.
Qed.

Lemma favorite_is_removed_witness :
  let out := removeFavorite (Some "u1") "PROP1002" Sample.served in
  status out.1 = 200 /\
  favorites <$> Store.findById "u1" (users out.2) = Some [] /\
  users (removeFavorite (Some "u1") "PROP1001" Sample.served).2
    = users Sample.served.
Proof.
  destruct (favorite_is_removed "u1" "PROP1002" Sample.served Sample.flat
              Sample.alice eq_refl eq_refl) as (Hs & Hu & _).
  destruct (favorite_is_removed "u1" "PROP1001" Sample.served Sample.villa
              Sample.alice eq_refl eq_refl) as (_ & _ & _ & _ & Hsame & _).
  split; [by rewrite Hs |]. split; [by rewrite Hu |].
  apply Hsame. cbn. intros [H|[]]. discriminate.
Defined.

(** X18: adding a favourite and removing it again restores the users of
    the store exactly (for a listing that was no favourite before), the
    listings being untouched by both. *)
Theorem add_then_remove_favorite_restores
    (uid id : string) (w : World) (p : Property) (u : User) :
  Store.findOne id (properties w) = Some p ->
  Store.findById uid (users w) = Some u ->
  ~ In id (favorites u) ->
  let added := (addFavorite (Some uid) id w).2 in
  let removed := (removeFavorite (Some uid) id added).2 in
  In id (favorites (default u (Store.findById uid (users added)))) /\
  users removed = users w /\ properties removed = properties w.
Proof.
  intros Hp Hu Hnin. cbv zeta.
  pose proof (findOne_Some _ _ _ Hp) as [Hpid _].
  pose proof (findById_Some _ _ _ Hu) as [Huid _].
  rewrite (addFavorite_added uid id w p u Hp Hu) by by rewrite Hpid.
  cbn [snd]. rewrite Hpid.
  set (u1 := with_favorites u (favorites u ++ [id])%list).
  destruct (findById_save uid (users w) u u1 Hu Huid) as (Hu1 & _ & _).
  match goal with
  | |- context [removeFavorite _ _ ?w1] =>
      rewrite (removeFavorite_removed uid id w1 p u1 Hp Hu1)
  end.
  cbn [snd users properties]. rewrite Hu1, Hpid. cbn [default].
  split; [apply in_or_app; right; by left |]. split; [|done].
  rewrite save_save by done.
  cbn [favorites u1 with_favorites]. rewrite filter_out_app by done.
  change (with_favorites u1 (favorites u)) with (with_favorites u (favorites u)).
  rewrite with_favorites_same. by eapply save_same.
Qed.

Lemma add_then_remove_favorite_restores_witness :
  users (removeFavorite (Some "u1") "PROP1001"
           (addFavorite (Some "u1") "PROP1001" Sample.served).2).2 =
  users Sample.served.
Proof.
  apply (add_then_remove_favorite_restores "u1" "PROP1001" Sample.served
           Sample.villa Sample.alice eq_refl eq_refl).
  cbn. intros [H|[]]. discriminate.
Defined.

Lemma Forall_save (P : User -> Prop) u us :
  Forall P us -> P u -> Forall P (Store.save u us).
Proof.
  intros Hus Hu. induction Hus as [|x us Hx Hus IH]; cbn; [done |].
  destruct (String.eqb (_id x) (_id u)); by constructor.
Qed.

Lemma world_users_eta w us :
  us = users w ->
  {| properties := properties w; users := us; redis := redis w |} = w.
Proof. intros ->. by destruct w. Qed.

(** X19: favourites stay free of duplicates: if no user of the store has
    a listing twice among the favourites, this is still so after any
    request to add or to remove a favourite, whoever the caller and
    whatever the listing and the outcome. *)
Theorem favorites_stay_distinct
    (user : option string) (id : string) (w : World) :
  favorites_distinct (users w) ->
  favorites_distinct (users (addFavorite user id w).2) /\
  favorites_distinct (users (removeFavorite user id w).2).
Proof.
  unfold favorites_distinct. intros Hd. split.
  - unfold addFavorite, handler, bind, gets.
    destruct user as [uid|]; [|done].
    destruct (Store.findOne id (properties w)) as [p|]; [|done].
    destruct (Store.findById uid (users w)) as [u|] eqn:Hu; [|done].
    destruct (Js.includes (favorites u) (propertyId p)) eqn:Hin; [done |].
    unfold accounts, cache. cbn [redis properties users].
    rewrite del_returns. cbn [snd users].
    apply Forall_save; [done |]. cbn [favorites with_favorites].
    apply NoDup_app. split; [|split; [|apply NoDup_singleton]].
    + apply findById_Some in Hu as [_ Hu]. rewrite Forall_forall in Hd.
      by apply Hd, list_elem_of_In.
    + intros x Hx Hx'. apply list_elem_of_singleton in Hx' as ->.
      apply includes_false in Hin. by apply Hin, list_elem_of_In.
  - unfold removeFavorite, handler, bind, gets.
    destruct user as [uid|]; [|done].
    destruct (Store.findOne id (properties w)) as [p|]; [|done].
    destruct (Store.findById uid (users w)) as [u|] eqn:Hu; [|done].
    unfold accounts, cache. cbn [redis properties users].
    rewrite del_returns. cbn [snd users].
    apply Forall_save; [done |]. cbn [favorites with_favorites].
    apply findById_Some in Hu as [_ Hu]. rewrite Forall_forall in Hd.
    apply list_elem_of_In, Hd in Hu.
    eapply sublist_NoDup; [exact Hu |].
    clear. induction (favorites u) as [|x l IH]; cbn; [done |].
    destruct (negb _); [by apply sublist_skip | by apply sublist_cons].
Qed.

Lemma favorites_stay_distinct_witness :
  favorites_distinct
    (users (addFavorite (Some "u1") "PROP1001" Sample.served).2) /\
  favorites_distinct
    (users (removeFavorite (Some "u1") "PROP1001" Sample.served).2).
Proof.
  apply (favorites_stay_distinct (Some "u1") "PROP1001" Sample.served).
  apply Forall_cons. split; [apply NoDup_singleton | apply Forall_nil_2].
Defined.

Lemma getFavorites_miss JSON_parse JSON_stringify uid w :
  Redis.kv (redis w) !! CACHE_KEYS.USER_FAVORITES uid = None ->
  (getFavorites JSON_parse JSON_stringify (Some uid) w).1 =
  match Store.findById uid (users w) with
  | Some u =>
      {| status := 200;
         body := VDocs
           (List.filter (fun p => Js.includes (favorites u) (propertyId p))
              (properties w)) |}
  | None => {| status := 404; body := VMessage "User not found" |}
  end.
Proof.
  intros Habs. unfold getFavorites, handler. cbv zeta.
  unfold bind at 1, cache at 1. rewrite (get_miss _ _ _ Habs).
  cbn [CacheService.hit]. unfold bind at 1, gets at 1. cbn [users].
  destruct (Store.findById uid (users w)) as [u|]; [|done].
  unfold bind at 1, gets at 1. cbn [properties]. unfold bind, cache.
  cbn [redis properties users].
  match goal with
  | |- context [CacheService.set ?s ?k ?v ?t ?r] =>
      destruct (set_eq s k v t r) as [r' ->]
  end.
  done.
Qed.

(** X20: deleting a listing leaves the users untouched, so the identifier
    stays among the favourites of whoever had it; from then on a request
    to remove (or add) that favourite answers 404 and changes nothing, and
    the favourites endpoint, answered from the store, silently leaves the
    listing out. *)
Theorem deleted_listing_lingers_in_favorites
    (JSON_parse : string -> parsed) (JSON_stringify : value -> option string)
    (user : option string) (id : string) (w w' : World) (resp : Response) :
  unique_ids (properties w) ->
  deleteProperty user id w = (resp, w') ->
  status resp = 200 ->
  users w' = users w /\
  (forall uid,
     removeFavorite (Some uid) id w' =
       ({| status := 404; body := VMessage "Property not found" |}, w') /\
     addFavorite (Some uid) id w' =
       ({| status := 404; body := VMessage "Property not found" |}, w')) /\
  (forall uid u,
     Store.findById uid (users w') = Some u ->
     Redis.kv (redis w') !! CACHE_KEYS.USER_FAVORITES uid = None ->
     exists listed,
       (getFavorites JSON_parse JSON_stringify (Some uid) w').1 =
         {| status := 200; body := VDocs listed |} /\
       forall p, In p listed -> propertyId p <> id).
Proof.
  intros Hu Hrun Hst.
  destruct (deleteProperty_200 _ _ _ _ _ Hrun Hst)
    as (caller & p & _ & _ & _ & _ & Hdb & Hus & _).
  assert (Store.findOne id (properties w') = None) as Hgone.
  { rewrite Hdb. by apply findOne_remove_first_eq. }
  split; [done |]. split.
  - intros uid. unfold removeFavorite, addFavorite, handler, bind, gets.
    by rewrite Hgone.
  - intros uid u Hfind Habs. eexists. split.
    + rewrite (getFavorites_miss _ _ _ _ Habs), Hfind. reflexivity.
    + intros q [Hin _]%filter_In Hq. apply findOne_None in Hgone.
      apply Hgone. rewrite <- Hq. by apply in_map.
Qed.

Lemma deleted_listing_lingers_in_favorites_witness :
  let w' := (deleteProperty (Some "u2") "PROP1002" Sample.served).2 in
  favorites <$> Store.findById "u1" (users w') = Some ["PROP1002"] /\
  removeFavorite (Some "u1") "PROP1002" w' =
    ({| status := 404; body := VMessage "Property not found" |}, w') /\
  (getFavorites Sample.parse_any Sample.stringify_any (Some "u1") w').1 =
    {| status := 200; body := VDocs [] |}.
Proof.
  cbv zeta.
  destruct (deleted_listing_lingers_in_favorites Sample.parse_any
              Sample.stringify_any (Some "u2") "PROP1002" Sample.served
              (deleteProperty (Some "u2") "PROP1002" Sample.served).2
              (deleteProperty (Some "u2") "PROP1002" Sample.served).1
              sample_unique) as (Hus & Hrm & _);
    [apply surjective_pairing | reflexivity |].
  split; [rewrite Hus; reflexivity |].
  split; [apply Hrm | reflexivity].
Defined.

(** ** More on the cache service *)

Lemma glob_plain_prefix (l k : string) :
  all_plain l = true ->
  Redis.glob (l +:+ "*") k = String.prefix l k.
Proof.
  unfold Redis.glob. revert k.
  induction l as [|c l IH]; intros k Hl.
  - rewrite append_Empty. cbn [String.prefix].
    change (Redis.tokens None "*") with [Redis.Star].
    rewrite match_star_only. by destruct k.
  - cbn [all_plain] in Hl. apply andb_true_iff in Hl as [Hc Hl].
    rewrite append_String. unfold plain in Hc.
    apply negb_true_iff in Hc.
    apply orb_false_iff in Hc as [Hc H4].
    apply orb_false_iff in Hc as [Hc H3].
    apply orb_false_iff in Hc as [H1 H2].
    cbn [Redis.tokens]. rewrite H1, H2, H3, H4.
    cbn [Redis.match_tokens].
    destruct k as [|x k]; [done |].
    cbn [String.prefix]. rewrite IH by done.
    destruct (Ascii.eqb_spec c x) as [->|Hne].
    + by destruct (ascii_dec x x).
    + by destruct (ascii_dec c x).
Qed.

(** X21: what is set can be got: on a server that serves the commands,
    setting a value that serializes to a non-empty text, with a positive
    expiry, stores that text with that expiry under the key and leaves
    every other key alone; a get of the key then returns the parsed text
    (if it parses), and after a del of the key a get returns nothing. *)
Theorem cache_set_get_del
    (JSON_parse : string -> parsed) (JSON_stringify : value -> option string)
    (key text : string) (v : value) (ttl : Z) (r : Redis.t) :
  Redis.healthy r = true ->
  JSON_stringify v = Some text -> 0 < ttl ->
  Js.truthy text = true -> JSON_parse text <> Malformed ->
  let r1 := (CacheService.set JSON_stringify key v ttl r).2 in
  let r2 := (CacheService.del key r1).2 in
  Redis.kv r1 = <[key := (text, ttl)]> (Redis.kv r) /\
  (CacheService.get JSON_parse key r1).1 = Returned (Some (VParsed text)) /\
  Redis.kv r2 = delete key (Redis.kv r) /\
  (CacheService.get JSON_parse key r2).1 = Returned None.
Proof.
  intros Hh Hs Httl Ht Hp. cbv zeta.
  assert (CacheService.set JSON_stringify key v ttl r =
          (Returned tt, after (<[key := (text, ttl)]> (Redis.kv r)) r)) as ->.
  { unfold CacheService.set, try_catch, Client.set.
    rewrite Hs, command_eq, (healthy_next _ Hh).
    destruct (ttl <=? 0) eqn:E; [lia | done]. }
  cbn [snd]. set (r1 := after _ r).
  assert (Redis.healthy r1 = true) as Hh1 by by apply healthy_after.
  split; [done |]. split.
  { unfold CacheService.get, try_catch, bind, Client.get.
    rewrite command_eq, (healthy_next _ Hh1). cbn [fst snd].
    unfold r1 at 1. cbn [after Redis.kv]. rewrite lookup_insert_eq. cbn.
    rewrite Ht. by destruct (JSON_parse text). }
  rewrite del_eq, (healthy_next _ Hh1). cbn [snd after Redis.kv].
  split.
  { unfold r1. cbn [after Redis.kv]. apply delete_insert_eq. }
  apply get_absent. cbn [Redis.kv]. apply lookup_delete_eq.
Qed.

Lemma cache_set_get_del_witness :
  let r1 :=
    (CacheService.set Demo.titles "k" (VDoc Sample.flat) 60
       (redis Sample.served)).2 in
  Redis.kv r1 !! "k" = Some ("City flat", 60) /\
  (CacheService.get Sample.parse_any "k" r1).1 =
    Returned (Some (VParsed "City flat")) /\
  (CacheService.get Sample.parse_any "k" (CacheService.del "k" r1).2).1 =
    Returned None.
Proof.
  destruct (cache_set_get_del Sample.parse_any Demo.titles "k" "City flat"
              (VDoc Sample.flat) 60 (redis Sample.served))
    as (Hkv & Hget & _ & Hgone); try reflexivity; [discriminate |].
  split; [rewrite Hkv; reflexivity |]. split; [exact Hget | exact Hgone].
Defined.

(** X22: a pattern delete with a literal prefix and a final star deletes
    by prefix: on a server that serves the commands, the keys that start
    with the prefix are gone and every other key keeps its entry. *)
Theorem pattern_delete_is_prefix_delete
    (prefix : string) (r : Redis.t) (key : string) :
  all_plain prefix = true ->
  Redis.healthy r = true ->
  Redis.kv (CacheService.delByPattern (prefix +:+ "*") r).2 !! key =
  if String.prefix prefix key then None else Redis.kv r !! key.
Proof.
  intros Hplain Hh.
  destruct (delByPattern_eq (prefix +:+ "*") r) as (m & fs & -> & _ & H).
  destruct (H Hh) as [-> _]. cbn [snd Redis.kv].
  by rewrite lookup_swept, glob_plain_prefix.
Qed.

Lemma pattern_delete_is_prefix_delete_witness :
  let r' := (CacheService.delByPattern "search:*" (redis Demo.stocked)).2 in
  Redis.kv r' !! "search:{}" = None /\
  Redis.kv r' !! "filters:all" = Some ("types: Villa, Apartment", 3600).
Proof.
  split.
  - exact (pattern_delete_is_prefix_delete "search:" (redis Demo.stocked)
             "search:{}" eq_refl eq_refl).
  - exact (pattern_delete_is_prefix_delete "search:" (redis Demo.stocked)
             "filters:all" eq_refl eq_refl).
Defined.

(** ** The favourite check *)

Lemma checkFavorite_found uid id w p u :
  Store.findOne id (properties w) = Some p ->
  Store.findById uid (users w) = Some u ->
  checkFavorite (Some uid) id w =
  ({| reply_status := 200;
      reply_body := IsFavorite (Js.includes (favorites u) (propertyId p)) |},
   w).
Proof.
  intros Hp Hu. unfold checkFavorite, handle, bind, gets, reply, ret.
  by rewrite Hp, Hu.
Qed.

Lemma addFavorite_present uid id w p u :
  Store.findOne id (properties w) = Some p ->
  Store.findById uid (users w) = Some u ->
  Js.includes (favorites u) (propertyId p) = true ->
  addFavorite (Some uid) id w =
  ({| status := 400; body := VMessage "Property already in favorites" |}, w).
Proof.
  intros Hp Hu Hin. unfold addFavorite, handler, bind, gets, respond, ret.
  by rewrite Hp, Hu, Hin.
Qed.

(** X23: the favourite check follows the list: for a listing and a user
    that exist, the check changes nothing and answers whether the listing
    is among the user's favourites, which is exactly when adding it would
    be refused with 400; after a request to add it the check answers true,
    after a request to remove it the check answers false. *)
Theorem favorite_check_follows_the_list
    (uid id : string) (w : World) (p : Property) (u : User) :
  Store.findOne id (properties w) = Some p ->
  Store.findById uid (users w) = Some u ->
  let check := checkFavorite (Some uid) id in
  let answer b := {| reply_status := 200; reply_body := IsFavorite b |} in
  check w = (answer (Js.includes (favorites u) id), w) /\
  (Js.includes (favorites u) id = true <->
   status (addFavorite (Some uid) id w).1 = 400) /\
  (check (addFavorite (Some uid) id w).2).1 = answer true /\
  (check (removeFavorite (Some uid) id w).2).1 = answer false.
Proof.
  intros Hp Hu check answer. subst check answer. cbv beta.
  pose proof (findOne_Some _ _ _ Hp) as [Hid _].
  split; [by rewrite (checkFavorite_found _ _ _ _ _ Hp Hu), Hid |].
  destruct (Js.includes (favorites u) id) eqn:Hin.
  - rewrite <- Hid in Hin.
    rewrite (addFavorite_present _ _ _ _ _ Hp Hu Hin). cbn [fst snd status].
    split; [done |]. split.
    + by rewrite (checkFavorite_found _ _ _ _ _ Hp Hu), Hin.
    + rewrite (removeFavorite_removed _ _ _ _ _ Hp Hu). cbn [snd].
      set (u' := with_favorites u _).
      destruct (findById_save uid (users w) u u' Hu) as (Hu' & _).
      { unfold u'. cbn. by apply findById_Some in Hu as [? _]. }
      rewrite (checkFavorite_found uid id _ p u'); [|done..].
      cbn [fst]. f_equal. f_equal. apply includes_false.
      unfold u'. cbn [with_favorites favorites].
      intros Hx. apply filter_In in Hx as [_ Hx].
      by rewrite String.eqb_refl in Hx.
  - rewrite <- Hid in Hin. apply includes_false in Hin as Hnin.
    rewrite (addFavorite_added _ _ _ _ _ Hp Hu Hnin). cbn [fst snd status].
    split; [done |]. split.
    + set (u' := with_favorites u _).
      destruct (findById_save uid (users w) u u' Hu) as (Hu' & _).
      { unfold u'. cbn. by apply findById_Some in Hu as [? _]. }
      rewrite (checkFavorite_found uid id _ p u'); [|done..].
      cbn [fst]. f_equal. f_equal. apply includes_In.
      unfold u'. cbn [with_favorites favorites].
      apply in_or_app. right. by left.
    + rewrite (removeFavorite_removed _ _ _ _ _ Hp Hu). cbn [snd].
      set (u' := with_favorites u _).
      destruct (findById_save uid (users w) u u' Hu) as (Hu' & _).
      { unfold u'. cbn. by apply findById_Some in Hu as [? _]. }
      rewrite (checkFavorite_found uid id _ p u'); [|done..].
      cbn [fst]. f_equal. f_equal. apply includes_false.
      unfold u'. cbn [with_favorites favorites].
      intros Hx. apply filter_In in Hx as [_ Hx].
      by rewrite String.eqb_refl in Hx.
Qed.

Lemma favorite_check_follows_the_list_witness :
  (checkFavorite (Some "u1") "PROP1001" Sample.served).1 =
    {| reply_status := 200; reply_body := IsFavorite false |} /\
  (checkFavorite (Some "u1") "PROP1001"
     (addFavorite (Some "u1") "PROP1001" Sample.served).2).1 =
    {| reply_status := 200; reply_body := IsFavorite true |} /\
  (checkFavorite (Some "u1") "PROP1002"
     (removeFavorite (Some "u1") "PROP1002" Sample.served).2).1 =
    {| reply_status := 200; reply_body := IsFavorite false |}.
Proof.
  destruct (favorite_check_follows_the_list "u1" "PROP1001" Sample.served
              Sample.villa Sample.alice eq_refl eq_refl)
    as (Hnow & _ & Hadd & _).
  destruct (favorite_check_follows_the_list "u1" "PROP1002" Sample.served
              Sample.flat Sample.alice eq_refl eq_refl)
    as (_ & _ & _ & Hdel).
  split; [by rewrite Hnow |]. split; [exact Hadd | exact Hdel].
Defined.

(** ** Recommendations *)

Lemma find_same_None listing uid inbox :
  List.find (Recommendation.same_recommendation listing uid) inbox = None <->
  ~ In (listing, uid) (map rec_key inbox).
Proof.
  induction inbox as [|x l IH]; cbn; [tauto |].
  unfold Recommendation.same_recommendation at 1, rec_key at 1.
  destruct (String.eqb_spec (rec_propertyId x) listing) as [H1|H1];
    destruct (String.eqb_spec (recommendedBy x) uid) as [H2|H2]; cbn;
    try (rewrite IH; split; [intros H [[=]|?]; tauto | tauto]).
  subst. split; [done | tauto].
Qed.

(** What a recommendation that passes the checks does. *)
Lemma recommendProperty_sent uid e id now s p r :
  Js.truthy e = true ->
  Store.findOne id (properties (world s)) = Some p ->
  Users.findOne e (users (world s)) = Some r ->
  List.find (Recommendation.same_recommendation (propertyId p) uid)
    (recommendationsReceived s (_id r)) = None ->
  Recommendation.recommendProperty (Some uid) (Some e) id now s =
  ({| reply_status := 200;
      reply_body := Plain (VMessage "Property recommended successfully") |},
   with_redis
     (Recommendation.with_received s (_id r)
        (recommendationsReceived s (_id r) ++
         [{| rec_propertyId := propertyId p; recommendedBy := uid;
             recommendedAt := now |}])%list)
     (CacheService.del
        (Recommendation.CACHE_KEYS.USER_RECOMMENDATIONS (_id r))
        (redis (world s))).2).
Proof.
  intros He Hp Hr Hnew.
  unfold Recommendation.recommendProperty, handle, when_truthy.
  rewrite He. unfold bind at 1, gets at 1. rewrite Hp.
  unfold bind at 1, gets at 1. rewrite Hr.
  unfold bind at 1, gets at 1. rewrite Hnew.
  unfold bind at 1, modify at 1. unfold bind at 1, in_world, cache.
  cbn [world Recommendation.with_received redis properties users passwords
       received].
  rewrite del_returns. cbn [snd]. reflexivity.
Qed.

(** A recommendation that the recipient already has from that sender. *)
Lemma recommendProperty_repeated uid e id now s p r x :
  Js.truthy e = true ->
  Store.findOne id (properties (world s)) = Some p ->
  Users.findOne e (users (world s)) = Some r ->
  List.find (Recommendation.same_recommendation (propertyId p) uid)
    (recommendationsReceived s (_id r)) = Some x ->
  Recommendation.recommendProperty (Some uid) (Some e) id now s =
  ({| reply_status := 400;
      reply_body :=
        Plain (VMessage "Property already recommended to this user") |}, s).
Proof.
  intros He Hp Hr Hold.
  unfold Recommendation.recommendProperty, handle, when_truthy.
  rewrite He. unfold bind at 1, gets at 1. rewrite Hp.
  unfold bind at 1, gets at 1. rewrite Hr.
  unfold bind at 1, gets at 1. by rewrite Hold.
Qed.

Lemma received_with_received s uid recs uid' :
  recommendationsReceived (Recommendation.with_received s uid recs) uid' =
  if decide (uid' = uid) then recs else recommendationsReceived s uid'.
Proof.
  unfold recommendationsReceived, Recommendation.with_received.
  cbn [received]. destruct (decide (uid' = uid)) as [->|Hne].
  - by rewrite lookup_insert_eq.
  - by rewrite lookup_insert_ne.
Qed.

Lemma received_with_redis s r uid :
  recommendationsReceived (with_redis s r) uid = recommendationsReceived s uid.
Proof. done. Qed.

Lemma find_same_last listing uid now inbox :
  exists x,
    List.find (Recommendation.same_recommendation listing uid)
      (inbox ++ [{| rec_propertyId := listing; recommendedBy := uid;
                    recommendedAt := now |}])%list = Some x.
Proof.
  induction inbox as [|y l IH]; cbn.
  - unfold Recommendation.same_recommendation. cbn.
    rewrite !String.eqb_refl. cbn. eauto.
  - destruct (Recommendation.same_recommendation listing uid y); eauto.
Qed.

(** X24: a recommendation is delivered once: when the listing and the
    recipient exist and the recipient has not yet received this listing
    from this sender, the request answers 200, appends the listing, the
    sender and the time to the recipient's recommendations, changes no
    other user's recommendations, no listing, no user and no password,
    and (the Redis command served) removes the recipient's cached
    recommendations; the same request again, at any later time, is refused
    with 400 and changes nothing. *)
Theorem recommendation_is_delivered_once
    (uid e id : string) (now : Z) (s : Site) (p : Property) (r : User) :
  Js.truthy e = true ->
  Store.findOne id (properties (world s)) = Some p ->
  Users.findOne e (users (world s)) = Some r ->
  ~ In (id, uid) (map rec_key (recommendationsReceived s (_id r))) ->
  let out := Recommendation.recommendProperty (Some uid) (Some e) id now s in
  out.1 = {| reply_status := 200;
             reply_body :=
               Plain (VMessage "Property recommended successfully") |} /\
  recommendationsReceived out.2 (_id r) =
    (recommendationsReceived s (_id r) ++
     [{| rec_propertyId := id; recommendedBy := uid;
         recommendedAt := now |}])%list /\
  (forall other, other <> _id r ->
     recommendationsReceived out.2 other = recommendationsReceived s other) /\
  properties (world out.2) = properties (world s) /\
  users (world out.2) = users (world s) /\
  passwords out.2 = passwords s /\
  (Redis.healthy (redis (world s)) = true ->
   Redis.kv (redis (world out.2))
     !! Recommendation.CACHE_KEYS.USER_RECOMMENDATIONS (_id r) = None) /\
  (forall later,
     Recommendation.recommendProperty (Some uid) (Some e) id later out.2 =
     ({| reply_status := 400;
         reply_body :=
           Plain (VMessage "Property already recommended to this user") |},
      out.2)).
Proof.
  intros He Hp Hr Hnew out.
  pose proof (findOne_Some _ _ _ Hp) as [Hid _].
  assert (List.find (Recommendation.same_recommendation (propertyId p) uid)
            (recommendationsReceived s (_id r)) = None) as Hfind.
  { apply find_same_None. by rewrite Hid. }
  pose proof (recommendProperty_sent uid e id now s p r He Hp Hr Hfind) as Hrun.
  rewrite Hid in Hrun. subst out. rewrite Hrun. cbn [fst snd].
  set (s1 := with_redis _ _).
  assert (recommendationsReceived s1 (_id r) =
          (recommendationsReceived s (_id r) ++
           [{| rec_propertyId := id; recommendedBy := uid;
               recommendedAt := now |}])%list) as Hinbox.
  { unfold s1. rewrite received_with_redis, received_with_received.
    by destruct (decide (_id r = _id r)). }
  split; [done |]. split; [done |]. split.
  { intros other Hne. unfold s1.
    rewrite received_with_redis, received_with_received.
    by destruct (decide (other = _id r)). }
  split; [done |]. split; [done |]. split; [done |]. split.
  { intros Hh. unfold s1, with_redis. cbn [world redis].
    rewrite del_eq, (healthy_next _ Hh). cbn [snd after Redis.kv].
    apply lookup_delete_eq. }
  intros later.
  destruct (find_same_last id uid now (recommendationsReceived s (_id r)))
    as [x Hx].
  apply (recommendProperty_repeated uid e id later s1 p r x He).
  - exact Hp.
  - exact Hr.
  - rewrite Hinbox, Hid. exact Hx.
Qed.

Lemma recommendation_is_delivered_once_witness :
  let out :=
    Recommendation.recommendProperty (Some "u1") (Some "bob@example.org")
      "PROP1002" 1000 Demo.site in
  reply_status out.1 = 200 /\
  recommendationsReceived out.2 "u2" =
    [{| rec_propertyId := "PROP1002"; recommendedBy := "u1";
        recommendedAt := 1000 |}] /\
  reply_status
    (Recommendation.recommendProperty (Some "u1") (Some "bob@example.org")
       "PROP1002" 2000 out.2).1 = 400.
Proof.
  destruct (recommendation_is_delivered_once "u1" "bob@example.org"
              "PROP1002" 1000 Demo.site Sample.flat Demo.bob
              eq_refl eq_refl eq_refl)
    as (Hst & Hin & _ & _ & _ & _ & _ & Hagain).
  { vm_compute. intros []. }
  cbv zeta. split; [by rewrite Hst |]. split; [exact Hin |].
  by rewrite (Hagain 2000).
Defined.

(** The ways [recommendProperty] ends: it changes nothing, or it passed
    every check. *)
Lemma recommendProperty_cases user recipientEmail id now s :
  (Recommendation.recommendProperty user recipientEmail id now s).2 = s \/
  exists uid e p r,
    user = Some uid /\ recipientEmail = Some e /\ Js.truthy e = true /\
    Store.findOne id (properties (world s)) = Some p /\
    Users.findOne e (users (world s)) = Some r /\
    List.find (Recommendation.same_recommendation (propertyId p) uid)
      (recommendationsReceived s (_id r)) = None.
Proof.
  unfold Recommendation.recommendProperty, handle.
  destruct user as [uid|]; [|by left].
  destruct recipientEmail as [e|]; [|by left]. unfold when_truthy.
  destruct (Js.truthy e) eqn:He; [|by left].
  unfold bind at 1, gets at 1.
  destruct (Store.findOne id (properties (world s))) as [p|] eqn:Hp;
    [|by left].
  unfold bind at 1, gets at 1.
  destruct (Users.findOne e (users (world s))) as [r|] eqn:Hr; [|by left].
  unfold bind at 1, gets at 1.
  destruct (List.find _ (recommendationsReceived s (_id r))) as [x|] eqn:Hx;
    [by left |].
  right. exists uid, e, p, r. done.
Qed.

(** X25: no duplicate recommendation: if no user has received the same
    listing twice from the same sender, this is still so after any
    request to recommend a listing, whoever the sender and the recipient
    and whatever the outcome. *)
Theorem recommendations_stay_distinct
    (user recipientEmail : option string) (id : string) (now : Z)
    (s : Site) :
  recommendations_distinct s ->
  recommendations_distinct
    (Recommendation.recommendProperty user recipientEmail id now s).2.
Proof.
  intros Hd.
  destruct (recommendProperty_cases user recipientEmail id now s)
    as [->|(uid & e & p & r & -> & -> & He & Hp & Hr & Hnew)]; [done |].
  rewrite (recommendProperty_sent uid e id now s p r He Hp Hr Hnew).
  cbn [snd]. intros uid'.
  rewrite received_with_redis, received_with_received.
  destruct (decide (uid' = _id r)) as [->|Hne]; [|apply Hd].
  rewrite map_app. apply NoDup_app. split; [apply Hd |]. split.
  - intros x Hx Hx'. cbn in Hx'. apply list_elem_of_singleton in Hx' as ->.
    apply find_same_None in Hnew. apply Hnew. by apply list_elem_of_In.
  - cbn. apply NoDup_singleton.
Qed.

Lemma recommendations_stay_distinct_witness :
  recommendations_distinct
    (Recommendation.recommendProperty (Some "u1") (Some "bob@example.org")
       "PROP1002" 2000
       (Recommendation.recommendProperty (Some "u1")
          (Some "bob@example.org") "PROP1002" 1000 Demo.site).2).2.
Proof.
  apply recommendations_stay_distinct, recommendations_stay_distinct.
  intros uid. unfold recommendationsReceived, Demo.site. cbn [received].
  rewrite lookup_empty. apply NoDup_nil_2.
Defined.

Lemma cache_set_returns JSON_stringify key v ttl r :
  exists r',
    Recommendation.cache_set JSON_stringify key v ttl r = (Returned tt, r').
Proof.
  unfold Recommendation.cache_set, try_catch, Client.set.
  destruct (JSON_stringify v); [|by eexists].
  rewrite command_eq. destruct (next_fault r); cbn [fst snd]; [by eexists |].
  destruct (ttl <=? 0); by eexists.
Qed.

(** The recommendations of a user, answered from the store. *)
Lemma getRecommendations_miss JSON_parse JSON_stringify uid s u :
  Redis.kv (redis (world s))
    !! Recommendation.CACHE_KEYS.USER_RECOMMENDATIONS uid = None ->
  Store.findById uid (users (world s)) = Some u ->
  (Recommendation.getRecommendations JSON_parse JSON_stringify
     (Some uid) s).1 =
  {| reply_status := 200;
     reply_body :=
       Recommendations
         (map (Recommendation.view (world s))
            (recommendationsReceived s (_id u))) |}.
Proof.
  intros Habs Hu. unfold Recommendation.getRecommendations, handle.
  cbv zeta. unfold bind at 1, in_world at 1, cache at 1.
  rewrite (get_miss _ _ _ Habs). cbn [CacheService.hit].
  unfold bind at 1, gets at 1. cbn [world users]. rewrite Hu.
  unfold bind at 1, gets at 1. unfold bind at 1, in_world, cache.
  cbn [world redis].
  match goal with
  | |- context [Recommendation.cache_set ?f ?k ?v ?t ?r] =>
      destruct (cache_set_returns f k v t r) as [r' ->]
  end.
  reflexivity.
Qed.

Lemma findById_of_email e us r :
  Users.findOne e us = Some r ->
  exists u, Store.findById (_id r) us = Some u /\ _id u = _id r.
Proof.
  unfold Users.findOne, Store.findById. intros H.
  apply find_some in H as [Hin _].
  destruct (List.find (fun u => (_id u =? _id r)%string) us) as [u|] eqn:Hf.
  - apply find_some in Hf as [_ Hid]. apply String.eqb_eq in Hid. eauto.
  - exfalso. apply (find_none _ _ Hf) in Hin.
    by rewrite String.eqb_refl in Hin.
Qed.

(** X26: a recommendation reaches the recipient: after a recommendation
    that passed the checks, with the Redis commands served, the
    recipient's next request for the recommendations is answered from the
    store, whatever was cached before, with the former recommendations
    followed by the new one, which carries the listing, the sender's
    identifier and email (null if no user has the sender's identifier) and
    the time. *)
Theorem recommendation_reaches_the_recipient
    (JSON_parse : string -> parsed)
    (JSON_stringify : list RecommendationView -> option string)
    (uid e id : string) (now : Z) (s : Site) (p : Property) (r : User) :
  Js.truthy e = true ->
  Store.findOne id (properties (world s)) = Some p ->
  Users.findOne e (users (world s)) = Some r ->
  ~ In (id, uid) (map rec_key (recommendationsReceived s (_id r))) ->
  Redis.healthy (redis (world s)) = true ->
  let s1 :=
    (Recommendation.recommendProperty (Some uid) (Some e) id now s).2 in
  (Recommendation.getRecommendations JSON_parse JSON_stringify
     (Some (_id r)) s1).1 =
  {| reply_status := 200;
     reply_body :=
       Recommendations
         (map (Recommendation.view (world s))
            (recommendationsReceived s (_id r)) ++
          [{| v_property := Some p;
              v_recommendedBy :=
                (fun u => (_id u, email u)) <$>
                  Store.findById uid (users (world s));
              v_recommendedAt := now |}])%list |}.
Proof.
  intros He Hp Hr Hnew Hh s1.
  pose proof (findOne_Some _ _ _ Hp) as [Hid _].
  assert (List.find (Recommendation.same_recommendation (propertyId p) uid)
            (recommendationsReceived s (_id r)) = None) as Hfind.
  { apply find_same_None. by rewrite Hid. }
  subst s1. rewrite (recommendProperty_sent uid e id now s p r He Hp Hr Hfind).
  cbn [snd]. set (s1 := with_redis _ _).
  destruct (findById_of_email _ _ _ Hr) as (u & Hu & Hidu).
  rewrite (getRecommendations_miss JSON_parse JSON_stringify (_id r) s1 u).
  - f_equal. f_equal. rewrite Hidu. unfold s1.
    rewrite received_with_redis, received_with_received.
    destruct (decide (_id r = _id r)); [|done].
    rewrite map_app. f_equal. cbn [map]. f_equal.
    unfold Recommendation.view, with_redis, Recommendation.with_received.
    cbn [rec_propertyId recommendedBy recommendedAt world properties users].
    by rewrite Hid, Hp.
  - unfold s1, with_redis. cbn [world redis].
    rewrite del_eq, (healthy_next _ Hh). cbn [snd after Redis.kv].
    apply lookup_delete_eq.
  - exact Hu.
Qed.

Lemma recommendation_reaches_the_recipient_witness :
  (Recommendation.getRecommendations Sample.parse_any Demo.count_views
     (Some "u2")
     (Recommendation.recommendProperty (Some "u1") (Some "bob@example.org")
        "PROP1002" 1000 Demo.site).2).1 =
  {| reply_status := 200;
     reply_body :=
       Recommendations
         [{| v_property := Some Sample.flat;
             v_recommendedBy := Some ("u1", "alice@example.org");
             v_recommendedAt := 1000 |}] |}.
Proof.
  apply (recommendation_reaches_the_recipient Sample.parse_any
           Demo.count_views "u1" "bob@example.org" "PROP1002" 1000 Demo.site
           Sample.flat Demo.bob eq_refl eq_refl eq_refl);
    [vm_compute; intros [] | reflexivity].
Defined.

Lemma key_apart_recommendations id uid :
  Recommendation.CACHE_KEYS.USER_RECOMMENDATIONS uid <> CACHE_KEYS.PROPERTY id.
Proof.
  unfold CACHE_KEYS.PROPERTY, Recommendation.CACHE_KEYS.USER_RECOMMENDATIONS.
  push_append. discriminate.
Qed.

(** X27: a recommended listing outlives its deletion: a deletion that
    answers 200 leaves the cached recommendations of every user in place,
    and the recommendations themselves; answered from the store, the
    recommendations of a user are then all still listed, those of the
    deleted listing with null in the place of the listing. *)
Theorem recommended_listing_outlives_its_deletion
    (JSON_parse : string -> parsed)
    (JSON_stringify : list RecommendationView -> option string)
    (user : option string) (id uid : string) (s : Site) (u : User)
    (resp : Response) (w' : World) :
  unique_ids (properties (world s)) ->
  deleteProperty user id (world s) = (resp, w') ->
  status resp = 200 ->
  Store.findById uid (users (world s)) = Some u ->
  let key := Recommendation.CACHE_KEYS.USER_RECOMMENDATIONS uid in
  let inbox := recommendationsReceived s uid in
  Redis.kv (redis w') !! key = Redis.kv (redis (world s)) !! key /\
  (Redis.kv (redis w') !! key = None ->
   (Recommendation.getRecommendations JSON_parse JSON_stringify (Some uid)
      (with_world s w')).1 =
   {| reply_status := 200;
      reply_body := Recommendations (map (Recommendation.view w') inbox) |}) /\
  (forall r, rec_propertyId r = id ->
     v_property (Recommendation.view w' r) = None).
Proof.
  intros Huniq Hrun Hst Hu key inbox.
  destruct (deleteProperty_200 _ _ _ _ _ Hrun Hst)
    as (caller & p & _ & _ & _ & _ & Hdb & Hus & _).
  split; [|split].
  - destruct (listing_mutation_keeps (fun _ => Js.NaN) user id
                (Sample.new_price 0) 0%N (world s) key) as (_ & _ & Hk).
    + intros id'. apply key_apart_recommendations.
    + reflexivity.
    + reflexivity.
    + by rewrite Hrun in Hk.
  - intros Habs.
    pose proof (findById_Some _ _ _ Hu) as [Hid _].
    rewrite (getRecommendations_miss JSON_parse JSON_stringify uid
               (with_world s w') u Habs).
    + by rewrite Hid.
    + cbn [with_world world]. by rewrite Hus.
  - intros r Hr. unfold Recommendation.view. cbn [v_property].
    rewrite Hr, Hdb. by apply findOne_remove_first_eq.
Qed.

Lemma recommended_listing_outlives_its_deletion_witness :
  let s0 :=
    (Recommendation.recommendProperty (Some "u1") (Some "bob@example.org")
       "PROP1001" 1000 Demo.site).2 in
  let out := deleteProperty (Some "u1") "PROP1001" (world s0) in
  status out.1 = 200 /\
  (Recommendation.getRecommendations Sample.parse_any Demo.count_views
     (Some "u2") (with_world s0 out.2)).1 =
  {| reply_status := 200;
     reply_body :=
       Recommendations
         [{| v_property := None;
             v_recommendedBy := Some ("u1", "alice@example.org");
             v_recommendedAt := 1000 |}] |}.
Proof.
  intros s0 out. split; [reflexivity |].
  destruct (recommended_listing_outlives_its_deletion Sample.parse_any
              Demo.count_views (Some "u1") "PROP1001" "u2" s0 Demo.bob
              out.1 out.2) as (_ & Hget & _).
  - apply sample_unique.
  - reflexivity.
  - reflexivity.
  - reflexivity.
  - exact (Hget eq_refl).
Defined.

(** ** Authentication *)

Lemma replace_with_empty_unfold pattern s :
  Auth.replace_with_empty pattern s =
  if String.prefix pattern s then
    String.substring (String.length pattern)
      (String.length s - String.length pattern) s
  else
    match s with
    | EmptyString => EmptyString
    | String c r => String c (Auth.replace_with_empty pattern r)
    end.
Proof. by destruct s. Qed.

Lemma substring_all s : String.substring 0 (String.length s) s = s.
Proof. induction s as [|c s IH]; cbn; [done | by rewrite IH]. Qed.

Lemma prefix_append p t : String.prefix p (p +:+ t) = true.
Proof.
  induction p as [|c p IH].
  - rewrite append_Empty. by destruct t.
  - rewrite append_String. cbn. by destruct (ascii_dec c c).
Qed.

Lemma length_append p t :
  String.length (p +:+ t) = (String.length p + String.length t)%nat.
Proof.
  induction p as [|c p IH].
  - by rewrite append_Empty.
  - rewrite append_String. cbn. by rewrite IH.
Qed.

Lemma substring_append p t :
  String.substring (String.length p) (String.length t) (p +:+ t) = t.
Proof.
  induction p as [|c p IH].
  - rewrite append_Empty. apply substring_all.
  - rewrite append_String. cbn. exact IH.
Qed.

(** The first occurrence is the leading one. *)
Lemma replace_with_empty_leading p t : Auth.replace_with_empty p (p +:+ t) = t.
Proof.
  rewrite replace_with_empty_unfold, prefix_append, length_append.
  replace (String.length p + String.length t - String.length p)%nat
    with (String.length t) by lia.
  apply substring_append.
Qed.

Lemma replace_with_empty_absent p s : occurs p s = false -> Auth.replace_with_empty p s = s.
Proof.
  induction s as [|c s IH]; intros H; rewrite replace_with_empty_unfold;
    cbn [occurs] in H; apply orb_false_iff in H as [-> H]; [done |].
  by rewrite IH.
Qed.

(** X28: the scheme of the [Authorization] header is optional: a header
    made of the scheme and a token, and a header made of the bare token
    (in which the scheme does not occur), are treated alike: without a
    header, or with an empty token, the answer is 401 'No token provided';
    otherwise the request goes on with the verified payload of the token,
    or ends with 401 'Invalid token' when the verification fails. *)
Theorem bearer_scheme_is_optional
    (jwt_verify : string -> Z -> option Claims) (t : string) (now : Z) :
  let refused message :=
    inl {| reply_status := 401; reply_body := Plain (VMessage message) |} in
  let verdict :=
    if Js.truthy t then
      match jwt_verify t now with
      | Some decoded => inr decoded
      | None => refused "Invalid token"
      end
    else refused "No token provided" in
  Auth.authMiddleware jwt_verify (Some ("Bearer " +:+ t)) now = verdict /\
  (occurs "Bearer " t = false ->
   Auth.authMiddleware jwt_verify (Some t) now = verdict) /\
  Auth.authMiddleware jwt_verify None now = refused "No token provided".
Proof.
  cbv zeta. unfold Auth.authMiddleware. cbn [fmap option_fmap option_map].
  split; [|split; [|done]].
  - rewrite replace_with_empty_leading. unfold when_truthy.
    by destruct (Js.truthy t).
  - intros Habs. rewrite (replace_with_empty_absent _ _ Habs). unfold when_truthy.
    by destruct (Js.truthy t).
Qed.

Lemma bearer_scheme_is_optional_witness :
  Auth.authMiddleware Demo.verify (Some "u1|alice@example.org") 0 =
  inr {| claims_id := "u1"; claims_email := "alice@example.org" |} /\
  Auth.authMiddleware Demo.verify (Some "Bearer u1|alice@example.org") 0 =
  inr {| claims_id := "u1"; claims_email := "alice@example.org" |}.
Proof.
  destruct (bearer_scheme_is_optional Demo.verify "u1|alice@example.org" 0)
    as (Hscheme & Hbare & _).
  split; [exact (Hbare eq_refl) | exact Hscheme].
Defined.

Lemma find_none_existsb {A} (f : A -> bool) l :
  List.find f l = None <-> existsb f l = false.
Proof.
  induction l as [|x l IH]; cbn; [done |]. by destruct (f x).
Qed.

Lemma find_app_last {A} (f : A -> bool) l x :
  List.find f l = None -> f x = true -> List.find f (l ++ [x])%list = Some x.
Proof.
  intros Hn Hx. induction l as [|y l IH]; cbn in *; [by rewrite Hx |].
  destruct (f y); [done | auto].
Qed.

(** The site after a registration. *)
Lemma registerUser_created bcrypt_hash mail password salt oid s :
  Js.truthy mail = true ->
  Js.truthy (bcrypt_hash password salt) = true ->
  Users.findOne mail (users (world s)) = None ->
  Store.findById oid (users (world s)) = None ->
  Auth.registerUser bcrypt_hash mail password salt oid s =
  ({| reply_status := 201;
      reply_body := Plain (VMessage "User registered successfully") |},
   {| world :=
        {| properties := properties (world s);
           users :=
             (users (world s) ++
              [{| _id := oid; email := mail; favorites := [] |}])%list;
           redis := redis (world s) |};
      passwords := <[oid := bcrypt_hash password salt]> (passwords s);
      received := <[oid := []]> (received s) |}).
Proof.
  intros Hm Hh Hnew Hfresh.
  unfold Auth.registerUser, handle, bind, gets, Users.create.
  rewrite Hnew, Hm, Hh. cbn [negb].
  apply find_none_existsb in Hnew, Hfresh. by rewrite Hnew, Hfresh.
Qed.

(** The ways a registration ends: refused or failed with nothing changed,
    or the user created. *)
Lemma registerUser_cases bcrypt_hash mail password salt oid s :
  let out := Auth.registerUser bcrypt_hash mail password salt oid s in
  (reply_status out.1 <> 201 /\ out.2 = s) \/
  (reply_status out.1 = 201 /\
   Js.truthy mail = true /\ Js.truthy (bcrypt_hash password salt) = true /\
   Users.findOne mail (users (world s)) = None /\
   Store.findById oid (users (world s)) = None).
Proof.
  cbv zeta. unfold Auth.registerUser, handle, bind, gets, Users.create.
  destruct (Users.findOne mail (users (world s))) as [u|] eqn:Hnew;
    [by left |].
  destruct (Js.truthy mail) eqn:Hm; cbn [negb]; [|by left].
  destruct (Js.truthy (bcrypt_hash password salt)) eqn:Hh; cbn [negb];
    [|by left].
  destruct (existsb _ (users (world s))) eqn:He; [by left |].
  destruct (existsb (fun u => (_id u =? oid)%string) (users (world s)))
    eqn:Hi; [by left |].
  right. cbn. repeat split. by apply find_none_existsb.
Qed.

(** X29: a registered user can sign in: for an email that is not empty
    and not yet registered (the store giving a fresh identifier, [bcrypt]
    accepting the password against its own hash, the token verifying
    while it is valid), registration answers 201; the user is then found
    by email; a login with the same email and password answers 200 with a
    token for the new identifier and email, and changes nothing; the
    middleware lets a request with that token through with this identity;
    a login with a password that [bcrypt] rejects answers the same 400
    'Invalid credentials' as a login with an unknown email. *)
Theorem registered_user_can_sign_in
    (bcrypt_hash : string -> string -> string)
    (bcrypt_compare : string -> string -> bool)
    (jwt_sign : Claims -> Z -> string)
    (jwt_verify : string -> Z -> option Claims)
    (mail password salt oid : string) (t0 t1 : Z) (s : Site) :
  let hashed := bcrypt_hash password salt in
  let identity := {| claims_id := oid; claims_email := mail |} in
  let token := jwt_sign identity t0 in
  Js.truthy mail = true ->
  Users.findOne mail (users (world s)) = None ->
  Store.findById oid (users (world s)) = None ->
  Js.truthy hashed = true ->
  bcrypt_compare password hashed = true ->
  Js.truthy token = true ->
  jwt_verify token t1 = Some identity ->
  let out := Auth.registerUser bcrypt_hash mail password salt oid s in
  let login := Auth.loginUser bcrypt_compare jwt_sign in
  let invalid :=
    {| reply_status := 400;
       reply_body := Plain (VMessage "Invalid credentials") |} in
  reply_status out.1 = 201 /\
  (Recommendation.searchUser (Some mail) out.2).1 =
    {| reply_status := 200;
       reply_body :=
         FoundUser {| _id := oid; email := mail; favorites := [] |} [] |} /\
  login mail password t0 out.2 =
    ({| reply_status := 200; reply_body := Token token |}, out.2) /\
  Auth.authMiddleware jwt_verify (Some ("Bearer " +:+ token)) t1 =
    inr identity /\
  (forall wrong now,
     bcrypt_compare wrong hashed = false ->
     login mail wrong now out.2 = (invalid, out.2)) /\
  (forall unknown pw now,
     Users.findOne unknown (users (world out.2)) = None ->
     login unknown pw now out.2 = (invalid, out.2)).
Proof.
  intros hashed identity token Hm Hnew Hfresh Hh Hcmp Htok Hver out login
    invalid.
  subst out.
  rewrite (registerUser_created bcrypt_hash mail password salt oid s
             Hm Hh Hnew Hfresh).
  cbn [fst snd reply_status]. set (s1 := Build_Site _ _ _).
  set (u := {| _id := oid; email := mail; favorites := [] |}).
  assert (Users.findOne mail (users (world s1)) = Some u) as Hu.
  { unfold s1. cbn [world users]. apply find_app_last; [exact Hnew |].
    cbn. apply String.eqb_refl. }
  assert (passwords s1 !! oid = Some hashed) as Hpw.
  { unfold s1. cbn [passwords]. apply lookup_insert_eq. }
  split; [done |]. split.
  { unfold Recommendation.searchUser, handle, when_truthy.
    rewrite Hm. unfold bind, gets. rewrite Hu.
    unfold recommendationsReceived, s1. cbn [received _id u].
    by rewrite lookup_insert_eq. }
  split.
  { unfold login, Auth.loginUser, handle, bind, gets. rewrite Hu.
    cbn [_id u]. rewrite Hpw, Hcmp. reflexivity. }
  split.
  { unfold Auth.authMiddleware. cbn [fmap option_fmap option_map].
    rewrite replace_with_empty_leading. unfold when_truthy.
    by rewrite Htok, Hver. }
  split.
  { intros wrong now Hwrong.
    unfold login, Auth.loginUser, handle, bind, gets. rewrite Hu.
    cbn [_id u]. by rewrite Hpw, Hwrong. }
  intros unknown pw now Hunk.
  unfold login, Auth.loginUser, handle, bind, gets. by rewrite Hunk.
Qed.

Lemma registered_user_can_sign_in_witness :
  let s1 :=
    (Auth.registerUser Demo.hash "carol@example.org" "secret" "salt" "u3"
       Demo.site).2 in
  (Auth.loginUser Demo.compare Demo.sign "carol@example.org" "secret" 5 s1).1 =
    {| reply_status := 200; reply_body := Token "u3|carol@example.org" |} /\
  Auth.authMiddleware Demo.verify (Some "Bearer u3|carol@example.org") 9 =
    inr {| claims_id := "u3"; claims_email := "carol@example.org" |} /\
  (Auth.loginUser Demo.compare Demo.sign "carol@example.org" "guess" 5 s1).1 =
    {| reply_status := 400;
       reply_body := Plain (VMessage "Invalid credentials") |}.
Proof.
  destruct (registered_user_can_sign_in Demo.hash Demo.compare Demo.sign
              Demo.verify "carol@example.org" "secret" "salt" "u3" 5 9
              Demo.site eq_refl eq_refl eq_refl eq_refl eq_refl eq_refl
              eq_refl)
    as (_ & _ & Hlogin & Hpass & Hwrong & _).
  cbv zeta. split; [by rewrite Hlogin |]. split; [exact Hpass |].
  by rewrite (Hwrong "guess" 5 eq_refl).
Defined.

Lemma map_app_singleton_NoDup {A B} (f : A -> B) (l : list A) (x : A) :
  NoDup (map f l) -> ~ In (f x) (map f l) -> NoDup (map f (l ++ [x])%list).
Proof.
  intros Hl Hx. rewrite map_app. apply NoDup_app. split; [done |]. split.
  - intros y Hy Hy'. cbn in Hy'. apply list_elem_of_singleton in Hy' as ->.
    apply Hx. by apply list_elem_of_In.
  - cbn. apply NoDup_singleton.
Qed.

Lemma existsb_false_not_In (g : User -> string) (k : string) us :
  existsb (fun u => String.eqb (g u) k) us = false -> ~ In k (map g us).
Proof.
  intros H Hin. apply in_map_iff in Hin as (u & <- & Hu).
  assert (existsb (fun v => String.eqb (g v) (g u)) us = true) as Ht.
  { apply existsb_exists. exists u. split; [done | apply String.eqb_refl]. }
  congruence.
Qed.

(** X30: registration keeps the users distinct: if the emails and the
    identifiers of the users are pairwise distinct, they still are after
    any request to register, whatever it carries and however it ends; a
    request that does not answer 201 changes nothing, and after one that
    answers 201 every further registration with that email is refused
    with 400 'User already exists' and changes nothing. *)
Theorem registration_keeps_users_distinct
    (bcrypt_hash : string -> string -> string)
    (mail password salt oid : string) (s : Site) :
  unique_users (users (world s)) ->
  let out := Auth.registerUser bcrypt_hash mail password salt oid s in
  unique_users (users (world out.2)) /\
  (reply_status out.1 <> 201 -> out.2 = s) /\
  (reply_status out.1 = 201 ->
   forall password' salt' oid',
     Auth.registerUser bcrypt_hash mail password' salt' oid' out.2 =
     ({| reply_status := 400;
         reply_body := Plain (VMessage "User already exists") |}, out.2)).
Proof.
  intros [Hmail Hid] out.
  destruct (registerUser_cases bcrypt_hash mail password salt oid s)
    as [[Hst Hsame]|(Hst & Hm & Hh & Hnew & Hfresh)]; fold out in Hst.
  - fold out in Hsame. rewrite Hsame. split; [done |]. split; [done |].
    intros H. by rewrite H in Hst.
  - subst out.
    rewrite (registerUser_created bcrypt_hash mail password salt oid s
               Hm Hh Hnew Hfresh) in *.
    cbn [fst snd world users reply_status]. split; [split |].
    + apply map_app_singleton_NoDup; [done |]. cbn [email].
      apply find_none_existsb in Hnew.
      by apply (existsb_false_not_In email).
    + apply map_app_singleton_NoDup; [done |]. cbn [_id].
      apply find_none_existsb in Hfresh.
      by apply (existsb_false_not_In _id).
    + split; [done |]. intros _ password' salt' oid'.
      set (u := {| _id := oid; email := mail; favorites := [] |}).
      assert (Users.findOne mail (users (world s) ++ [u])%list = Some u)
        as Hu.
      { apply find_app_last; [exact Hnew | cbn; apply String.eqb_refl]. }
      unfold Auth.registerUser, handle, bind, gets. cbn [world users].
      by rewrite Hu.
Qed.

Lemma registration_keeps_users_distinct_witness :
  let out :=
    Auth.registerUser Demo.hash "carol@example.org" "secret" "salt" "u3"
      Demo.site in
  unique_users (users (world out.2)) /\
  reply_status
    (Auth.registerUser Demo.hash "carol@example.org" "other" "pepper" "u4"
       out.2).1 = 400.
Proof.
  assert (unique_users (users (world Demo.site))) as Hu.
  { split; cbn; (apply NoDup_cons; split; [|apply NoDup_singleton]);
      (apply not_elem_of_cons; split; [discriminate | apply not_elem_of_nil]). }
  destruct (registration_keeps_users_distinct Demo.hash "carol@example.org"
              "secret" "salt" "u3" Demo.site Hu) as (Hd & _ & Hagain).
  cbv zeta. split; [exact Hd |].
  by rewrite (Hagain eq_refl "other" "pepper" "u4").
Defined.
